(** * Agricultural-robot control panel: data layer, controller, alert engine
      and client poller, embedded from the JavaScript sources.

    Conventions of the embedding.
    - A JavaScript number is kept as its exact value, a rational ([Q]), and
      every arithmetic result is rounded to the nearest binary64 number, ties
      to even ([Js.fl]), as IEEE 754 prescribes; a decimal literal of the
      source and a number read from JSON are the rounding of the decimal
      ([Js.lit]).  The non-finite results are kept apart ([JsNum]); the sign
      of zero is not kept.  Time stamps ([Date.now()]) are integers in
      milliseconds.
    - A JavaScript object of fixed shape is a record; one that is read and
      written by field name at run time is a [gmap string _], in which
      [undefined] is the absence of a key ([None]).  A table written as an
      object literal is read through [Js.label], which also finds what the
      literal inherits from [Object.prototype].
    - Module-level mutable state is passed explicitly: every operation takes
      the state before and returns the state after, next to its result.
    - Non-determinism of the platform ([Math.random()], the outcome of a
      network request, the clock) is an explicit argument. *)

From Stdlib Require Import ZArith QArith Qround Qabs Qpower Sorted Lia Lqa.
From stdpp Require Import gmap strings pretty list fin_maps.

Open Scope string_scope.
Open Scope list_scope.

(* ===================================================================== *)
(** * JavaScript values *)
(* ===================================================================== *)

Module Js.

(** What [JSON.parse] can return. *)
#[local] Unset Elimination Schemes.
Inductive Json : Type :=
| JNull
| JBool (b : bool)
| JNum (q : Q)
| JStr (s : string)
| JArr (items : list Json)
| JObj (fields : list (string * Json)).
#[local] Set Elimination Schemes.

(** The result of an arithmetic expression: finite, or one of the three
    special values of IEEE arithmetic. *)
Inductive JsNum : Type :=
| Fin (q : Q)
| PInf
| NInf
| NaN.

(** ** Binary64 arithmetic *)

(** [2^z]. *)
Definition pow2 (z : Z) : Q := Qpower 2 z.

(** For [0 < q]: the integer [e] with [2^e <= q < 2^(e+1)]. *)
Definition exponent (q : Q) : Z :=
  let k := (Z.log2 (Qnum q) - Z.log2 (Zpos (Qden q)))%Z in
  if Qle_bool (pow2 k) q then k else (k - 1)%Z.

(** The integer nearest to [x], the even one of two equally near. *)
Definition rne (x : Q) : Z :=
  let f := Qfloor x in
  match Qcompare (x - inject_Z f) (1 # 2) with
  | Lt => f
  | Gt => (f + 1)%Z
  | Eq => if Z.even f then f else (f + 1)%Z
  end.

(** The exponent of the last place of the binary64 numbers around [q]: 53
    significant bits, and no place below [2^-1074]. *)
Definition ulp_exponent (q : Q) : Z := Z.max (exponent q - 52) (-1074).

Definition fl_pos (q : Q) : Q :=
  let u := ulp_exponent q in (inject_Z (rne (q / pow2 u)) * pow2 u)%Q.

(** Rounding to binary64, to nearest, ties to even, as a fraction in lowest
    terms.  A magnitude of [2^1024] or more is an overflow, which [num]
    turns into an infinity. *)
Definition fl (q : Q) : Q :=
  match Qcompare q 0 with
  | Eq => 0
  | Gt => Qred (fl_pos q)
  | Lt => Qred (- fl_pos (- q))
  end.

(** The value of a decimal literal, or of a number in a JSON text. *)
Definition lit (q : Q) : Q := fl q.

(** [q] is a binary64 number. *)
Definition is_double (q : Q) : Prop :=
  (fl q == q)%Q /\ (Qabs q < pow2 1024)%Q.

(** The result of an operation whose exact value is [q]. *)
Definition num (q : Q) : JsNum :=
  if Qle_bool (pow2 1024) (Qabs (fl q))
  then (if Qle_bool 0 q then PInf else NInf)
  else Fin (fl q).

(** [a + b], [a - b] and [a * b] where the result stays below [2^1024] in
    magnitude: the sums and products of the data layer, which combine a
    stored number with a draw below 1 scaled by the constants of the
    module. *)
Definition add (a b : Q) : Q := fl (a + b).
Definition sub (a b : Q) : Q := fl (a - b).
Definition mul (a b : Q) : Q := fl (a * b).

(** [a / b] on finite operands. *)
Definition div (a b : Q) : JsNum :=
  if Qeq_bool b 0 then
    (if Qeq_bool a 0 then NaN
     else if Qle_bool 0 a then PInf else NInf)
  else num (a / b).

(** [x * k] for a finite positive constant [k]. *)
Definition scale (x : JsNum) (k : Q) : JsNum :=
  match x with
  | Fin q => num (q * k)
  | other => other
  end.

(** [Math.max(a, b)] and [Math.min(a, b)] on finite operands. *)
Definition max (a b : Q) : Q := if Qle_bool a b then b else a.
Definition min (a b : Q) : Q := if Qle_bool a b then a else b.

(** [Math.floor(q)]. *)
Definition floor (q : Q) : Q := inject_Z (Qfloor q).

(** The integer [n] that [toFixed] prints for [x] with [unit] = 10^digits:
    [n / unit] is nearest to the exact value of [x], and of two equally
    near the one of larger magnitude is taken. *)
Definition nearest (unit : positive) (x : Q) : Z :=
  if Qle_bool 0 x
  then Qfloor (x * inject_Z (Zpos unit) + (1 # 2))
  else (- Qfloor ((- x) * inject_Z (Zpos unit) + (1 # 2)))%Z.

(** [Number(x.toFixed(digits))] with [unit] = 10^digits: [toFixed] prints
    the decimal [n / unit], which [Number] reads back as a binary64
    number; from 10^21 on [toFixed] prints the number itself. *)
Definition toFixed (unit : positive) (x : Q) : Q :=
  if Qle_bool (inject_Z (10 ^ 21)) (Qabs x) then x
  else lit (nearest unit x # unit).

(** [Number(q.toFixed(1))]. *)
Definition round_tenths (q : Q) : Q := toFixed 10 q.

Definition toFixed1 (x : JsNum) : JsNum :=
  match x with
  | Fin q => Fin (round_tenths q)
  | other => other
  end.

(** ** Tables written as object literals *)

(** What a template literal makes of a built-in function. *)
Definition native (name : string) : string :=
  "function " +:+ name +:+ "() { [native code] }".

(** The members that an object literal inherits from [Object.prototype],
    each with the text that a template literal makes of its value (on V8,
    the engine of Node.js): eleven functions, and the prototype object
    itself under [__proto__]. *)
Definition object_prototype : gmap string string :=
  list_to_map
    [ ("constructor", native "Object");
      ("hasOwnProperty", native "hasOwnProperty");
      ("isPrototypeOf", native "isPrototypeOf");
      ("propertyIsEnumerable", native "propertyIsEnumerable");
      ("toLocaleString", native "toLocaleString");
      ("toString", native "toString");
      ("valueOf", native "valueOf");
      ("__defineGetter__", native "__defineGetter__");
      ("__defineSetter__", native "__defineSetter__");
      ("__lookupGetter__", native "__lookupGetter__");
      ("__lookupSetter__", native "__lookupSetter__");
      ("__proto__", "[object Object]") ].

(** Truthiness of a string ([!s] is [true] exactly for the empty string)
    and of a possibly absent string. *)
Definition truthy_str (s : string) : bool :=
  match s with
  | "" => false
  | _ => true
  end.

Definition truthy (v : option string) : bool :=
  match v with
  | None => false
  | Some s => truthy_str s
  end.

(** [v || d] for a possibly absent string. *)
Definition str_or (v : option string) (d : string) : string :=
  match v with
  | Some s => if truthy_str s then s else d
  | None => d
  end.

(** The text of [table[key] || key] in a template literal, for a table
    written as an object literal with string values: an own member when it
    is a non-empty string, else an inherited member (all of them truthy),
    else the key. *)
Definition label (table : gmap string string) (key : string) : string :=
  match table !! key with
  | Some own => if truthy_str own then own else key
  | None => default key (object_prototype !! key)
  end.

(** [v || d] for a possibly absent number ([0] is falsy). *)
Definition num_or (v : option Q) (d : Q) : Q :=
  match v with
  | Some q => if Qeq_bool q 0 then d else q
  | None => d
  end.

End Js.

(* ===================================================================== *)
(** * backend/data/mockData.js *)
(* ===================================================================== *)

Module MockData.
Import Js.

(** The part of the module's [state] object that the statistics functions
    read and write. *)
Record State : Type := mkState {
  completedArea : Q;
  totalArea : Q
}.

Definition state0 : State :=
  {| completedArea := lit (125 # 10); totalArea := lit (382 # 10) |}.

(** [random(min, max)], with [r] the value of [Math.random()]. *)
Definition random (r lo hi : Q) : Q := add (mul r (sub hi lo)) lo.

Definition clamp (value lo hi : Q) : Q := Js.min (Js.max value lo) hi.

Record Statistics : Type := mkStatistics {
  st_completedArea : Q;
  st_totalArea : Q;
  st_progress : JsNum
}.

(** [getStatistics()]. *)
Definition getStatistics (r : Q) (s : State) : State * Statistics :=
  let s1 := {| completedArea :=
                 clamp (add (completedArea s) (random r 0 (lit (1 # 10))))
                       0 (totalArea s);
               totalArea := totalArea s |} in
  let progress :=
    toFixed1 (scale (div (completedArea s1) (totalArea s1)) 100) in
  (s1, {| st_completedArea := round_tenths (completedArea s1);
          st_totalArea := totalArea s1;
          st_progress := progress |}).

(** The argument of [updateStatistics]: both fields optional numbers. *)
Record StatsUpdate : Type := mkStatsUpdate {
  upd_completedArea : option Q;
  upd_totalArea : option Q
}.

(** [updateStatistics(data)]. *)
Definition updateStatistics (data : StatsUpdate) (s : State)
  : State * Statistics :=
  let s1 := match upd_completedArea data with
            | Some c => {| completedArea := Js.max 0 c;
                           totalArea := totalArea s |}
            | None => s
            end in
  let s2 := match upd_totalArea data with
            | Some t => {| completedArea := completedArea s1;
                           totalArea := Js.max 0 t |}
            | None => s1
            end in
  let progress :=
    if negb (Qle_bool (totalArea s2) 0)
    then toFixed1 (scale (div (completedArea s2) (totalArea s2)) 100)
    else Fin 0 in
  (s2, {| st_completedArea := round_tenths (completedArea s2);
          st_totalArea := totalArea s2;
          st_progress := progress |}).

(** ** Tasks *)

Record Task : Type := mkTask {
  id : Z;
  name : string;
  status : string;
  progress : Q
}.

(** The initial contents of the module variable [tasks]. *)
Definition tasks0 : list Task :=
  [ {| id := 1; name := "A区灌溉作业"; status := "active"; progress := 45 |};
    {| id := 2; name := "B区病虫害检测"; status := "pending"; progress := 0 |};
    {| id := 3; name := "D区施肥作业"; status := "done"; progress := 100 |} ].

(** The argument of [createTask]. *)
Record TaskData : Type := mkTaskData {
  td_name : string;
  td_status : option string;
  td_progress : option Q
}.

(** [Math.max(...tasks.map(t => t.id))] for a non-empty list. *)
Fixpoint max_id (first : Z) (rest : list Task) : Z :=
  match rest with
  | [] => first
  | t :: rest' => max_id (Z.max first (id t)) rest'
  end.

Definition newId (tasks : list Task) : Z :=
  match tasks with
  | [] => 1
  | t :: rest => (max_id (id t) rest + 1)%Z
  end.

(** [createTask(taskData)]: the new list and the task returned. *)
Definition createTask (taskData : TaskData) (tasks : list Task)
  : list Task * Task :=
  let newTask := {| id := newId tasks;
                    name := td_name taskData;
                    status := str_or (td_status taskData) "pending";
                    progress := num_or (td_progress taskData) 0 |} in
  (tasks ++ [newTask], newTask).

Definition getTasks (tasks : list Task) : list Task := tasks.

(** The argument of [updateTask]. *)
Record TaskUpdate : Type := mkTaskUpdate {
  tu_name : option string;
  tu_status : option string;
  tu_progress : option Q
}.

Definition apply_update (u : TaskUpdate) (t : Task) : Task :=
  {| id := id t;
     name := default (name t) (tu_name u);
     status := default (status t) (tu_status u);
     progress := match tu_progress u with
                 | Some p => clamp p 0 100
                 | None => progress t
                 end |}.

(** [updateTask(taskId, updateData)]: the first task with that id is
    updated in place; [None] is the [null] returned for an unknown id. *)
Fixpoint updateTask (taskId : Z) (u : TaskUpdate) (tasks : list Task)
  : list Task * option Task :=
  match tasks with
  | [] => ([], None)
  | t :: rest =>
      if Z.eqb (id t) taskId
      then (apply_update u t :: rest, Some (apply_update u t))
      else let '(rest', r) := updateTask taskId u rest in (t :: rest', r)
  end.

(** [deleteTask(taskId)]. *)
Definition deleteTask (taskId : Z) (tasks : list Task) : list Task * bool :=
  let tasks' := List.filter (fun t => negb (Z.eqb (id t) taskId)) tasks in
  (tasks', Nat.ltb (length tasks') (length tasks)).

(** A request to the task store, and a run of requests. *)
Inductive Op : Type :=
| Create (d : TaskData)
| Update (taskId : Z) (u : TaskUpdate)
| Delete (taskId : Z).

Definition step (tasks : list Task) (op : Op) : list Task :=
  match op with
  | Create d => fst (createTask d tasks)
  | Update i u => fst (updateTask i u tasks)
  | Delete i => fst (deleteTask i tasks)
  end.

Definition run (ops : list Op) (tasks : list Task) : list Task :=
  fold_left step ops tasks.

Definition ids (tasks : list Task) : list Z := List.map id tasks.

End MockData.

(* ===================================================================== *)
(** * backend/data/dataSource.js *)
(* ===================================================================== *)

Module DataSource.
Import Js.

(** [CONFIG.type]. *)
Inductive SourceType : Type :=
| Serial | Mqtt | Http | Websocket | Database | Unknown.

(** [CONFIG.mqtt.topics]. *)
Definition topic_status : string := "robot/status".
Definition topic_sensors : string := "robot/sensors".
Definition topic_tasks : string := "robot/tasks".
Definition topic_statistics : string := "robot/statistics".
Definition topic_control : string := "robot/control".

(** [CONFIG.http.endpoints.control]. *)
Definition endpoint_control : string := "/api/control".

(** The module variable [cache].  The three object-valued categories are
    maps from field name to value; [tasks] holds whatever value was last
    stored (an array in the initial state). *)
Record Cache : Type := mkCache {
  robot : gmap string Json;
  sensors : gmap string Json;
  tasks : Json;
  statistics : gmap string Json;
  lastUpdate : option Z
}.

Definition cache0 : Cache :=
  {| robot := list_to_map
       [ ("battery", JNum 0); ("speed", JNum 0); ("temperature", JNum 0);
         ("coordinates", JObj [("lat", JNum 0); ("lon", JNum 0)]) ];
     sensors := list_to_map
       [ ("soilHumidity", JNum 0); ("soilTemp", JNum 0);
         ("light", JNum 0); ("airHumidity", JNum 0) ];
     tasks := JArr [];
     statistics := list_to_map
       [ ("completedArea", JNum 0); ("totalArea", JNum 0);
         ("progress", JNum 0) ];
     lastUpdate := None |}.

(** The own enumerable properties of a parsed value, as the object spread
    [{...v}] copies them: the fields of an object (the last occurrence of a
    repeated key wins in [JSON.parse]), the indices of an array, the
    character positions of a string (of ASCII text), nothing for the other
    values. *)
Fixpoint indexed {A : Type} (i : nat) (l : list A) : list (string * A) :=
  match l with
  | [] => []
  | x :: l' => (pretty i, x) :: indexed (S i) l'
  end.

Fixpoint chars (s : string) : list Json :=
  match s with
  | EmptyString => []
  | String c s' => JStr (String c EmptyString) :: chars s'
  end.

Definition own_props (v : Json) : gmap string Json :=
  match v with
  | JObj fields => list_to_map (reverse fields)
  | JArr items => list_to_map (indexed 0 items)
  | JStr s => list_to_map (indexed 0 (chars s))
  | JNull | JBool _ | JNum _ => ∅
  end.

(** [{...target, ...source}]. *)
Definition spread (target : gmap string Json) (source : Json)
  : gmap string Json :=
  own_props source ∪ target.

(** The handler of [connection.on('message', ...)] in [initMqtt].
    [parsed] is the outcome of [JSON.parse(message.toString())]: [None]
    when it throws, in which case the [catch] block only logs. *)
Definition onMqttMessage (now : Z) (topic : string) (parsed : option Json)
    (c : Cache) : Cache :=
  match parsed with
  | None => c
  | Some data =>
      let c1 :=
        if String.eqb topic topic_status then
          {| robot := spread (robot c) data; sensors := sensors c;
             tasks := tasks c; statistics := statistics c;
             lastUpdate := lastUpdate c |}
        else if String.eqb topic topic_sensors then
          {| robot := robot c; sensors := spread (sensors c) data;
             tasks := tasks c; statistics := statistics c;
             lastUpdate := lastUpdate c |}
        else if String.eqb topic topic_tasks then
          {| robot := robot c; sensors := sensors c;
             tasks := match data with
                      | JArr _ => data
                      | _ => JArr []
                      end;
             statistics := statistics c;
             lastUpdate := lastUpdate c |}
        else if String.eqb topic topic_statistics then
          {| robot := robot c; sensors := sensors c;
             tasks := tasks c; statistics := spread (statistics c) data;
             lastUpdate := lastUpdate c |}
        else c in
      {| robot := robot c1; sensors := sensors c1; tasks := tasks c1;
         statistics := statistics c1; lastUpdate := Some now |}
  end.

(** Truthiness of a parsed value. *)
Definition truthy_json (v : Json) : bool :=
  match v with
  | JNull => false
  | JBool b => b
  | JNum q => negb (Qeq_bool q 0)
  | JStr s => truthy_str s
  | JArr _ | JObj _ => true
  end.

(** [updateCache(data)], called by the serial and WebSocket handlers inside
    their own [try]: reading a property of [null] throws, which the caller
    catches and logs, so the cache is returned as it was. *)
Definition updateCache (now : Z) (data : Json) (c : Cache) : Cache :=
  match data with
  | JNull => c
  | _ =>
      let props := own_props data in
      let on (k : string) : option Json :=
        match props !! k with
        | Some v => if truthy_json v then Some v else None
        | None => None
        end in
      {| robot := match on "robot" with
                  | Some v => spread (robot c) v
                  | None => robot c
                  end;
         sensors := match on "sensors" with
                    | Some v => spread (sensors c) v
                    | None => sensors c
                    end;
         tasks := match on "tasks" with
                  | Some v => v
                  | None => tasks c
                  end;
         statistics := match on "statistics" with
                       | Some v => spread (statistics c) v
                       | None => statistics c
                       end;
         lastUpdate := Some now |}
  end.

(** The module variable [connection]: [None] is [null].  [readyState] is
    read for the WebSocket transport only. *)
Record Connection : Type := mkConnection { readyState : Z }.

(** What was handed to a transport: the channel and the value that was
    serialised with [JSON.stringify]. *)
Inductive Outbound : Type :=
| MqttPublish (topic : string) (payload : list (string * string))
| SerialWrite (payload : list (string * string))
| WsSend (payload : list (string * string))
| HttpPost (endpoint : string) (payload : list (string * string)).

(** Module state: configuration, cache, connection, and the messages
    written to the transport so far (most recent first). *)
Record State : Type := mkState {
  type : SourceType;
  cache : Cache;
  isConnected : bool;
  connection : option Connection;
  sent : list Outbound
}.

(** The state right after the module is loaded: [CONFIG.type] is ['mqtt'],
    nothing is connected. *)
Definition state0 : State :=
  {| type := Mqtt; cache := cache0; isConnected := false;
     connection := None; sent := [] |}.

Definition push (o : Outbound) (s : State) : State :=
  {| type := type s; cache := cache s; isConnected := isConnected s;
     connection := connection s; sent := o :: sent s |}.

(** The outcome of [httpRequest]: it returns, or throws an error with a
    message. *)
Inductive HttpOutcome : Type :=
| HttpOk
| HttpError (msg : string).

Inductive Kind : Type := Command | Action.

(** The object returned by [handleCommand] ([{executed, command, message}])
    and [handleAction] ([{executed, action, message}]). *)
Record Ack : Type := mkAck {
  executed : bool;
  kind : Kind;
  code : string;
  message : string
}.

Definition COMMANDS : gmap string string :=
  list_to_map [ ("forward", "前进"); ("backward", "后退"); ("left", "左转");
                ("right", "右转"); ("stop", "停止") ].

Definition ACTIONS : gmap string string :=
  list_to_map [ ("irrigation", "灌溉"); ("fertilize", "施肥");
                ("scan", "扫描"); ("harvest", "收割") ].

Definition is_type (t : SourceType) (s : State) : bool :=
  match t, type s with
  | Serial, Serial | Mqtt, Mqtt | Http, Http
  | Websocket, Websocket | Database, Database | Unknown, Unknown => true
  | _, _ => false
  end.

(** The three guarded sends shared by [handleCommand] and [handleAction];
    [typed] is the payload with its [type] tag, [bare] the one without. *)
Definition forward (typed bare : list (string * string)) (s : State)
  : State :=
  let s1 := match connection s with
            | Some _ => if is_type Mqtt s
                        then push (MqttPublish topic_control typed) s
                        else s
            | None => s
            end in
  let s2 := match connection s1 with
            | Some _ => if is_type Serial s1
                        then push (SerialWrite bare) s1
                        else s1
            | None => s1
            end in
  match connection s2 with
  | Some c => if is_type Websocket s2 && Z.eqb (readyState c) 1
              then push (WsSend typed) s2
              else s2
  | None => s2
  end.

(** [handleCommand(command)]; [http] is the outcome of the request made
    when the transport is HTTP. *)
Definition handleCommand (http : HttpOutcome) (command : string)
    (s : State) : State * Ack :=
  let commandName := label COMMANDS command in
  let attempt :=
    if is_type Http s
    then (push (HttpPost endpoint_control [("command", command)]) s,
          match http with
          | HttpOk => None
          | HttpError msg => Some msg
          end)
    else (s, None) in
  match attempt with
  | (s1, Some msg) =>
      (s1, {| executed := false; kind := Command; code := command;
              message := "指令发送失败: " +:+ msg |})
  | (s1, None) =>
      (forward [("type", "command"); ("command", command)]
               [("command", command)] s1,
       {| executed := true; kind := Command; code := command;
          message := "指令已发送: " +:+ commandName |})
  end.

(** [handleAction(action)]. *)
Definition handleAction (http : HttpOutcome) (action : string)
    (s : State) : State * Ack :=
  let actionName := label ACTIONS action in
  let attempt :=
    if is_type Http s
    then (push (HttpPost endpoint_control [("action", action)]) s,
          match http with
          | HttpOk => None
          | HttpError msg => Some msg
          end)
    else (s, None) in
  match attempt with
  | (s1, Some msg) =>
      (s1, {| executed := false; kind := Action; code := action;
              message := "操作发送失败: " +:+ msg |})
  | (s1, None) =>
      (forward [("type", "action"); ("action", action)]
               [("action", action)] s1,
       {| executed := true; kind := Action; code := action;
          message := actionName +:+ "作业已启动" |})
  end.

End DataSource.

(* ===================================================================== *)
(** * backend/controllers/robotController.js, behind the routes of
    backend/routes/robot.js and the error middleware of the server *)
(* ===================================================================== *)

Module Controller.
Import Js.

(** Server-side state: the state of the data-source module and the state
    of the mock-data module. *)
Record World : Type := mkWorld {
  source : DataSource.State;
  mock_state : MockData.State;
  mock_tasks : list MockData.Task
}.

Definition world0 : World :=
  {| source := DataSource.state0;
     mock_state := MockData.state0;
     mock_tasks := MockData.tasks0 |}.

(** The members of the object bound to [data] that the handlers below use.
    [updateRobotStatus] is tested for presence before it is called, so it
    is optional. *)
Record DataModule : Type := mkDataModule {
  handleCommand :
    DataSource.HttpOutcome -> string -> World -> World * DataSource.Ack;
  handleAction :
    DataSource.HttpOutcome -> string -> World -> World * DataSource.Ack;
  updateRobotStatus :
    option (gmap string Json -> World -> World * gmap string Json)
}.

(** The members of the object named [mockData] that the handlers below
    call; [getStatistics] takes the value of [Math.random()]. *)
Record MockModule : Type := mkMockModule {
  createTask : MockData.TaskData -> World -> World * MockData.Task;
  getTasks : World -> list MockData.Task;
  getStatistics : Q -> World -> World * MockData.Statistics;
  updateStatistics :
    MockData.StatsUpdate -> World -> World * MockData.Statistics
}.

(** The identifiers of the controller's module scope. [mockData] is [None]
    when no declaration binds it. *)
Record Scope : Type := mkScope {
  data : DataModule;
  mockData : option MockModule
}.

Definition with_source (w : World) (s : DataSource.State) : World :=
  {| source := s; mock_state := mock_state w; mock_tasks := mock_tasks w |}.

(** [module.exports] of dataSource.js: it has [handleCommand] and
    [handleAction], and no [updateRobotStatus]. *)
Definition dataSource : DataModule :=
  {| handleCommand := fun http c w =>
       let '(s, a) := DataSource.handleCommand http c (source w) in
       (with_source w s, a);
     handleAction := fun http c w =>
       let '(s, a) := DataSource.handleAction http c (source w) in
       (with_source w s, a);
     updateRobotStatus := None |}.

Definition with_mock_state (w : World) (s : MockData.State) : World :=
  {| source := source w; mock_state := s; mock_tasks := mock_tasks w |}.

(** [module.exports] of mockData.js, as far as tasks and statistics are
    concerned. *)
Definition mockDataModule : MockModule :=
  {| createTask := fun d w =>
       let '(ts, t) := MockData.createTask d (mock_tasks w) in
       ({| source := source w; mock_state := mock_state w;
           mock_tasks := ts |}, t);
     getTasks := fun w => MockData.getTasks (mock_tasks w);
     getStatistics := fun r w =>
       let '(s, res) := MockData.getStatistics r (mock_state w) in
       (with_mock_state w s, res);
     updateStatistics := fun d w =>
       let '(s, res) := MockData.updateStatistics d (mock_state w) in
       (with_mock_state w s, res) |}.

(** The scope as the file declares it: [const dataSource = require(...)],
    [const data = dataSource], and the [require] of mockData commented
    out. *)
Definition scope : Scope := {| data := dataSource; mockData := None |}.

(** The scope the header comment of the file describes for the mock
    mode. *)
Definition scope_mock_bound : Scope :=
  {| data := dataSource; mockData := Some mockDataModule |}.

Inductive ResData : Type :=
| DAbsent
| DNull
| DObject (o : gmap string Json)
| DTask (t : MockData.Task)
| DTasks (l : list MockData.Task)
| DStatistics (s : MockData.Statistics).

(** The JSON document written by [res.json], with the HTTP status. *)
Record Response : Type := mkResponse {
  statusCode : Z;
  success : bool;
  body_data : ResData;
  message : option string;
  timestamp : option Z;
  ack : option (bool * DataSource.Kind * string)
}.

Inductive JsError : Type :=
| ReferenceError (msg : string)
| TypeError (msg : string).

Definition error_message (e : JsError) : string :=
  match e with
  | ReferenceError m | TypeError m => m
  end.

(** What running a handler body ends in: a response was sent, or an
    exception escaped. *)
Inductive Outcome : Type :=
| Sent (r : Response)
| Thrown (e : JsError).

(** [sendSuccess(res, data, extra)] with [extra = { message }]. *)
Definition sendSuccess (now : Z) (d : ResData) (msg : option string)
  : Response :=
  {| statusCode := 200; success := true; body_data := d; message := msg;
     timestamp := Some now; ack := None |}.


Definition sendError (msg : string) (status : Z) : Response :=
  {| statusCode := status; success := false; body_data := DAbsent;
     message := Some msg; timestamp := None; ack := None |}.

(** The global error middleware of the server. *)
Definition errorMiddleware (production : bool) (e : JsError) : Response :=
  {| statusCode := 500; success := false; body_data := DAbsent;
     message := Some (if production then "Internal Server Error"
                      else error_message e);
     timestamp := None; ack := None |}.

(** [asyncHandler(fn)]: a rejection of the handler's promise goes to
    [next], which ends in the error middleware. *)
Definition asyncHandler (production : bool) (r : World * Outcome)
  : World * Response :=
  match r with
  | (w, Sent resp) => (w, resp)
  | (w, Thrown e) => (w, errorMiddleware production e)
  end.

Section Handlers.
Variable sc : Scope.
Variable production : bool.
Variable now : Z.

(** Evaluating the identifier [mockData]. *)
Definition resolve_mockData : MockModule + JsError :=
  match mockData sc with
  | Some m => inl m
  | None => inr (ReferenceError "mockData is not defined")
  end.

(** [exports.updateStatus]; the body is the object parsed from the
    request, as a map of its fields. *)
Definition updateStatus (statusData : gmap string Json) (w : World)
  : World * Response :=
  asyncHandler production
    (if Nat.eqb (size statusData) 0
     then (w, Sent (sendError "请至少提供一个状态字段" 400))
     else
       let '(w1, updatedData) :=
         match updateRobotStatus (data sc) with
         | Some f => f statusData w
         | None => (w, statusData)
         end in
       (w1, Sent (sendSuccess now (DObject updatedData)
                    (Some "机器人状态更新成功")))).


(** [exports.getTasks]. *)
Definition getTasksHandler (w : World) : World * Response :=
  asyncHandler production
    (match resolve_mockData with
     | inl m => (w, Sent (sendSuccess now (DTasks (getTasks m w)) None))
     | inr e => (w, Thrown e)
     end).

(** [exports.createTask]; the body is [{ name?, status?, progress? }]. *)
Definition createTaskHandler (name status : option string)
    (progress : option Q) (w : World) : World * Response :=
  asyncHandler production
    (if negb (truthy name)
     then (w, Sent (sendError "缺少必填字段: name" 400))
     else
       match resolve_mockData with
       | inl m =>
           let '(w1, newTask) :=
             createTask m
               {| MockData.td_name := default "" name;
                  MockData.td_status := status;
                  MockData.td_progress := progress |} w in
           (w1, Sent (sendSuccess now (DTask newTask)
                        (Some "任务创建成功")))
       | inr e => (w, Thrown e)
       end).

(** [exports.getStatistics]; [r] is the value of [Math.random()]. *)
Definition getStatisticsHandler (r : Q) (w : World) : World * Response :=
  asyncHandler production
    (match resolve_mockData with
     | inl m =>
         let '(w1, stats) := getStatistics m r w in
         (w1, Sent (sendSuccess now (DStatistics stats) None))
     | inr e => (w, Thrown e)
     end).

(** [exports.updateStatistics]; the body is an object with numeric
    fields. *)
Definition updateStatisticsHandler (statsData : gmap string Q) (w : World)
  : World * Response :=
  asyncHandler production
    (if Nat.eqb (size statsData) 0
     then (w, Sent (sendError "请至少提供一个统计字段" 400))
     else
       match resolve_mockData with
       | inl m =>
           let '(w1, updatedData) :=
             updateStatistics m
               {| MockData.upd_completedArea := statsData !! "completedArea";
                  MockData.upd_totalArea := statsData !! "totalArea" |} w in
           (w1, Sent (sendSuccess now (DStatistics updatedData)
                        (Some "统计数据更新成功")))
       | inr e => (w, Thrown e)
       end).
End Handlers.

End Controller.

(* ===================================================================== *)
(** * frontend/js/alert.js *)
(* ===================================================================== *)

Module AlertService.

Inductive Level : Type := Critical | Warning | Info.
Inductive Condition : Type := Below | Above.

Record Rule : Type := mkRule {
  enabled : bool;
  threshold : Q;
  message : string;
  level : Level;
  field : string;
  condition : Condition
}.

(** [AlertService.rules], in the order [Object.entries] lists them. *)
Definition rules : list (string * Rule) :=
  [ ("lowBattery",
     {| enabled := true; threshold := 20; message := "电量过低";
        level := Critical; field := "battery"; condition := Below |});
    ("highTemperature",
     {| enabled := true; threshold := 40; message := "温度过高";
        level := Warning; field := "temperature"; condition := Above |});
    ("lowSoilHumidity",
     {| enabled := true; threshold := 30; message := "土壤湿度过低";
        level := Warning; field := "soilHumidity"; condition := Below |});
    ("highSoilHumidity",
     {| enabled := true; threshold := 90; message := "土壤湿度过高";
        level := Info; field := "soilHumidity"; condition := Above |});
    ("lowLight",
     {| enabled := true; threshold := 1000; message := "光照不足";
        level := Info; field := "light"; condition := Below |}) ].

(** [config]. *)
Definition maxHistory : nat := 50.
Definition alertCooldown : Z := 30000.
Definition soundEnabled : bool := true.

(** The value an alert reports: a reading, or the text passed by
    [checkConnection]. *)
Inductive Value : Type :=
| VNum (q : Q)
| VStr (s : string).

(** An alert object.  Its [message] is kept as the three parts that the
    template literal [`${rule.message}: ${value}${unit}`] joins: label,
    [value] and unit.  The display time that a history entry adds is a
    function of [time] and is left out. *)
Record Alert : Type := mkAlert {
  id : string;
  msg_label : string;
  msg_unit : string;
  alert_level : Level;
  time : Z;
  value : Value
}.

(** The state of the service together with the part of the page it writes
    to: [container] is [None] when the page has no [#alertContainer], and
    otherwise lists the notifications appended to it so far (their timed
    removal is not modelled); [sounds] counts the calls of
    [playAlertSound].  The alert panel is a rendering of [activeAlerts] and
    is left out. *)
Record St : Type := mkSt {
  activeAlerts : gmap string Alert;
  alertHistory : list Alert;
  container : option (list Alert);
  sounds : nat
}.

Definition init_state (has_container : bool) : St :=
  {| activeAlerts := ∅; alertHistory := [];
     container := if has_container then Some [] else None;
     sounds := 0 |}.

Definition units : gmap string string :=
  list_to_map [ ("battery", "%"); ("temperature", "°C");
                ("soilHumidity", "%"); ("soilTemp", "°C");
                ("light", " Lux"); ("airHumidity", "%") ].

Definition getUnit (f : string) : string := default "" (units !! f).

(** [addToHistory(alert)]. *)
Definition addToHistory (a : Alert) (h : list Alert) : list Alert :=
  let h1 := a :: h in
  if Nat.ltb maxHistory (length h1) then removelast h1 else h1.

(** [showNotification(alert)]. *)
Definition showNotification (a : Alert) (c : option (list Alert))
  : option (list Alert) :=
  match c with
  | None => None
  | Some shown => Some (shown ++ [a])
  end.

Definition is_critical (l : Level) : bool :=
  match l with
  | Critical => true
  | _ => false
  end.

(** [trigger(ruleId, rule, value)]; of [rule] it reads [message], [level]
    and [field].  [now] is the value of [Date.now()]. *)
Definition trigger (now : Z) (ruleId : string) (rule_message : string)
    (rule_level : Level) (rule_field : string) (v : Value) (s : St) : St :=
  let fresh :=
    {| id := ruleId; msg_label := rule_message;
       msg_unit := getUnit rule_field; alert_level := rule_level;
       time := now; value := v |} in
  let fire :=
    {| activeAlerts := <[ruleId := fresh]> (activeAlerts s);
       alertHistory := addToHistory fresh (alertHistory s);
       container := showNotification fresh (container s);
       sounds := if soundEnabled && is_critical rule_level
                 then S (sounds s) else sounds s |} in
  match activeAlerts s !! ruleId with
  | Some existing =>
      if Z.ltb (now - time existing) alertCooldown then s else fire
  | None => fire
  end.

(** [resolve(ruleId)]. *)
Definition resolve (ruleId : string) (s : St) : St :=
  match activeAlerts s !! ruleId with
  | Some _ =>
      {| activeAlerts := delete ruleId (activeAlerts s);
         alertHistory := alertHistory s;
         container := container s;
         sounds := sounds s |}
  | None => s
  end.

Definition Qlt_bool (a b : Q) : bool := negb (Qle_bool b a).

(** The body of the [forEach] in [check], for one rule. *)
Definition check_rule (now : Z) (allData : gmap string Q) (s : St)
    (entry : string * Rule) : St :=
  let '(ruleId, rule) := entry in
  if negb (enabled rule) then s
  else
    match allData !! field rule with
    | None => s
    | Some v =>
        let triggered :=
          match condition rule with
          | Below => Qlt_bool v (threshold rule)
          | Above => Qlt_bool (threshold rule) v
          end in
        if triggered
        then trigger now ruleId (message rule) (level rule) (field rule)
                     (VNum v) s
        else resolve ruleId s
    end.

(** [check(robotData, sensorData)] on the numeric fields of the two
    objects; [{ ...robotData, ...sensorData }] lets the sensor fields
    win. *)
Definition check (now : Z) (robotData sensorData : gmap string Q) (s : St)
  : St :=
  let allData := sensorData ∪ robotData in
  fold_left (check_rule now allData) rules s.

(** [checkConnection(connected)]. *)
Definition checkConnection (now : Z) (connected : bool) (s : St) : St :=
  if negb connected
  then trigger now "disconnected" "与服务器断开连接" Critical "connection"
               (VStr "离线") s
  else resolve "disconnected" s.

Definition getActiveCount (s : St) : nat := size (activeAlerts s).

End AlertService.

(* ===================================================================== *)
(** * frontend/js/app.js: the robot-status refresh of [DataService] *)
(* ===================================================================== *)

Module App.

(** A line of the log list, as [LogService.add] builds it. *)
Record LogItem : Type := mkLogItem {
  log_time : Z;
  log_message : string;
  log_type : string
}.

Definition maxItems : nat := 10.

(** The [data] member of a status response: its numeric fields, and
    whether it has a [coordinates] object to read [lat] and [lon] from. *)
Record RobotData : Type := mkRobotData {
  readings : gmap string Q;
  coordinates : option (Q * Q)
}.

(** [State], with the parts of the page the refresh writes to: an element
    that the page lacks is [None].  The four value labels and the chart
    are written on success only and are left out. *)
Record St : Type := mkSt {
  isConnected : bool;
  robot : RobotData;
  sensors : gmap string Q;
  statusIndicator : option string;
  statusText : option string;
  logList : option (list LogItem);
  alerts : option AlertService.St
}.

(** [DOM.setConnectionStatus(connected)]. *)
Definition setConnectionStatus (connected : bool) (s : St) : St :=
  {| isConnected := isConnected s; robot := robot s; sensors := sensors s;
     statusIndicator :=
       match statusIndicator s with
       | Some _ => Some (if connected then "status-dot status-dot--online"
                         else "status-dot status-dot--offline")
       | None => None
       end;
     statusText :=
       match statusText s with
       | Some _ => Some (if connected then "已连接" else "未连接")
       | None => None
       end;
     logList := logList s; alerts := alerts s |}.

(** [LogService.add(message, type)]. *)
Definition log_add (now : Z) (message type : string) (s : St) : St :=
  {| isConnected := isConnected s; robot := robot s; sensors := sensors s;
     statusIndicator := statusIndicator s; statusText := statusText s;
     logList :=
       match logList s with
       | Some items =>
           Some (take maxItems
                   ({| log_time := now; log_message := message;
                       log_type := type |} :: items))
       | None => None
       end;
     alerts := alerts s |}.

Definition set_connected (b : bool) (s : St) : St :=
  {| isConnected := b; robot := robot s; sensors := sensors s;
     statusIndicator := statusIndicator s; statusText := statusText s;
     logList := logList s; alerts := alerts s |}.

Definition set_robot (d : RobotData) (s : St) : St :=
  {| isConnected := isConnected s; robot := d; sensors := sensors s;
     statusIndicator := statusIndicator s; statusText := statusText s;
     logList := logList s; alerts := alerts s |}.

(** A call into [AlertService], guarded by
    [typeof AlertService !== 'undefined']. *)
Definition with_alerts (f : AlertService.St -> AlertService.St) (s : St)
  : St :=
  {| isConnected := isConnected s; robot := robot s; sensors := sensors s;
     statusIndicator := statusIndicator s; statusText := statusText s;
     logList := logList s; alerts := f <$> alerts s |}.

(** [onFailure]. *)
Definition onFailure (now : Z) (s : St) : St :=
  if isConnected s
  then with_alerts (AlertService.checkConnection now false)
         (log_add now "后端连接断开" "error"
            (setConnectionStatus false (set_connected false s)))
  else s.

(** [onSuccess(data)] for a [data] whose [coordinates] can be read. *)
Definition onSuccess (now : Z) (d : RobotData) (s : St) : St :=
  let s1 := set_robot d s in
  let s2 :=
    if negb (isConnected s1)
    then with_alerts (AlertService.checkConnection now true)
           (log_add now "已连接到后端服务" "info"
              (setConnectionStatus true (set_connected true s1)))
    else s1 in
  with_alerts (fun a => AlertService.check now (readings d) (sensors s2) a)
              s2.

(** How [API.getRobotStatus()] ends: it throws, or returns a response. *)
Inductive Fetch : Type :=
| FetchThrows
| FetchReturns (success : bool) (d : RobotData).

(** One run of [refresh].  When the response has no [coordinates], the
    label update in [onSuccess] throws after [State.robot] was assigned,
    and the [catch] block runs [onFailure]. *)
Definition refresh (now : Z) (f : Fetch) (s : St) : St :=
  match f with
  | FetchThrows => onFailure now s
  | FetchReturns false _ => s
  | FetchReturns true d =>
      match coordinates d with
      | Some _ => onSuccess now d s
      | None => onFailure now (set_robot d s)
      end
  end.

(** Consecutive runs of [refresh] that all find the fetch failing, at the
    given times. *)
Definition failing_ticks (times : list Z) (s : St) : St :=
  fold_left (fun st t => refresh t FetchThrows st) times s.

(** Any run of the refresh: each tick has its time and the way its fetch
    ends. *)
Definition run (ticks : list (Z * Fetch)) (s : St) : St :=
  fold_left (fun st tick => refresh (fst tick) (snd tick) st) ticks s.

End App.

(* ===================================================================== *)
(** * Notions used to state the properties *)
(* ===================================================================== *)

Module Props.
Import Js.

(** The number [x] is finite and has the value [q]. *)
Definition is_num (x : JsNum) (q : Q) : Prop :=
  match x with
  | Fin p => (p == q)%Q
  | _ => False
  end.

(** [x], rounded to one decimal place, reads [p]: [p] is the binary64
    number that the decimal [n / 10] denotes, for a whole number [n] of
    tenths within one twentieth of [x]. *)
Definition rounds_to (x p : Q) : Prop :=
  exists n : Z, p = Js.lit (n # 10) /\ (Qabs ((n # 10) - x) <= 1 # 20)%Q.

(** [c / t * 100] as binary64 arithmetic computes it. *)
Definition percentage (c t : Q) : JsNum := Js.scale (Js.div c t) 100.

(** [p] is the progress that belongs to the stored areas [c] and [t]: the
    computed percentage rounded to one decimal place when it is finite (a
    magnitude of 10^21 or more is kept as it is), and the percentage
    itself when it is not finite. *)
Definition progress_for (c t : Q) (p : JsNum) : Prop :=
  match percentage c t with
  | Fin x =>
      ((Qabs x < inject_Z (10 ^ 21))%Q ->
       exists p', p = Fin p' /\ rounds_to x p') /\
      ((inject_Z (10 ^ 21) <= Qabs x)%Q -> p = Fin x)
  | other => p = other
  end.

(** The invariant of the statistics state. *)
Definition area_invariant (s : MockData.State) : Prop :=
  (MockData.completedArea s <= MockData.totalArea s)%Q.

(** [new] is [old] with the own properties of [data] written over it:
    every property of [data] is in [new] with the value [data] gives it,
    and every other key reads in [new] as it did in [old]. *)
Definition fields_merged (data : Json) (old new : gmap string Json)
  : Prop :=
  (forall k v, DataSource.own_props data !! k = Some v -> new !! k = Some v)
  /\ (forall k, DataSource.own_props data !! k = None ->
                new !! k = old !! k).

(** The alert that the rule [lowBattery] raises at time [t] for the
    reading [b]. *)
Definition lowBattery_alert (t : Z) (b : Q) : AlertService.Alert :=
  {| AlertService.id := "lowBattery";
     AlertService.msg_label := "电量过低";
     AlertService.msg_unit := "%";
     AlertService.alert_level := AlertService.Critical;
     AlertService.time := t;
     AlertService.value := AlertService.VNum b |}.

(** The alert that [checkConnection(false)] raises at time [t]. *)
Definition disconnected_alert (t : Z) : AlertService.Alert :=
  {| AlertService.id := "disconnected";
     AlertService.msg_label := "与服务器断开连接";
     AlertService.msg_unit := "";
     AlertService.alert_level := AlertService.Critical;
     AlertService.time := t;
     AlertService.value := AlertService.VStr "离线" |}.

(** The state of the alert service right after an alert [a] was raised
    from state [s]: active, recorded, shown, and sounded when critical. *)
Definition raised (a : AlertService.Alert) (s : AlertService.St)
  : AlertService.St :=
  {| AlertService.activeAlerts :=
       <[AlertService.id a := a]> (AlertService.activeAlerts s);
     AlertService.alertHistory :=
       AlertService.addToHistory a (AlertService.alertHistory s);
     AlertService.container :=
       AlertService.showNotification a (AlertService.container s);
     AlertService.sounds :=
       if AlertService.is_critical (AlertService.alert_level a)
       then S (AlertService.sounds s) else AlertService.sounds s |}.

(** The log line of the "disconnected" transition. *)
Definition disconnect_entry (t : Z) : App.LogItem :=
  {| App.log_time := t; App.log_message := "后端连接断开";
     App.log_type := "error" |}.

(** No "disconnected" alert is active. *)
Definition no_disconnect_alert (s : App.St) : Prop :=
  forall a, App.alerts s = Some a ->
            AlertService.activeAlerts a !! "disconnected" = None.

(** What holds of every state the poller reaches: while it is connected,
    no "disconnected" alert is active. *)
Definition poller_invariant (s : App.St) : Prop :=
  App.isConnected s = true -> no_disconnect_alert s.

(** The transport cannot carry a message: for HTTP the request fails; for
    the connection-based transports no connection object exists. *)
Definition unavailable (http : DataSource.HttpOutcome)
    (s : DataSource.State) : Prop :=
  match DataSource.type s with
  | DataSource.Http => exists msg, http = DataSource.HttpError msg
  | _ => DataSource.connection s = None
  end.

(** Some task of the list has an id above [x]. *)
Definition has_larger_id (x : Z) (tasks : list MockData.Task) : Prop :=
  exists t, t ∈ tasks /\ (x < MockData.id t)%Z.

End Props.


(* ===================================================================== *)
(** * backend/data/mockData.js: robot status, sensors and commands *)
(* ===================================================================== *)

Module MockTelemetry.
Import Js.

(** The part of the module's [state] object that the robot and sensor
    functions read and write. *)
Record State : Type := mkState {
  battery : Q;
  speed : Q;
  temperature : Q;
  lat : Q;
  lon : Q;
  soilHumidity : Q;
  soilTemp : Q;
  light : Q;
  airHumidity : Q
}.

Definition state0 : State :=
  {| battery := 85; speed := lit (12 # 10); temperature := 28;
     lat := lit (402 # 10); lon := lit (1164 # 10);
     soilHumidity := 65; soilTemp := 22; light := 8000; airHumidity := 55 |}.

(** [Number(q.toFixed(d))] with [unit] = 10^d. *)
Definition round_at (unit : positive) (q : Q) : Q := Js.toFixed unit q.

(** [Math.floor(q)]. *)
Definition floor (q : Q) : Q := Js.floor q.

(** The object returned by [getRobotStatus] and [updateRobotStatus], with
    the two members of [coordinates] side by side. *)
Record RobotStatus : Type := mkRobotStatus {
  rs_battery : Q;
  rs_speed : Q;
  rs_temperature : Q;
  rs_lat : Q;
  rs_lon : Q
}.

(** The five values of [Math.random()] that one call of [getRobotStatus]
    draws, in the order it draws them. *)
Record RobotDraws : Type := mkRobotDraws {
  draw_battery : Q;
  draw_speed : Q;
  draw_temperature : Q;
  draw_lat : Q;
  draw_lon : Q
}.

Definition report (s : State) : RobotStatus :=
  {| rs_battery := floor (battery s);
     rs_speed := speed s;
     rs_temperature := temperature s;
     rs_lat := lat s;
     rs_lon := lon s |}.

(** [getRobotStatus()]. *)
Definition getRobotStatus (d : RobotDraws) (s : State)
  : State * RobotStatus :=
  let s1 :=
    {| battery :=
         Js.max 20
           (sub (battery s)
                (MockData.random (draw_battery d) 0 (lit (5 # 100))));
       speed := round_at 10 (MockData.random (draw_speed d) 0 2);
       temperature := floor (MockData.random (draw_temperature d) 25 31);
       lat := round_at 1000
                (add (lit (402 # 10))
                     (MockData.random (draw_lat d) (- lit (5 # 1000))
                                      (lit (5 # 1000))));
       lon := round_at 1000
                (add (lit (1164 # 10))
                     (MockData.random (draw_lon d) (- lit (5 # 1000))
                                      (lit (5 # 1000))));
       soilHumidity := soilHumidity s; soilTemp := soilTemp s;
       light := light s; airHumidity := airHumidity s |} in
  (s1, report s1).

(** The object returned by [getSensorData] and [updateSensorData]. *)
Record SensorData : Type := mkSensorData {
  sd_soilHumidity : Q;
  sd_soilTemp : Q;
  sd_light : Q;
  sd_airHumidity : Q
}.

Record SensorDraws : Type := mkSensorDraws {
  draw_soilHumidity : Q;
  draw_soilTemp : Q;
  draw_light : Q;
  draw_airHumidity : Q
}.

Definition sensors_of (s : State) : SensorData :=
  {| sd_soilHumidity := soilHumidity s; sd_soilTemp := soilTemp s;
     sd_light := light s; sd_airHumidity := airHumidity s |}.

(** [getSensorData()]. *)
Definition getSensorData (d : SensorDraws) (s : State)
  : State * SensorData :=
  let s1 :=
    {| battery := battery s; speed := speed s; temperature := temperature s;
       lat := lat s; lon := lon s;
       soilHumidity := floor (MockData.random (draw_soilHumidity d) 60 70);
       soilTemp := floor (MockData.random (draw_soilTemp d) 20 25);
       light := floor (MockData.random (draw_light d) 7000 9000);
       airHumidity := floor (MockData.random (draw_airHumidity d) 50 60) |} in
  (s1, sensors_of s1).

(** The argument of [updateSensorData]: every field an optional number. *)
Record SensorUpdate : Type := mkSensorUpdate {
  su_soilHumidity : option Q;
  su_soilTemp : option Q;
  su_light : option Q;
  su_airHumidity : option Q
}.

(** [updateSensorData(data)]. *)
Definition updateSensorData (data : SensorUpdate) (s : State)
  : State * SensorData :=
  let s1 :=
    {| battery := battery s; speed := speed s; temperature := temperature s;
       lat := lat s; lon := lon s;
       soilHumidity := match su_soilHumidity data with
                       | Some v => MockData.clamp v 0 100
                       | None => soilHumidity s
                       end;
       soilTemp := default (soilTemp s) (su_soilTemp data);
       light := match su_light data with
                | Some v => MockData.clamp v 0 100000
                | None => light s
                end;
       airHumidity := match su_airHumidity data with
                      | Some v => MockData.clamp v 0 100
                      | None => airHumidity s
                      end |} in
  (s1, sensors_of s1).

(** The argument of [updateRobotStatus]. *)
Record RobotUpdate : Type := mkRobotUpdate {
  ru_battery : option Q;
  ru_speed : option Q;
  ru_temperature : option Q;
  ru_lat : option Q;
  ru_lon : option Q
}.

(** [updateRobotStatus(data)]. *)
Definition updateRobotStatus (data : RobotUpdate) (s : State)
  : State * RobotStatus :=
  let s1 :=
    {| battery := match ru_battery data with
                  | Some v => MockData.clamp v 0 100
                  | None => battery s
                  end;
       speed := match ru_speed data with
                | Some v => Js.max 0 v
                | None => speed s
                end;
       temperature := default (temperature s) (ru_temperature data);
       lat := default (lat s) (ru_lat data);
       lon := default (lon s) (ru_lon data);
       soilHumidity := soilHumidity s; soilTemp := soilTemp s;
       light := light s; airHumidity := airHumidity s |} in
  (s1, report s1).

(** The module's own tables [COMMANDS] and [ACTIONS]. *)
Definition COMMANDS : gmap string string :=
  list_to_map [ ("forward", "前进"); ("backward", "后退"); ("left", "左转");
                ("right", "右转"); ("stop", "停止") ].

Definition ACTIONS : gmap string string :=
  list_to_map [ ("irrigation", "灌溉"); ("fertilize", "施肥");
                ("scan", "扫描"); ("harvest", "收割") ].

(** [handleCommand(command)] and [handleAction(action)] of the mock: they
    only log and return. *)
Definition handleCommand (command : string) : DataSource.Ack :=
  {| DataSource.executed := true; DataSource.kind := DataSource.Command;
     DataSource.code := command;
     DataSource.message :=
       "指令已发送: " +:+ label COMMANDS command |}.

Definition handleAction (action : string) : DataSource.Ack :=
  {| DataSource.executed := true; DataSource.kind := DataSource.Action;
     DataSource.code := action;
     DataSource.message :=
       label ACTIONS action +:+ "作业已启动" |}.

(** A value of [Math.random()]. *)
Definition unit_draw (r : Q) : Prop := (0 <= r)%Q /\ (r < 1)%Q.

(** [q] is the whole number [n]. *)
Definition whole (q : Q) (n : Z) : Prop := q = inject_Z n.

End MockTelemetry.

(* ===================================================================== *)
(** * backend/data/dataSource.js: the read interface and the connection *)
(* ===================================================================== *)

Module DataSourceQueries.
Import Js DataSource.

(** How the [httpRequest] of a read ends: it throws (network error, timeout,
    status outside 2xx, unreadable body), or returns the parsed body, of
    which the read looks at the truthiness of [success] and at [data] (an
    absent [data] behaves as [null]). *)
Inductive HttpReply : Type :=
| ReplyError
| Reply (success : bool) (data : Json).

Definition with_cache (s : State) (c : Cache) : State :=
  {| type := type s; cache := c; isConnected := isConnected s;
     connection := connection s; sent := sent s |}.

(** The value that ends up in an object category of the cache when a read
    starts: on the HTTP transport a reply with a true [success] stores its
    [data]; otherwise the category stays.  [None] stands for a stored
    [null], whose members cannot be read. *)
Definition refreshed (reply : HttpReply) (s : State)
    (stored : gmap string Json) : option (gmap string Json) :=
  if is_type Http s
  then match reply with
       | Reply true JNull => None
       | Reply true data => Some (own_props data)
       | Reply false _ | ReplyError => Some stored
       end
  else Some stored.

(** The object returned by [getRobotStatus]; an [undefined] member is
    [None]. *)
Record RobotStatus : Type := mkRobotStatus {
  battery : option Json;
  speed : option Json;
  temperature : option Json;
  coordinates : option Json
}.

(** [getRobotStatus()].  [None]: the function throws a [TypeError], after
    having stored [null] in [cache.robot]. *)
Definition getRobotStatus (reply : HttpReply) (s : State)
  : option (State * RobotStatus) :=
  match refreshed reply s (robot (cache s)) with
  | None => None
  | Some m =>
      Some (with_cache s
              {| robot := m; sensors := sensors (cache s);
                 tasks := tasks (cache s);
                 statistics := statistics (cache s);
                 lastUpdate := lastUpdate (cache s) |},
            {| battery := m !! "battery"; speed := m !! "speed";
               temperature := m !! "temperature";
               coordinates := m !! "coordinates" |})
  end.

Record SensorData : Type := mkSensorData {
  soilHumidity : option Json;
  soilTemp : option Json;
  light : option Json;
  airHumidity : option Json
}.

(** [getSensorData()]. *)
Definition getSensorData (reply : HttpReply) (s : State)
  : option (State * SensorData) :=
  match refreshed reply s (sensors (cache s)) with
  | None => None
  | Some m =>
      Some (with_cache s
              {| robot := robot (cache s); sensors := m;
                 tasks := tasks (cache s);
                 statistics := statistics (cache s);
                 lastUpdate := lastUpdate (cache s) |},
            {| soilHumidity := m !! "soilHumidity";
               soilTemp := m !! "soilTemp"; light := m !! "light";
               airHumidity := m !! "airHumidity" |})
  end.

Record Statistics : Type := mkStatistics {
  completedArea : option Json;
  totalArea : option Json;
  progress : option Json
}.

(** [getStatistics()]. *)
Definition getStatistics (reply : HttpReply) (s : State)
  : option (State * Statistics) :=
  match refreshed reply s (statistics (cache s)) with
  | None => None
  | Some m =>
      Some (with_cache s
              {| robot := robot (cache s); sensors := sensors (cache s);
                 tasks := tasks (cache s); statistics := m;
                 lastUpdate := lastUpdate (cache s) |},
            {| completedArea := m !! "completedArea";
               totalArea := m !! "totalArea";
               progress := m !! "progress" |})
  end.

(** How the query of the database transport ends: it throws, or returns
    the rows. *)
Inductive DbReply : Type :=
| DbError
| DbRows (rows : Json).

(** [getTasks()]: it returns [cache.tasks] itself, whatever it holds. *)
Definition getTasks (reply : HttpReply) (db : DbReply) (s : State)
  : State * Json :=
  let t1 :=
    if is_type Http s
    then match reply with
         | Reply true data => data
         | Reply false _ | ReplyError => tasks (cache s)
         end
    else tasks (cache s) in
  let t2 :=
    match connection s with
    | Some _ =>
        if is_type Database s
        then match db with
             | DbRows rows => rows
             | DbError => t1
             end
        else t1
    | None => t1
    end in
  (with_cache s
     {| robot := robot (cache s); sensors := sensors (cache s); tasks := t2;
        statistics := statistics (cache s);
        lastUpdate := lastUpdate (cache s) |},
   t2).

(** The MQTT message handler, on the module state. *)
Definition deliver (now : Z) (topic : string) (parsed : option Json)
    (s : State) : State :=
  with_cache s (onMqttMessage now topic parsed (cache s)).

(** The object returned by [getConnectionStatus]. *)
Record ConnectionStatus : Type := mkConnectionStatus {
  cs_type : SourceType;
  cs_connected : bool;
  cs_lastUpdate : option Z
}.

Definition getConnectionStatus (s : State) : ConnectionStatus :=
  {| cs_type := type s; cs_connected := isConnected s;
     cs_lastUpdate := lastUpdate (cache s) |}.

(** The events of a connection object for which the [init] functions
    register a handler that writes [isConnected]. *)
Inductive Event : Type :=
| Opened   (* 'open' of serial and WebSocket, 'connect' of MQTT *)
| Failed   (* 'error' *)
| Closed.  (* 'close' *)

Definition set_connected (b : bool) (s : State) : State :=
  {| type := type s; cache := cache s; isConnected := b;
     connection := connection s; sent := sent s |}.

(** The effect of the registered handlers on the module state: the serial
    port has no 'close' handler, and the 'error' handler of the WebSocket
    only logs. *)
Definition on_event (e : Event) (s : State) : State :=
  match type s, e with
  | Serial, Opened | Mqtt, Opened | Websocket, Opened => set_connected true s
  | Serial, Failed | Mqtt, Failed => set_connected false s
  | Mqtt, Closed | Websocket, Closed => set_connected false s
  | _, _ => s
  end.

(** [close()], with the library call that closes the connection
    returning. *)
Definition close (s : State) : State :=
  match connection s with
  | Some _ =>
      {| type := type s; cache := cache s; isConnected := false;
         connection := None; sent := sent s |}
  | None => s
  end.

(** The message [data] carries the category [k] with the value [v]: it has
    a member [k] whose value is truthy. *)
Definition carries (data : Json) (k : string) (v : Json) : Prop :=
  own_props data !! k = Some v /\ truthy_json v = true.

(** The message does not carry the category: the member is absent or
    falsy. *)
Definition omits (data : Json) (k : string) : Prop :=
  forall v, own_props data !! k = Some v -> truthy_json v = false.

(** What one call of [handleCommand] or [handleAction] hands to the
    transport, by transport and connection: [typed] is the payload with its
    [type] tag, [bare] the one without. *)
Definition handed_over (s : State) (typed bare : list (string * string))
  : list Outbound :=
  match type s, connection s with
  | Http, _ => [HttpPost endpoint_control bare]
  | Mqtt, Some _ => [MqttPublish topic_control typed]
  | Serial, Some _ => [SerialWrite bare]
  | Websocket, Some c =>
      if Z.eqb (readyState c) 1 then [WsSend typed] else []
  | _, _ => []
  end.

End DataSourceQueries.

(* ===================================================================== *)
(** * backend/controllers/robotController.js: the remaining handlers *)
(* ===================================================================== *)

Module ControllerRoutes.
Import Js Controller.

(** The members of an object as [res.json] writes them: a member whose value
    is [undefined] is left out. *)
Definition members (l : list (string * option Json)) : gmap string Json :=
  list_to_map (omap (fun kv => pair (fst kv) <$> snd kv) l).

(** [exports.getStatus], with [data] the data-source module.  [None]: the
    read threw after storing [null] in the cache, which leaves the state
    outside this model. *)
Definition getStatus (production : bool) (now : Z)
    (reply : DataSourceQueries.HttpReply) (w : World)
  : option (World * Response) :=
  match DataSourceQueries.getRobotStatus reply (source w) with
  | Some (s, r) =>
      Some (asyncHandler production
              (with_source w s,
               Sent (sendSuccess now
                       (DObject
                          (members
                             [ ("battery", DataSourceQueries.battery r);
                               ("speed", DataSourceQueries.speed r);
                               ("temperature",
                                DataSourceQueries.temperature r);
                               ("coordinates",
                                DataSourceQueries.coordinates r) ]))
                       None)))
  | None => None
  end.

(** [exports.getSensors]. *)
Definition getSensors (production : bool) (now : Z)
    (reply : DataSourceQueries.HttpReply) (w : World)
  : option (World * Response) :=
  match DataSourceQueries.getSensorData reply (source w) with
  | Some (s, r) =>
      Some (asyncHandler production
              (with_source w s,
               Sent (sendSuccess now
                       (DObject
                          (members
                             [ ("soilHumidity",
                                DataSourceQueries.soilHumidity r);
                               ("soilTemp", DataSourceQueries.soilTemp r);
                               ("light", DataSourceQueries.light r);
                               ("airHumidity",
                                DataSourceQueries.airHumidity r) ]))
                       None)))
  | None => None
  end.






Section TaskHandlers.
Variable sc : Scope.
Variable production : bool.
Variable now : Z.


End TaskHandlers.

(** The MQTT message handler, on the server state. *)
Definition deliver (now : Z) (topic : string) (parsed : option Json)
    (w : World) : World :=
  with_source w (DataSourceQueries.deliver now topic parsed (source w)).

End ControllerRoutes.

(* ===================================================================== *)
(** * frontend/js/alert.js: clearing, and runs of calls *)
(* ===================================================================== *)

Module AlertCalls.
Import AlertService.

(** [clearAll()]. *)
Definition clearAll (s : St) : St :=
  {| activeAlerts := ∅; alertHistory := alertHistory s;
     container := container s; sounds := sounds s |}.

(** A call of one of the entry points of the service, with the value of
    [Date.now()] where the call reads it. *)
Inductive Call : Type :=
| Check (now : Z) (robotData sensorData : gmap string Q)
| CheckConnection (now : Z) (connected : bool)
| ClearAll.

Definition call (s : St) (c : Call) : St :=
  match c with
  | Check now robotData sensorData => check now robotData sensorData s
  | CheckConnection now connected => checkConnection now connected s
  | ClearAll => clearAll s
  end.

Definition calls (cs : list Call) (s : St) : St := fold_left call cs s.

(** The reading [v] meets the condition of the rule. *)
Definition violates (rule : Rule) (v : Q) : bool :=
  match condition rule with
  | Below => Qlt_bool v (threshold rule)
  | Above => Qlt_bool (threshold rule) v
  end.

(** The state of the engine proper, without the page. *)
Definition engine (s : St) : gmap string Alert * list Alert * nat :=
  (activeAlerts s, alertHistory s, sounds s).

End AlertCalls.

(* ===================================================================== *)
(** * frontend/js/app.js: control service, events and timers *)
(* ===================================================================== *)

Module AppEvents.
Import App.

(** How a call of [API.sendControlCommand] or [API.executeAction] ends: it
    throws, or returns a response object. *)
Inductive ApiResult : Type :=
| ApiThrows
| ApiReturns (success : bool) (message : string).

(** The common body of [ControlService.move] and
    [ControlService.executeAction]; [failure] is the text of the [catch]
    block. *)
Definition control (failure : string) (now : Z) (r : ApiResult) (s : St)
  : St :=
  match r with
  | ApiThrows => log_add now failure "error" s
  | ApiReturns true message => log_add now message "info" s
  | ApiReturns false _ => s
  end.

(** [ControlService.move(direction)]. *)
Definition move : Z -> ApiResult -> St -> St := control "指令发送失败".

(** [ControlService.executeAction(action)]. *)
Definition executeAction : Z -> ApiResult -> St -> St :=
  control "操作执行失败".

(** What happens on the page: a tick of the status poller, or a control
    request of the user that has come back. *)
Inductive Event : Type :=
| Tick (now : Z) (f : Fetch)
| Move (now : Z) (r : ApiResult)
| Execute (now : Z) (r : ApiResult).

Definition handle (s : St) (e : Event) : St :=
  match e with
  | Tick now f => refresh now f s
  | Move now r => move now r s
  | Execute now r => executeAction now r s
  end.

Definition events (es : list Event) (s : St) : St := fold_left handle es s.

(** Consecutive runs of [refresh] whose fetch returns [success: true] with
    the given data, at the given times. *)
Definition answered_ticks (ticks : list (Z * RobotData)) (s : St) : St :=
  fold_left (fun st tick => refresh (fst tick) (FetchReturns true (snd tick))
                              st) ticks s.

(** The log line of the "connected" transition. *)
Definition connect_entry (t : Z) : LogItem :=
  {| log_time := t; log_message := "已连接到后端服务"; log_type := "info" |}.

(** The log list, when the page has one, shows at most [maxItems] lines. *)
Definition log_bounded (s : St) : Prop :=
  forall items, logList s = Some items -> length items <= maxItems.

End AppEvents.

Module Timers.

(** [State.timers], with the intervals that the browser has running and
    the next id [setInterval] hands out. *)
Record State : Type := mkState {
  timers : gmap string nat;
  running : gset nat;
  next_id : nat
}.

Definition state0 : State :=
  {| timers := ∅; running := ∅; next_id := 1 |}.

(** [State.timers[key] = setInterval(...)]. *)
Definition start (key : string) (s : State) : State :=
  {| timers := <[key := next_id s]> (timers s);
     running := {[ next_id s ]} ∪ running s;
     next_id := S (next_id s) |}.

(** [DataService.startAll()]. *)
Definition startAll (s : State) : State :=
  start "tasks" (start "stats" (start "sensors" (start "robot"
    (start "time" s)))).

(** [startAll()] called [n] times in a row. *)
Definition startAll_times (n : nat) (s : State) : State :=
  Nat.iter n startAll s.

(** [DataService.stopAll()]. *)
Definition stopAll (s : State) : State :=
  {| timers := ∅;
     running := running s ∖ map_img (timers s);
     next_id := next_id s |}.

End Timers.

(* ===================================================================== *)
(** * frontend/js/chart.js: the rolling history *)
(* ===================================================================== *)

Module ChartService.

(** [ChartService.history]; a label is the time it was made from. *)
Record History : Type := mkHistory {
  labels : list Z;
  battery : list Q;
  soilHumidity : list Q;
  temperature : list Q;
  light : list Q
}.

Definition history0 : History :=
  {| labels := []; battery := []; soilHumidity := []; temperature := [];
     light := [] |}.

Definition maxDataPoints : nat := 20.

(** [data[field] || 0]. *)
Definition or_zero (data : gmap string Q) (field : string) : Q :=
  default 0%Q (data !! field).

(** The values that one call of [update] pushes. *)
Definition battery_point (robotData : gmap string Q) : Q :=
  or_zero robotData "battery".

Definition soilHumidity_point (sensorData : gmap string Q) : Q :=
  or_zero sensorData "soilHumidity".

Definition temperature_point (sensorData : gmap string Q) : Q :=
  or_zero sensorData "soilTemp".

Definition light_point (sensorData : gmap string Q) : Q :=
  Js.fl (or_zero sensorData "light" / 100).

(** [update(robotData, sensorData)]; [now] is the time of the label. *)
Definition update (now : Z) (robotData sensorData : gmap string Q)
    (h : History) : History :=
  let h1 :=
    {| labels := labels h ++ [now];
       battery := battery h ++ [battery_point robotData];
       soilHumidity := soilHumidity h ++ [soilHumidity_point sensorData];
       temperature := temperature h ++ [temperature_point sensorData];
       light := light h ++ [light_point sensorData] |} in
  if Nat.ltb maxDataPoints (length (labels h1))
  then {| labels := tail (labels h1);
          battery := tail (battery h1);
          soilHumidity := tail (soilHumidity h1);
          temperature := tail (temperature h1);
          light := tail (light h1) |}
  else h1.

(** One call of [update] with its arguments. *)
Record Sample : Type := mkSample {
  at_time : Z;
  robotData : gmap string Q;
  sensorData : gmap string Q
}.

Definition updates (samples : list Sample) (h : History) : History :=
  fold_left (fun st x => update (at_time x) (robotData x) (sensorData x) st)
            samples h.

(** The last [maxDataPoints] elements of a list. *)
Definition window {A : Type} (l : list A) : list A :=
  drop (length l - maxDataPoints) l.

End ChartService.

(* ===================================================================== *)
(** * frontend/js/video.js: stopping and retrying *)
(* ===================================================================== *)

Module VideoService.

(** [VideoService.state], with the two elements of the page that the
    functions below write to ([None] when the page lacks the element) and
    the number of calls of [start] that were scheduled with
    [setTimeout]. *)
Record State : Type := mkState {
  isPlaying : bool;
  retryCount : nat;
  refreshTimer : option nat;
  localStream : bool;
  videoStatus : option string;
  videoPlayIcon : option string;
  scheduled_starts : nat
}.

Definition maxRetries : nat := 5.

(** [updateStatus(status)]. *)
Definition updateStatus (text : string) (s : State) : State :=
  {| isPlaying := isPlaying s; retryCount := retryCount s;
     refreshTimer := refreshTimer s; localStream := localStream s;
     videoStatus := (fun _ => text) <$> videoStatus s;
     videoPlayIcon := videoPlayIcon s;
     scheduled_starts := scheduled_starts s |}.

(** [updatePlayButton()]. *)
Definition updatePlayButton (s : State) : State :=
  {| isPlaying := isPlaying s; retryCount := retryCount s;
     refreshTimer := refreshTimer s; localStream := localStream s;
     videoStatus := videoStatus s;
     videoPlayIcon :=
       (fun _ => if isPlaying s then "⏸" else "▶") <$> videoPlayIcon s;
     scheduled_starts := scheduled_starts s |}.

(** [stop()]. *)
Definition stop (s : State) : State :=
  updateStatus "已停止"
    (updatePlayButton
       {| isPlaying := false; retryCount := retryCount s;
          refreshTimer := None; localStream := false;
          videoStatus := videoStatus s; videoPlayIcon := videoPlayIcon s;
          scheduled_starts := scheduled_starts s |}).

(** [setTimeout(() => this.start(), ...)]. *)
Definition schedule_start (s : State) : State :=
  {| isPlaying := isPlaying s; retryCount := retryCount s;
     refreshTimer := refreshTimer s; localStream := localStream s;
     videoStatus := videoStatus s; videoPlayIcon := videoPlayIcon s;
     scheduled_starts := S (scheduled_starts s) |}.

Definition set_retryCount (n : nat) (s : State) : State :=
  {| isPlaying := isPlaying s; retryCount := n;
     refreshTimer := refreshTimer s; localStream := localStream s;
     videoStatus := videoStatus s; videoPlayIcon := videoPlayIcon s;
     scheduled_starts := scheduled_starts s |}.

(** [handleLoad()]. *)
Definition handleLoad (s : State) : State :=
  updateStatus "播放中" (set_retryCount 0 s).

(** [handleError()]. *)
Definition handleError (s : State) : State :=
  let s1 := set_retryCount (S (retryCount s)) s in
  if Nat.ltb (retryCount s1) maxRetries
  then schedule_start
         (updateStatus ("重连中 (" +:+ pretty (retryCount s1) +:+ "/"
                        +:+ pretty maxRetries +:+ ")...") s1)
  else stop (updateStatus "连接失败" s1).

(** [refresh()]. *)
Definition refresh (s : State) : State :=
  schedule_start (set_retryCount 0 (stop s)).

(** [n] calls of [handleError] in a row. *)
Definition errors (n : nat) (s : State) : State := Nat.iter n handleError s.

End VideoService.

(* ===================================================================== *)
(** * Properties of the binary64 rounding *)
(* ===================================================================== *)

Module JsFacts.
Import Js.
Local Open Scope Q_scope.

Lemma pow2_pos (z : Z) : 0 < pow2 z.
Proof. apply Qpower_0_lt. reflexivity. Qed.

Lemma pow2_add (a b : Z) : pow2 (a + b) == pow2 a * pow2 b.
Proof. apply Qpower_plus. discriminate. Qed.

Lemma pow2_le (a b : Z) : (a <= b)%Z -> pow2 a <= pow2 b.
Proof. intros H. apply Qpower_le_compat_l; [exact H | discriminate]. Qed.

Lemma pow2_lt (a b : Z) : (a < b)%Z -> pow2 a < pow2 b.
Proof. intros H. apply Qpower_lt_compat_l; [exact H | reflexivity]. Qed.

Lemma pow2_nonneg (z : Z) : (0 <= z)%Z -> pow2 z == inject_Z (2 ^ z).
Proof. intros H. unfold pow2. now rewrite Zpower_Qpower. Qed.

Lemma pow2_succ (z : Z) : pow2 (z + 1) == 2 * pow2 z.
Proof. rewrite pow2_add. change (pow2 1) with (2 # 1). ring. Qed.

(** n / d against powers of two, through the integer logarithms. *)
Lemma exponent_spec (q : Q) :
  0 < q -> pow2 (exponent q) <= q /\ q < pow2 (exponent q + 1).
Proof.
  intros Hq. destruct q as [n d]. unfold exponent. cbn [Qnum Qden].
  assert (0 < n)%Z as Hn by (unfold Qlt in Hq; cbn in Hq; lia).
  set (a := Z.log2 n). set (b := Z.log2 (Zpos d)).
  destruct (Z.log2_spec n Hn) as [Ha1 Ha2].
  destruct (Z.log2_spec (Zpos d) eq_refl) as [Hb1 Hb2].
  fold a in Ha1, Ha2. fold b in Hb1, Hb2.
  assert (0 <= a)%Z as Ha0 by apply Z.log2_nonneg.
  assert (0 <= b)%Z as Hb0 by apply Z.log2_nonneg.
  assert (n # d == inject_Z n / inject_Z (Zpos d)) as Hnd
    by apply Qmake_Qdiv.
  assert (0 < inject_Z (Zpos d)) as Hd by reflexivity.
  set (D := inject_Z (Zpos d)) in *. set (N := inject_Z n) in *.
  assert (pow2 a <= N) as HaN.
  { rewrite pow2_nonneg by exact Ha0. unfold N. now rewrite <- Zle_Qle. }
  assert (N < pow2 (a + 1)) as HNa.
  { rewrite pow2_nonneg by lia. unfold N. rewrite <- Zlt_Qlt.
    now rewrite <- Z.add_1_r in Ha2. }
  assert (pow2 b <= D) as HbD.
  { rewrite pow2_nonneg by exact Hb0. unfold D. now rewrite <- Zle_Qle. }
  assert (D < pow2 (b + 1)) as HDb.
  { rewrite pow2_nonneg by lia. unfold D. rewrite <- Zlt_Qlt.
    now rewrite <- Z.add_1_r in Hb2. }
  (* q * D == N *)
  assert ((n # d) * D == N) as Hmul.
  { rewrite Hnd. field. intros H0. rewrite H0 in Hd. now apply Qlt_irrefl in Hd. }
  set (q := n # d) in *. clearbody q N D.
  assert (pow2 a == pow2 (a - b) * pow2 b) as E1.
  { rewrite <- pow2_add. now replace (a - b + b)%Z with a by lia. }
  assert (pow2 (a + 1) == pow2 (a - b + 1) * pow2 b) as E2.
  { rewrite <- pow2_add. now replace (a - b + 1 + b)%Z with (a + 1)%Z by lia. }
  assert (pow2 (b + 1) == 2 * pow2 b) as E3 by apply pow2_succ.
  assert (pow2 (a - b + 1) == 2 * pow2 (a - b)) as E4 by apply pow2_succ.
  assert (pow2 (a - b) == 2 * pow2 (a - b - 1)) as E5.
  { rewrite <- pow2_succ. now replace (a - b - 1 + 1)%Z with (a - b)%Z by lia. }
  pose proof (pow2_pos b) as Pb. pose proof (pow2_pos (a - b)) as Pk.
  pose proof (pow2_pos (a - b - 1)) as Pk1.
  set (k := (a - b)%Z) in *.
  (* upper: q < pow2 (k+1) *)
  assert (q < pow2 (k + 1)) as Hup.
  { apply Qnot_le_lt. intros Hc.
    assert (pow2 (k + 1) * D <= q * D) as H1
      by (apply Qmult_le_compat_r; [exact Hc | lra]).
    assert (pow2 (k + 1) * pow2 b <= pow2 (k + 1) * D) as H2.
    { rewrite !(Qmult_comm (pow2 (k + 1))).
      apply Qmult_le_compat_r; [exact HbD |].
      apply Qlt_le_weak, pow2_pos. }
    lra. }
  (* lower: pow2 (k-1) <= q *)
  assert (pow2 (k - 1) < q) as Hlo.
  { apply Qnot_le_lt. intros Hc.
    assert (q * D <= pow2 (k - 1) * D) as H1
      by (apply Qmult_le_compat_r; [exact Hc | lra]).
    assert (pow2 (k - 1) * D < pow2 (k - 1) * pow2 (b + 1)) as H2.
    { rewrite !(Qmult_comm (pow2 (k - 1))).
      apply Qmult_lt_compat_r; [exact Pk1 | exact HDb]. }
    assert (pow2 (k - 1) * pow2 (b + 1) == pow2 k * pow2 b) as H3.
    { rewrite E3, E5. ring. }
    lra. }
  destruct (Qle_bool (pow2 k) q) eqn:E.
  - apply Qle_bool_iff in E. split; [exact E | exact Hup].
  - split; [now apply Qlt_le_weak |].
    replace (k - 1 + 1)%Z with k by lia.
    apply Qnot_le_lt. intros Hc. apply Qle_bool_iff in Hc. congruence.
Qed.

Lemma exponent_unique (q : Q) (e : Z) :
  pow2 e <= q -> q < pow2 (e + 1) -> 0 < q -> exponent q = e.
Proof.
  intros H1 H2 Hq. destruct (exponent_spec q Hq) as [H3 H4].
  destruct (Z.lt_trichotomy (exponent q) e) as [Hlt | [Heq | Hgt]];
    [| exact Heq |].
  - assert (pow2 (exponent q + 1) <= pow2 e) by (apply pow2_le; lia). lra.
  - assert (pow2 (e + 1) <= pow2 (exponent q)) by (apply pow2_le; lia). lra.
Qed.

Lemma exponent_le (a b : Q) : 0 < a -> a <= b -> (exponent a <= exponent b)%Z.
Proof.
  intros Ha Hab. assert (0 < b) as Hb by lra.
  destruct (exponent_spec a Ha) as [A1 A2].
  destruct (exponent_spec b Hb) as [B1 B2].
  destruct (Z_le_gt_dec (exponent a) (exponent b)) as [H | H]; [exact H |].
  assert (pow2 (exponent b + 1) <= pow2 (exponent a)) by (apply pow2_le; lia).
  lra.
Qed.


Lemma exponent_comp (a b : Q) : 0 < a -> a == b -> exponent a = exponent b.
Proof.
  intros Ha Hab. symmetry. apply exponent_unique.
  - rewrite <- Hab. now apply exponent_spec.
  - rewrite <- Hab. now apply exponent_spec.
  - now rewrite <- Hab.
Qed.

(** ** Rounding to the nearest integer *)

Lemma rne_cases (x : Q) :
  (rne x = Qfloor x /\ x - inject_Z (Qfloor x) <= 1 # 2) \/
  (rne x = (Qfloor x + 1)%Z /\ 1 # 2 <= x - inject_Z (Qfloor x)).
Proof.
  unfold rne.
  destruct (Qcompare_spec (x - inject_Z (Qfloor x)) (1 # 2)) as [H | H | H].
  - destruct (Z.even (Qfloor x)); [left | right]; split;
      try reflexivity; rewrite H; apply Qle_refl.
  - left. split; [reflexivity | now apply Qlt_le_weak].
  - right. split; [reflexivity | now apply Qlt_le_weak].
Qed.

Lemma floor_bounds (x : Q) :
  inject_Z (Qfloor x) <= x /\ x < inject_Z (Qfloor x) + 1.
Proof.
  split; [apply Qfloor_le |].
  pose proof (Qlt_floor x) as H. rewrite inject_Z_plus in H. exact H.
Qed.

Lemma rne_comp (x y : Q) : x == y -> rne x = rne y.
Proof.
  intros H. unfold rne. rewrite (Qfloor_comp x y H).
  assert (Qcompare (x - inject_Z (Qfloor y)) (1 # 2)
          = Qcompare (y - inject_Z (Qfloor y)) (1 # 2)) as ->
    by (now rewrite H).
  reflexivity.
Qed.

Lemma rne_le_int (x : Q) (n : Z) : x <= inject_Z n -> (rne x <= n)%Z.
Proof.
  intros H. destruct (floor_bounds x) as [F1 F2].
  assert (Qfloor x <= n)%Z as Hf.
  { rewrite Zle_Qle. lra. }
  destruct (rne_cases x) as [[-> _] | [-> Hhalf]]; [exact Hf |].
  destruct (Z.eq_dec (Qfloor x) n) as [E | E]; [| lia].
  rewrite E in Hhalf. lra.
Qed.

Lemma rne_ge_int (x : Q) (n : Z) : inject_Z n <= x -> (n <= rne x)%Z.
Proof.
  intros H. destruct (floor_bounds x) as [F1 F2].
  assert (n <= Qfloor x)%Z as Hf.
  { apply Z.lt_succ_r. rewrite Zlt_Qlt. unfold Z.succ.
    rewrite inject_Z_plus. change (inject_Z 1) with 1. lra. }
  destruct (rne_cases x) as [[-> _] | [-> _]]; lia.
Qed.

Lemma rne_mono (x y : Q) : x <= y -> (rne x <= rne y)%Z.
Proof.
  intros H.
  destruct (floor_bounds x) as [X1 X2]. destruct (floor_bounds y) as [Y1 Y2].
  assert (Qfloor x <= Qfloor y)%Z as Hf by now apply Qfloor_resp_le.
  destruct (Z.eq_dec (Qfloor x) (Qfloor y)) as [E | E].
  - unfold rne. rewrite <- E.
    destruct (Qcompare_spec (x - inject_Z (Qfloor x)) (1 # 2)) as [Hx | Hx | Hx];
      destruct (Qcompare_spec (y - inject_Z (Qfloor x)) (1 # 2))
        as [Hy | Hy | Hy];
      destruct (Z.even (Qfloor x)); try lia; lra.
  - assert (Qfloor x + 1 <= Qfloor y)%Z as Hf' by lia.
    destruct (rne_cases x) as [[-> _] | [-> _]];
      destruct (rne_cases y) as [[-> _] | [-> _]]; lia.
Qed.

(** ** Rounding to binary64 *)

Lemma ulp_exponent_le (a b : Q) :
  0 < a -> a <= b -> (ulp_exponent a <= ulp_exponent b)%Z.
Proof.
  intros Ha Hab. unfold ulp_exponent.
  pose proof (exponent_le a b Ha Hab). lia.
Qed.

Lemma div_pow2 (q : Q) (u : Z) : q / pow2 u * pow2 u == q.
Proof.
  field. intros H. pose proof (pow2_pos u) as P. rewrite H in P.
  now apply Qlt_irrefl in P.
Qed.

Lemma div_pow2_le (a b : Q) (u : Z) : a <= b -> a / pow2 u <= b / pow2 u.
Proof.
  intros H. unfold Qdiv. apply Qmult_le_compat_r; [exact H |].
  apply Qlt_le_weak, Qinv_lt_0_compat, pow2_pos.
Qed.

Lemma fl_pos_nonneg (q : Q) : 0 < q -> 0 <= fl_pos q.
Proof.
  intros Hq. unfold fl_pos. cbv zeta.
  apply Qmult_le_0_compat; [| apply Qlt_le_weak, pow2_pos].
  change 0 with (inject_Z 0). rewrite <- Zle_Qle. apply rne_ge_int.
  change (inject_Z 0) with 0. unfold Qdiv.
  apply Qmult_le_0_compat; [now apply Qlt_le_weak |].
  apply Qlt_le_weak, Qinv_lt_0_compat, pow2_pos.
Qed.

Lemma fl_pos_mono (a b : Q) : 0 < a -> a <= b -> fl_pos a <= fl_pos b.
Proof.
  intros Ha Hab. assert (0 < b) as Hb by lra.
  pose proof (ulp_exponent_le a b Ha Hab) as Hu.
  unfold fl_pos. cbv zeta.
  set (ua := ulp_exponent a) in *. set (ub := ulp_exponent b) in *.
  destruct (Z.eq_dec ua ub) as [E | E].
  - rewrite <- E. apply Qmult_le_compat_r; [| apply Qlt_le_weak, pow2_pos].
    rewrite <- Zle_Qle. apply rne_mono. now apply div_pow2_le.
  - assert (ua + 1 <= ub)%Z as Hlt by lia.
    destruct (exponent_spec a Ha) as [A1 A2].
    destruct (exponent_spec b Hb) as [B1 B2].
    assert (ub = exponent b - 52)%Z as Eb by (unfold ub, ua, ulp_exponent in *; lia).
    assert (exponent a - 52 <= ua)%Z as Ea by (unfold ua, ulp_exponent; lia).
    (* upper bound for a *)
    assert (rne (a / pow2 ua) <= 2 ^ 53)%Z as Hra.
    { apply rne_le_int. rewrite <- pow2_nonneg by lia.
      apply Qle_shift_div_r; [apply pow2_pos |].
      rewrite <- pow2_add.
      assert (pow2 (exponent a + 1) <= pow2 (53 + ua)) by (apply pow2_le; lia).
      lra. }
    (* lower bound for b *)
    assert (2 ^ 52 <= rne (b / pow2 ub))%Z as Hrb.
    { apply rne_ge_int. rewrite <- pow2_nonneg by lia.
      apply Qle_shift_div_l; [apply pow2_pos |].
      rewrite <- pow2_add.
      assert (pow2 (52 + ub) <= pow2 (exponent b)) by (apply pow2_le; lia).
      lra. }
    apply Qle_trans with (inject_Z (2 ^ 53) * pow2 ua).
    + apply Qmult_le_compat_r; [| apply Qlt_le_weak, pow2_pos].
      now rewrite <- Zle_Qle.
    + apply Qle_trans with (inject_Z (2 ^ 52) * pow2 ub).
      * rewrite <- !pow2_nonneg by lia. rewrite <- !pow2_add.
        apply pow2_le. lia.
      * apply Qmult_le_compat_r; [| apply Qlt_le_weak, pow2_pos].
        now rewrite <- Zle_Qle.
Qed.

Lemma fl_pos_comp (a b : Q) : 0 < a -> a == b -> fl_pos a == fl_pos b.
Proof.
  intros Ha Hab. unfold fl_pos, ulp_exponent. cbv zeta.
  rewrite (exponent_comp a b Ha Hab).
  set (u := Z.max (exponent b - 52) (-1074)).
  rewrite (rne_comp (a / pow2 u) (b / pow2 u)) by (now rewrite Hab).
  reflexivity.
Qed.

Lemma fl_eq (q : Q) :
  fl q == match Qcompare q 0 with
          | Eq => 0
          | Gt => fl_pos q
          | Lt => - fl_pos (- q)
          end.
Proof. unfold fl. destruct (Qcompare q 0); [reflexivity | |]; apply Qred_correct. Qed.

Lemma fl_of_pos (q : Q) : 0 < q -> fl q == fl_pos q.
Proof.
  intros H. rewrite fl_eq.
  destruct (Qcompare_spec q 0) as [E | E | E]; [| | reflexivity]; lra.
Qed.

Lemma fl_of_neg (q : Q) : q < 0 -> fl q == - fl_pos (- q).
Proof.
  intros H. rewrite fl_eq.
  destruct (Qcompare_spec q 0) as [E | E | E]; [| reflexivity |]; lra.
Qed.

Lemma fl_of_zero (q : Q) : q == 0 -> fl q = 0.
Proof.
  intros H. unfold fl.
  destruct (Qcompare_spec q 0) as [E | E | E]; [reflexivity | |]; lra.
Qed.

Lemma fl_nonneg (q : Q) : 0 <= q -> 0 <= fl q.
Proof.
  intros H. destruct (Qlt_le_dec 0 q) as [Hq | Hq].
  - rewrite fl_of_pos by exact Hq. now apply fl_pos_nonneg.
  - rewrite (fl_of_zero q) by lra. apply Qle_refl.
Qed.

Lemma fl_nonpos (q : Q) : q <= 0 -> fl q <= 0.
Proof.
  intros H. destruct (Qlt_le_dec q 0) as [Hq | Hq].
  - rewrite fl_of_neg by exact Hq.
    assert (0 <= fl_pos (- q)) by (apply fl_pos_nonneg; lra). lra.
  - rewrite (fl_of_zero q) by lra. apply Qle_refl.
Qed.

(** Rounding is monotone. *)
Lemma fl_mono (a b : Q) : a <= b -> fl a <= fl b.
Proof.
  intros Hab.
  destruct (Qlt_le_dec 0 a) as [Ha | Ha].
  - rewrite (fl_of_pos a) by exact Ha. rewrite (fl_of_pos b) by lra.
    now apply fl_pos_mono.
  - destruct (Qlt_le_dec 0 b) as [Hb | Hb].
    + apply Qle_trans with 0; [now apply fl_nonpos | apply fl_nonneg; lra].
    + destruct (Qlt_le_dec b 0) as [Hb' | Hb'].
      * rewrite (fl_of_neg a) by lra. rewrite (fl_of_neg b) by exact Hb'.
        assert (fl_pos (- b) <= fl_pos (- a)) by (apply fl_pos_mono; lra).
        lra.
      * rewrite (fl_of_zero b) by lra. now apply fl_nonpos.
Qed.

(** Equal rationals round to the same number, whatever their fractions. *)
Lemma fl_comp (a b : Q) : a == b -> fl a = fl b.
Proof.
  intros Hab. unfold fl.
  rewrite (Qcompare_comp a b Hab 0 0 (Qeq_refl 0)).
  destruct (Qcompare_spec b 0) as [E | E | E]; [reflexivity | |].
  - apply Qred_complete. apply Qopp_comp.
    apply fl_pos_comp; [lra | now rewrite Hab].
  - apply Qred_complete. apply fl_pos_comp; [lra | exact Hab].
Qed.

Lemma fl_opp (q : Q) : fl (- q) == - fl q.
Proof.
  destruct (Q_dec q 0) as [[H | H] | H].
  - rewrite (fl_of_neg q) by exact H. rewrite (fl_of_pos (- q)) by lra. ring.
  - rewrite (fl_of_pos q) by exact H. rewrite (fl_of_neg (- q)) by lra.
    rewrite (fl_pos_comp (- - q) q); [reflexivity | lra | ring].
  - rewrite (fl_of_zero q) by exact H. rewrite (fl_of_zero (- q)) by lra.
    reflexivity.
Qed.

(** ** The error of one rounding *)

Lemma rne_near (x : Q) : Qabs (inject_Z (rne x) - x) <= 1 # 2.
Proof.
  destruct (floor_bounds x) as [F1 F2]. apply Qabs_Qle_condition.
  destruct (rne_cases x) as [[-> H] | [-> H]].
  - split; lra.
  - rewrite inject_Z_plus. change (inject_Z 1) with 1. split; lra.
Qed.

Lemma ulp_exponent_normal (q : Q) :
  pow2 (-1022) <= q -> ulp_exponent q = (exponent q - 52)%Z.
Proof.
  intros H. pose proof (pow2_pos (-1022)) as P.
  assert (0 < q) as Hq by lra.
  destruct (exponent_spec q Hq) as [_ E2].
  unfold ulp_exponent.
  destruct (Z_lt_le_dec (exponent q) (-1022)) as [Hlt | Hge]; [| lia].
  assert (pow2 (exponent q + 1) <= pow2 (-1022)) by (apply pow2_le; lia).
  lra.
Qed.

(** In the normal range a rounding moves a number by at most one part in
    2^53 of it. *)
Lemma fl_error (q : Q) :
  pow2 (-1022) <= q -> Qabs (fl q - q) <= q * pow2 (-53).
Proof.
  intros H. pose proof (pow2_pos (-1022)) as P.
  assert (0 < q) as Hq by lra.
  rewrite (fl_of_pos q Hq). unfold fl_pos. cbv zeta.
  rewrite (ulp_exponent_normal q H).
  destruct (exponent_spec q Hq) as [E1 _].
  set (e := exponent q) in *. set (u := (e - 52)%Z).
  pose proof (pow2_pos u) as Pu.
  pose proof (rne_near (q / pow2 u)) as Hn.
  pose proof (div_pow2 q u) as Hz.
  set (z := q / pow2 u) in *. set (m := inject_Z (rne z)) in *.
  assert (pow2 e == pow2 u * pow2 52) as Ee.
  { rewrite <- pow2_add. unfold u. now replace (e - 52 + 52)%Z with e by lia. }
  assert (pow2 52 * pow2 (-53) == 1 # 2) as Eh by reflexivity.
  apply Qabs_Qle_condition in Hn. destruct Hn as [Hn1 Hn2].
  assert (- (1 # 2) * pow2 u <= (m - z) * pow2 u) as L1
    by (apply Qmult_le_compat_r; lra).
  assert ((m - z) * pow2 u <= (1 # 2) * pow2 u) as L2
    by (apply Qmult_le_compat_r; lra).
  assert ((1 # 2) * pow2 u <= q * pow2 (-53)) as L3.
  { apply Qle_trans with (pow2 e * pow2 (-53)).
    - rewrite Ee, <- Qmult_assoc, Eh. lra.
    - apply Qmult_le_compat_r; [exact E1 |].
      apply Qlt_le_weak, pow2_pos. }
  set (p := pow2 u) in *. set (r := q * pow2 (-53)) in *.
  clearbody p r m z. apply Qabs_Qle_condition. split; lra.
Qed.

(** ** Results that may overflow *)

Lemma num_cases (q : Q) :
  (num q = Fin (fl q) /\ Qabs (fl q) < pow2 1024) \/
  (num q = PInf /\ 0 <= q) \/ (num q = NInf /\ q < 0).
Proof.
  unfold num. destruct (Qle_bool (pow2 1024) (Qabs (fl q))) eqn:E.
  - right. destruct (Qle_bool 0 q) eqn:E0.
    + left. split; [reflexivity | now apply Qle_bool_iff].
    + right. split; [reflexivity |]. apply Qnot_le_lt. intros H.
      apply Qle_bool_iff in H. congruence.
  - left. split; [reflexivity |]. apply Qnot_le_lt. intros H.
    apply Qle_bool_iff in H. congruence.
Qed.

Lemma div_pos (a b : Q) : 0 < b -> div a b = num (a / b).
Proof.
  intros H. unfold div.
  destruct (Qeq_bool b 0) eqn:E; [| reflexivity].
  apply Qeq_bool_iff in E. rewrite E in H. now apply Qlt_irrefl in H.
Qed.

(** ** [toFixed] *)

Lemma nearest_near (unit : positive) (x : Q) :
  Qabs (inject_Z (nearest unit x) - x * inject_Z (Zpos unit)) <= 1 # 2.
Proof.
  unfold nearest. set (U := inject_Z (Zpos unit)).
  destruct (Qle_bool 0 x).
  - destruct (floor_bounds (x * U + (1 # 2))) as [F1 F2].
    apply Qabs_Qle_condition. split; lra.
  - destruct (floor_bounds (- x * U + (1 # 2))) as [F1 F2].
    rewrite inject_Z_opp. apply Qabs_Qle_condition. split; lra.
Qed.

Lemma tenths_eq (n : Z) : n # 10 == inject_Z n * (1 # 10).
Proof. unfold Qeq, inject_Z, Qmult. simpl. lia. Qed.

Lemma nearest_tenth_near (x : Q) :
  Qabs ((nearest 10 x # 10) - x) <= 1 # 20.
Proof.
  pose proof (nearest_near 10 x) as H. rewrite tenths_eq.
  change (inject_Z (Zpos 10)) with 10 in H.
  apply Qabs_Qle_condition in H. apply Qabs_Qle_condition.
  set (n := inject_Z (nearest 10 x)) in *. clearbody n. split; lra.
Qed.

Lemma nearest_mono (unit : positive) (x y : Q) :
  x <= y -> (nearest unit x <= nearest unit y)%Z.
Proof.
  intros H. unfold nearest. set (U := inject_Z (Zpos unit)).
  assert (0 < U) as HU by reflexivity.
  assert (x * U <= y * U) as HxU by (apply Qmult_le_compat_r; lra).
  destruct (Qle_bool 0 x) eqn:Ex; destruct (Qle_bool 0 y) eqn:Ey.
  - apply Qfloor_resp_le. lra.
  - apply Qle_bool_iff in Ex.
    assert (~ 0 <= y) as Hy by (intros C; apply Qle_bool_iff in C; congruence).
    lra.
  - assert (~ 0 <= x) as Hx by (intros C; apply Qle_bool_iff in C; congruence).
    apply Qle_bool_iff in Ey.
    assert (0 <= Qfloor (- x * U + (1 # 2)))%Z.
    { change 0%Z with (Qfloor 0). apply Qfloor_resp_le.
      assert (0 <= (- x) * U) by (apply Qmult_le_0_compat; lra). lra. }
    assert (0 <= Qfloor (y * U + (1 # 2)))%Z.
    { change 0%Z with (Qfloor 0). apply Qfloor_resp_le.
      assert (0 <= y * U) by (apply Qmult_le_0_compat; lra). lra. }
    lia.
  - apply Z.opp_le_mono. rewrite !Z.opp_involutive.
    apply Qfloor_resp_le. lra.
Qed.

(** ** The fraction that [fl] returns *)

Lemma fl_red (q : Q) : Qred (fl q) = fl q.
Proof.
  unfold fl. destruct (Qcompare q 0); [reflexivity | |];
    apply Qred_complete, Qred_correct.
Qed.

Lemma Qred_inject_Z (n : Z) : Qred (inject_Z n) = inject_Z n.
Proof.
  unfold Qred, inject_Z.
  pose proof (Z.ggcd_correct_divisors n 1) as H.
  pose proof (Z.ggcd_gcd n 1) as Hg.
  destruct (Z.ggcd n 1) as [g [a b]]. cbn [fst] in Hg.
  destruct H as [Ha Hb].
  rewrite Z.gcd_1_r in Hg. subst g.
  assert (b = 1%Z) as -> by lia. assert (a = n) as -> by lia.
  reflexivity.
Qed.

(** A rounded number that has the value of an integer is that integer. *)
Lemma fl_whole (q : Q) (n : Z) : fl q == inject_Z n -> fl q = inject_Z n.
Proof.
  intros H. rewrite <- fl_red. rewrite (Qred_complete _ _ H).
  apply Qred_inject_Z.
Qed.

End JsFacts.
(* ===================================================================== *)
(** * Properties of mockData.js *)
(* ===================================================================== *)

Module MockDataFacts.
Import Js MockData Props.

(** ** Arithmetic of the helpers *)

Lemma max_ge_l (a b : Q) : (a <= Js.max a b)%Q.
Proof.
  unfold Js.max. destruct (Qle_bool a b) eqn:E.
  - now apply Qle_bool_iff.
  - apply Qle_refl.
Qed.

Lemma max_ge_r (a b : Q) : (b <= Js.max a b)%Q.
Proof.
  unfold Js.max. destruct (Qle_bool a b) eqn:E.
  - apply Qle_refl.
  - apply Qlt_le_weak, Qnot_le_lt. intros H.
    apply Qle_bool_iff in H. congruence.
Qed.

Lemma min_le_r (a b : Q) : (Js.min a b <= b)%Q.
Proof.
  unfold Js.min. destruct (Qle_bool a b) eqn:E.
  - now apply Qle_bool_iff.
  - apply Qle_refl.
Qed.

Lemma min_ge (a b c : Q) : (c <= a)%Q -> (c <= b)%Q -> (c <= Js.min a b)%Q.
Proof. unfold Js.min. now destruct (Qle_bool a b). Qed.

Lemma clamp_le_hi (v lo hi : Q) : (clamp v lo hi <= hi)%Q.
Proof. apply min_le_r. Qed.

Lemma clamp_ge_lo (v lo hi : Q) : (lo <= hi)%Q -> (lo <= clamp v lo hi)%Q.
Proof. intros H. apply min_ge; [apply max_ge_r | exact H]. Qed.

Lemma round_tenths_rounds (x : Q) :
  (Qabs x < inject_Z (10 ^ 21))%Q -> rounds_to x (round_tenths x).
Proof.
  intros H. unfold rounds_to, round_tenths, toFixed.
  destruct (Qle_bool (inject_Z (10 ^ 21)) (Qabs x)) eqn:E.
  - apply Qle_bool_iff in E. lra.
  - exists (nearest 10 x). split; [reflexivity |].
    apply JsFacts.nearest_tenth_near.
Qed.

Lemma round_tenths_large (x : Q) :
  (inject_Z (10 ^ 21) <= Qabs x)%Q -> round_tenths x = x.
Proof.
  intros H. unfold round_tenths, toFixed.
  apply Qle_bool_iff in H. now rewrite H.
Qed.

Lemma toFixed1_progress (c t : Q) :
  progress_for c t (toFixed1 (percentage c t)).
Proof.
  unfold progress_for. destruct (percentage c t) as [x | | |];
    cbn [toFixed1]; try reflexivity.
  split.
  - intros H. eexists. split; [reflexivity |].
    now apply round_tenths_rounds.
  - intros H. now rewrite round_tenths_large.
Qed.

Lemma fl_smallest_normal : (fl (pow2 (-1022)) == pow2 (-1022))%Q.
Proof. vm_compute. reflexivity. Qed.

(** The computed percentage is the exact one up to one part in 2^51. *)
Lemma percentage_accuracy (c t x : Q) :
  (0 < t)%Q -> (pow2 (-1022) <= c / t)%Q -> percentage c t = Fin x ->
  (Qabs (x - c / t * 100) <= c / t * 100 * pow2 (-51))%Q.
Proof.
  intros Ht Hq Hx. unfold percentage in Hx.
  rewrite JsFacts.div_pos in Hx by exact Ht.
  destruct (JsFacts.num_cases (c / t)) as [[E _] | [[E _] | [E _]]];
    rewrite E in Hx; cbn [scale] in Hx; try discriminate.
  destruct (JsFacts.num_cases (fl (c / t) * 100))
    as [[E2 _] | [[E2 _] | [E2 _]]];
    rewrite E2 in Hx; try discriminate.
  injection Hx as <-.
  pose proof (JsFacts.fl_error (c / t) Hq) as H1.
  pose proof (JsFacts.fl_mono _ _ Hq) as Hy.
  rewrite fl_smallest_normal in Hy.
  pose proof (JsFacts.pow2_pos (-1022)) as P.
  assert (pow2 (-1022) <= fl (c / t) * 100)%Q as Hy100 by lra.
  pose proof (JsFacts.fl_error (fl (c / t) * 100) Hy100) as H2.
  set (q := (c / t)%Q) in *. set (y := fl q) in *.
  set (z := fl (y * 100)) in *.
  change (pow2 (-53)) with (1 # 9007199254740992)%Q in *.
  change (pow2 (-51)) with (1 # 2251799813685248)%Q.
  clearbody q y z.
  apply Qabs_Qle_condition in H1. apply Qabs_Qle_condition in H2.
  apply Qabs_Qle_condition. split; lra.
Qed.

(** ** Statistics *)

Lemma getStatistics_total (r : Q) (s : State) :
  totalArea (fst (getStatistics r s)) = totalArea s.
Proof. reflexivity. Qed.

(** A read re-establishes the invariant, whatever the state was. *)
Lemma getStatistics_invariant (r : Q) (s : State) :
  area_invariant (fst (getStatistics r s)).
Proof.
  unfold area_invariant, getStatistics. cbn [fst completedArea totalArea].
  apply clamp_le_hi.
Qed.

(** An update stores non-negative areas. *)
Lemma updateStatistics_nonneg (c t : Q) (s : State) :
  let s' := fst (updateStatistics
                   {| upd_completedArea := Some c; upd_totalArea := Some t |}
                   s) in
  (0 <= completedArea s')%Q /\ (0 <= totalArea s')%Q.
Proof.
  unfold updateStatistics.
  cbn [fst upd_completedArea upd_totalArea completedArea totalArea].
  split; apply max_ge_l.
Qed.

(** A read of a state whose total area is zero returns a progress that is
    not a number. *)
Lemma getStatistics_zero_total :
  st_progress (snd (getStatistics 0 {| completedArea := 0; totalArea := 0 |}))
  = NaN.
Proof. vm_compute. reflexivity. Qed.

(** C4, as stated, fails at a read of the initial state: the progress
    returned is the number 32.7, which is neither the exact quotient of
    the stored areas times 100 nor the value that binary64 arithmetic
    computes for it. *)
Lemma C4_read_progress_not_exact :
  let '(s', res) := getStatistics 0 state0 in
  st_progress res = Fin (lit (327 # 10)) /\
  ~ is_num (st_progress res) (completedArea s' / totalArea s' * 100) /\
  st_progress res <> percentage (completedArea s') (totalArea s').
Proof.
  vm_compute. split; [reflexivity | split; discriminate].
Qed.

(** C4, amended: an update returns as progress the percentage
    completedArea / totalArea * 100, computed in binary64 arithmetic from
    the stored areas, rounded to one decimal place (and passed on when it
    overflows to an infinity), and 0 when the stored total area is not
    positive; a read of a state with a positive total area returns the
    same rounding for the areas it leaves stored; the computed percentage
    is within one part in 2^51 of the exact one when the quotient is in
    the normal range; updating to completedArea 15 and totalArea 40
    returns 37.5. *)
Theorem C4_progress_one_decimal :
  (forall (data : StatsUpdate) (s : State),
      let '(s', res) := updateStatistics data s in
      ((0 < totalArea s')%Q ->
       progress_for (completedArea s') (totalArea s') (st_progress res)) /\
      ((totalArea s' <= 0)%Q -> st_progress res = Fin 0)) /\
  (forall (r : Q) (s : State),
      (0 < totalArea s)%Q ->
      let '(s', res) := getStatistics r s in
      progress_for (completedArea s') (totalArea s') (st_progress res)) /\
  (forall (c t x : Q),
      (0 < t)%Q -> (pow2 (-1022) <= c / t)%Q ->
      percentage c t = Fin x ->
      (Qabs (x - c / t * 100) <= c / t * 100 * pow2 (-51))%Q) /\
  (forall s : State,
      is_num
        (st_progress
           (snd (updateStatistics
                   {| upd_completedArea := Some 15%Q;
                      upd_totalArea := Some 40%Q |} s)))
        (375 # 10)).
Proof.
  split; [| split; [| split]].
  - intros data s. unfold updateStatistics.
    set (s2 := match upd_totalArea data with
               | Some t => _
               | None => _
               end).
    cbn [fst snd st_progress]. split.
    + intros Hpos.
      assert (Qle_bool (totalArea s2) 0 = false) as E.
      { destruct (Qle_bool (totalArea s2) 0) eqn:E; [| reflexivity].
        apply Qle_bool_iff in E. lra. }
      rewrite E. cbn [negb]. apply toFixed1_progress.
    + intros Hle. apply Qle_bool_iff in Hle. now rewrite Hle.
  - intros r s Hpos. unfold getStatistics.
    cbn [fst snd st_progress completedArea totalArea].
    apply toFixed1_progress.
  - exact percentage_accuracy.
  - intros s. vm_compute. reflexivity.
Qed.

Lemma C4_progress_one_decimal_witness :
  let both := {| upd_completedArea := Some 15%Q;
                 upd_totalArea := Some 40%Q |} in
  let none := {| upd_completedArea := None; upd_totalArea := Some 0%Q |} in
  ((0 < totalArea (fst (updateStatistics both state0)))%Q /\
   progress_for (completedArea (fst (updateStatistics both state0)))
                (totalArea (fst (updateStatistics both state0)))
                (st_progress (snd (updateStatistics both state0)))) /\
  ((totalArea (fst (updateStatistics none state0)) <= 0)%Q /\
   st_progress (snd (updateStatistics none state0)) = Fin 0) /\
  ((0 < totalArea state0)%Q /\
   progress_for (completedArea (fst (getStatistics 0 state0)))
                (totalArea (fst (getStatistics 0 state0)))
                (st_progress (snd (getStatistics 0 state0)))) /\
  ((0 < 40)%Q /\ (pow2 (-1022) <= 15 / 40)%Q /\
   percentage 15 40 = Fin (75 # 2) /\
   (Qabs ((75 # 2) - 15 / 40 * 100) <= 15 / 40 * 100 * pow2 (-51))%Q).
Proof.
  cbv zeta.
  destruct C4_progress_one_decimal as (Hupdate & Hread & Hacc & _).
  split; [| split; [| split]].
  - split; [vm_compute; reflexivity |].
    apply (proj1 (Hupdate {| upd_completedArea := Some 15%Q;
                             upd_totalArea := Some 40%Q |} state0)).
    vm_compute. reflexivity.
  - split; [vm_compute; discriminate |].
    apply (proj2 (Hupdate {| upd_completedArea := None;
                             upd_totalArea := Some 0%Q |} state0)).
    vm_compute. discriminate.
  - split; [vm_compute; reflexivity |].
    apply (Hread 0%Q state0). vm_compute. reflexivity.
  - assert (0 < 40)%Q as H1 by reflexivity.
    assert (pow2 (-1022) <= 15 / 40)%Q as H2 by (vm_compute; discriminate).
    assert (percentage 15 40 = Fin (75 # 2)) as H3.
    { vm_compute. reflexivity. }
    split; [exact H1 |]. split; [exact H2 |]. split; [exact H3 |].
    exact (Hacc 15%Q 40%Q (75 # 2) H1 H2 H3).
Defined.

(** C5: the code breaks the invariant.  Updating the initial state to
    completedArea 50 and totalArea 40 stores exactly these two values, with
    the completed area above the total area. *)
Theorem C5_update_exceeds_total :
  let s' := fst (updateStatistics
                   {| upd_completedArea := Some 50%Q;
                      upd_totalArea := Some 40%Q |} state0) in
  completedArea s' = 50%Q /\ totalArea s' = 40%Q /\ ~ area_invariant s'.
Proof.
  vm_compute. repeat split. intros H. now apply H.
Qed.

(** ** Task ids *)

Lemma max_id_ge (rest : list Task) :
  forall first : Z,
    (first <= max_id first rest)%Z /\
    (forall t, t ∈ rest -> (id t <= max_id first rest)%Z).
Proof.
  induction rest as [| t rest IH]; intros first; simpl.
  - split; [lia |]. intros t Ht. inversion Ht.
  - destruct (IH (Z.max first (id t))) as [H1 H2]. split; [lia |].
    intros t' Ht'. apply elem_of_cons in Ht' as [-> | Ht'].
    + lia.
    + now apply H2.
Qed.

Lemma newId_above (tasks : list Task) (t : Task) :
  t ∈ tasks -> (id t < newId tasks)%Z.
Proof.
  destruct tasks as [| t0 rest]; intros Ht; [inversion Ht |].
  simpl. destruct (max_id_ge rest (id t0)) as [H1 H2].
  apply elem_of_cons in Ht as [-> | Ht].
  - lia.
  - specialize (H2 _ Ht). lia.
Qed.

Lemma newId_fresh (tasks : list Task) : newId tasks ∉ ids tasks.
Proof.
  intros H. unfold ids in H. apply list_elem_of_fmap in H as (t & Heq & Ht).
  apply newId_above in Ht. lia.
Qed.

Lemma ids_createTask (d : TaskData) (tasks : list Task) :
  ids (fst (createTask d tasks)) = ids tasks ++ [newId tasks].
Proof. unfold createTask, ids. simpl. now rewrite List.map_app. Qed.

Lemma ids_updateTask (i : Z) (u : TaskUpdate) (tasks : list Task) :
  ids (fst (updateTask i u tasks)) = ids tasks.
Proof.
  induction tasks as [| t rest IH]; simpl; [reflexivity |].
  destruct (Z.eqb (id t) i); simpl; [reflexivity |].
  destruct (updateTask i u rest) as [rest' r]. simpl in *. now rewrite IH.
Qed.

Lemma elem_of_deleteTask (i : Z) (tasks : list Task) (t : Task) :
  t ∈ fst (deleteTask i tasks) <-> t ∈ tasks /\ id t <> i.
Proof.
  unfold deleteTask. cbn [fst].
  rewrite !list_elem_of_In, List.filter_In, Bool.negb_true_iff, Z.eqb_neq.
  tauto.
Qed.

Lemma NoDup_ids_deleteTask (i : Z) (tasks : list Task) :
  NoDup (ids tasks) -> NoDup (ids (fst (deleteTask i tasks))).
Proof.
  unfold deleteTask, ids. cbn [fst].
  induction tasks as [| t rest IH]; simpl; intros H; [constructor |].
  apply NoDup_cons in H as [Hnotin Hrest].
  destruct (Z.eqb (id t) i); simpl; [now apply IH |].
  apply NoDup_cons. split; [| now apply IH].
  intros Hin. apply Hnotin.
  apply list_elem_of_fmap in Hin as (t' & Heq & Ht').
  apply list_elem_of_fmap. exists t'. split; [exact Heq |].
  apply list_elem_of_In in Ht'. apply List.filter_In in Ht'.
  apply list_elem_of_In. tauto.
Qed.

Lemma NoDup_ids_createTask (d : TaskData) (tasks : list Task) :
  NoDup (ids tasks) -> NoDup (ids (fst (createTask d tasks))).
Proof.
  intros H. rewrite ids_createTask. apply NoDup_app. split; [exact H |].
  split.
  - intros x Hx Hx'. apply list_elem_of_singleton in Hx'. subst x.
    now apply newId_fresh in Hx.
  - apply NoDup_singleton.
Qed.

Lemma NoDup_ids_step (op : Op) (tasks : list Task) :
  NoDup (ids tasks) -> NoDup (ids (step tasks op)).
Proof.
  destruct op as [d | i u | i]; simpl; intros H.
  - now apply NoDup_ids_createTask.
  - now rewrite ids_updateTask.
  - now apply NoDup_ids_deleteTask.
Qed.

Lemma NoDup_ids_run (ops : list Op) :
  forall tasks, NoDup (ids tasks) -> NoDup (ids (run ops tasks)).
Proof.
  unfold run. induction ops as [| op ops IH]; intros tasks H; simpl.
  - exact H.
  - apply IH. now apply NoDup_ids_step.
Qed.

Lemma NoDup_ids_tasks0 : NoDup (ids tasks0).
Proof. compute_done. Qed.

(** C6, as stated, fails on the initial list: after deleting task 3 the
    next task created gets id 3 again. *)
Lemma C6_deleted_id_reused :
  let tasks1 := fst (deleteTask 3 tasks0) in
  let d := {| td_name := "X"; td_status := None; td_progress := None |} in
  (3%Z ∈ ids tasks0) /\ (3%Z ∉ ids tasks1) /\
  id (snd (createTask d tasks1)) = 3%Z.
Proof. cbv zeta. repeat split; compute_done. Qed.

(** The largest id is the id of a task of the list. *)
Lemma max_id_attained (rest : list Task) :
  forall first : Z,
    max_id first rest = first \/
    exists t, t ∈ rest /\ max_id first rest = id t.
Proof.
  induction rest as [| t rest IH]; intros first; cbn [max_id];
    [now left |].
  destruct (IH (Z.max first (id t))) as [E | (t' & Ht' & E)].
  - destruct (Z.max_spec first (id t)) as [[_ Hm] | [_ Hm]].
    + right. exists t. split; [apply elem_of_cons; now left | congruence].
    + left. congruence.
  - right. exists t'. split; [apply elem_of_cons; now right | exact E].
Qed.

(** The id of a new task: 1 for the empty list, else one more than the
    largest id of the list. *)
Lemma newId_spec (tasks : list Task) :
  (tasks = [] /\ newId tasks = 1%Z) \/
  (exists t, t ∈ tasks /\ (forall t', t' ∈ tasks -> (id t' <= id t)%Z) /\
             newId tasks = (id t + 1)%Z).
Proof.
  destruct tasks as [| t0 rest]; [now left |]. right. cbn [newId].
  destruct (max_id_ge rest (id t0)) as [H1 H2].
  assert (forall t', t' ∈ t0 :: rest -> (id t' <= max_id (id t0) rest)%Z)
    as Hall.
  { intros t' Ht'. apply elem_of_cons in Ht' as [-> | Ht'];
      [exact H1 | now apply H2]. }
  destruct (max_id_attained rest (id t0)) as [E | (t & Ht & E)].
  - exists t0. split; [apply elem_of_cons; now left |].
    split; [| now rewrite E]. intros t' Ht'. rewrite <- E. now apply Hall.
  - exists t. split; [apply elem_of_cons; now right |].
    split; [| now rewrite E]. intros t' Ht'. rewrite <- E. now apply Hall.
Qed.

(** C6, amended: after every sequence of create, update and delete
    operations on the initial list the task ids are pairwise distinct; and
    when a task X is deleted and a task is created next, the new id is
    none of the ids left in the list, the ids stay pairwise distinct, and
    the new id is X again exactly when X is one more than the largest id
    left in the list, or X is 1 and no task is left; so it differs from X
    whenever the list held an id larger than X. *)
Theorem C6_ids_unique_and_fresh :
  forall ops : list Op,
    let tasks := run ops tasks0 in
    NoDup (ids tasks) /\
    forall (X : Z) (d : TaskData),
      let tasks1 := fst (deleteTask X tasks) in
      let created := createTask d tasks1 in
      (id (snd created) ∉ ids tasks1) /\
      NoDup (ids (fst created)) /\
      (id (snd created) = X <->
       (tasks1 = [] /\ X = 1%Z) \/
       (exists t, t ∈ tasks1 /\
                  (forall t', t' ∈ tasks1 -> (id t' <= id t)%Z) /\
                  X = (id t + 1)%Z)) /\
      (has_larger_id X tasks -> id (snd created) <> X).
Proof.
  intros ops tasks.
  assert (NoDup (ids tasks)) as Hnd
    by (apply NoDup_ids_run, NoDup_ids_tasks0).
  split; [exact Hnd |].
  intros X d tasks1 created. split; [| split; [| split]].
  - apply newId_fresh.
  - apply NoDup_ids_createTask. now apply NoDup_ids_deleteTask.
  - subst created. cbn [createTask snd id]. split.
    + intros E. destruct (newId_spec tasks1) as [[H1 H2] | (t & Ht & Hmax & H2)].
      * left. split; [exact H1 | congruence].
      * right. exists t. split; [exact Ht |]. split; [exact Hmax | congruence].
    + intros [[H1 ->] | (t & Ht & Hmax & ->)].
      * now rewrite H1.
      * destruct (newId_spec tasks1)
          as [[H1 _] | (t2 & Ht2 & Hmax2 & ->)].
        -- rewrite H1 in Ht. inversion Ht.
        -- pose proof (Hmax _ Ht2). pose proof (Hmax2 _ Ht). lia.
  - intros (t & Ht & Hlt).
    assert (t ∈ tasks1) as Ht1.
    { apply elem_of_deleteTask. split; [exact Ht | lia]. }
    apply newId_above in Ht1. subst created. cbn [createTask snd id]. lia.
Qed.

Lemma C6_ids_unique_and_fresh_witness :
  let d := {| td_name := "X"; td_status := None; td_progress := None |} in
  (has_larger_id 1 tasks0 /\
   id (snd (createTask d (fst (deleteTask 1 tasks0)))) <> 1%Z) /\
  (let tasks := run [Create d; Create d; Delete 3; Delete 4] tasks0 in
   ids tasks = [1; 2; 5]%Z /\
   has_larger_id 2 tasks /\
   id (snd (createTask d (fst (deleteTask 2 tasks)))) <> 2%Z /\
   id (snd (createTask d (fst (deleteTask 5 tasks)))) = 3%Z).
Proof.
  cbv zeta.
  assert (has_larger_id 1 tasks0) as H.
  { exists {| id := 2; name := "B区病虫害检测"; status := "pending";
              progress := 0 |}.
    split; [| reflexivity].
    apply list_elem_of_In. simpl. tauto. }
  split.
  - split; [exact H |].
    exact (proj2 (proj2 (proj2 (proj2 (C6_ids_unique_and_fresh []) 1%Z
             {| td_name := "X"; td_status := None; td_progress := None |})))
             H).
  - set (d := {| td_name := "X"; td_status := None; td_progress := None |}).
    assert (has_larger_id 2
              (run [Create d; Create d; Delete 3; Delete 4] tasks0)) as H2.
    { exists {| id := 5; name := "X"; status := "pending"; progress := 0 |}.
      split; [| reflexivity].
      apply list_elem_of_In. simpl. tauto. }
    split; [reflexivity |]. split; [exact H2 |]. split; [| reflexivity].
    exact (proj2 (proj2 (proj2 (proj2 (C6_ids_unique_and_fresh
             [Create d; Create d; Delete 3; Delete 4]) 2%Z d))) H2).
Defined.

End MockDataFacts.

(* ===================================================================== *)
(** * Properties of dataSource.js *)
(* ===================================================================== *)

Module DataSourceFacts.
Import Js DataSource.

(** ** Sending commands *)

Lemma is_type_Http (s : State) :
  is_type Http s = true <-> type s = Http.
Proof. unfold is_type. destruct (type s); split; congruence. Qed.

Lemma forward_no_connection (typed bare : list (string * string))
    (s : State) :
  connection s = None -> forward typed bare s = s.
Proof. intros H. unfold forward. now rewrite !H. Qed.

(** The HTTP branch reports a failed request. *)
Lemma handleCommand_http_error (msg c : string) (s : State) :
  type s = Http ->
  snd (handleCommand (HttpError msg) c s)
  = {| executed := false; kind := Command; code := c;
       message := "指令发送失败: " +:+ msg |}.
Proof.
  intros H. unfold handleCommand.
  destruct (is_type Http s) eqn:E; [reflexivity |].
  apply is_type_Http in H. congruence.
Qed.

Lemma handleAction_http_error (msg a : string) (s : State) :
  type s = Http ->
  snd (handleAction (HttpError msg) a s)
  = {| executed := false; kind := Action; code := a;
       message := "操作发送失败: " +:+ msg |}.
Proof.
  intros H. unfold handleAction.
  destruct (is_type Http s) eqn:E; [reflexivity |].
  apply is_type_Http in H. congruence.
Qed.



(** Every label of the two tables is a non-empty string, so an own member
    is what the lookup gives. *)
Lemma label_own (table : gmap string string) (c l : string) :
  map_Forall (fun _ v => truthy_str v = true) table ->
  table !! c = Some l -> label table c = l.
Proof.
  intros Hall H. unfold label. rewrite H. now rewrite (Hall c l H).
Qed.

Lemma label_plain (table : gmap string string) (c : string) :
  table !! c = None -> object_prototype !! c = None -> label table c = c.
Proof. intros H1 H2. unfold label. now rewrite H1, H2. Qed.

Lemma COMMANDS_truthy : map_Forall (fun _ v => truthy_str v = true) COMMANDS.
Proof.
  unfold COMMANDS. repeat (apply map_Forall_insert_2; [reflexivity |]).
  apply map_Forall_empty.
Qed.

Lemma ACTIONS_truthy : map_Forall (fun _ v => truthy_str v = true) ACTIONS.
Proof.
  unfold ACTIONS. repeat (apply map_Forall_insert_2; [reflexivity |]).
  apply map_Forall_empty.
Qed.

(** C3: the code breaks the claim.  With a transport other than HTTP and no
    connection object, [handleCommand] and [handleAction] write nothing to
    any transport, leave the state as it was, and still return an
    acknowledgment with [executed = true] and the message of a successful
    send: the prefix (or suffix) of success around a name, which is the
    label of a code of the table and the code itself for a code that is
    neither in the table nor a member of [Object.prototype]. *)
Theorem C3_no_connection_still_executed :
  forall (http : HttpOutcome) (c : string) (s : State),
    type s <> Http ->
    connection s = None ->
    Props.unavailable http s /\
    (let '(s', ack) := handleCommand http c s in
     s' = s /\ executed ack = true /\ kind ack = Command /\ code ack = c /\
     (exists name, message ack = "指令已发送: " +:+ name) /\
     (forall l, COMMANDS !! c = Some l ->
                message ack = "指令已发送: " +:+ l) /\
     (COMMANDS !! c = None -> object_prototype !! c = None ->
      message ack = "指令已发送: " +:+ c)) /\
    (let '(s', ack) := handleAction http c s in
     s' = s /\ executed ack = true /\ kind ack = Action /\ code ack = c /\
     (exists name, message ack = name +:+ "作业已启动") /\
     (forall l, ACTIONS !! c = Some l ->
                message ack = l +:+ "作业已启动") /\
     (ACTIONS !! c = None -> object_prototype !! c = None ->
      message ack = c +:+ "作业已启动")).
Proof.
  intros http c s Htype Hconn.
  assert (is_type Http s = false) as E.
  { destruct (is_type Http s) eqn:E; [| reflexivity].
    apply is_type_Http in E. contradiction. }
  split; [| split].
  - unfold Props.unavailable. now destruct (type s).
  - unfold handleCommand. rewrite E.
    rewrite forward_no_connection by exact Hconn.
    cbn [executed kind code message].
    repeat match goal with |- _ /\ _ => split end; try reflexivity.
    + eexists. reflexivity.
    + intros l Hl. now rewrite (label_own _ _ _ COMMANDS_truthy Hl).
    + intros H1 H2. now rewrite (label_plain _ _ H1 H2).
  - unfold handleAction. rewrite E.
    rewrite forward_no_connection by exact Hconn.
    cbn [executed kind code message].
    repeat match goal with |- _ /\ _ => split end; try reflexivity.
    + eexists. reflexivity.
    + intros l Hl. now rewrite (label_own _ _ _ ACTIONS_truthy Hl).
    + intros H1 H2. now rewrite (label_plain _ _ H1 H2).
Qed.

Lemma C3_no_connection_still_executed_witness :
  Props.unavailable HttpOk state0 /\
  handleCommand HttpOk "forward" state0
  = (state0, {| executed := true; kind := Command; code := "forward";
                message := "指令已发送: 前进" |}) /\
  handleAction HttpOk "forward" state0
  = (state0, {| executed := true; kind := Action; code := "forward";
                message := "forward作业已启动" |}).
Proof.
  assert (type state0 <> Http) as H1 by discriminate.
  assert (connection state0 = None) as H2 by reflexivity.
  pose proof (C3_no_connection_still_executed HttpOk "forward" state0 H1 H2)
    as (Hu & Hc & Ha).
  split; [exact Hu |]. split.
  - destruct (handleCommand HttpOk "forward" state0) as [s' ack].
    destruct Hc as (-> & He & Hk & Hcode & _ & Hm & _).
    destruct ack as [e k co m]. cbn in *. subst.
    now rewrite (Hm "前进" eq_refl).
  - destruct (handleAction HttpOk "forward" state0) as [s' ack].
    destruct Ha as (-> & He & Hk & Hcode & _ & _ & Hm).
    destruct ack as [e k co m]. cbn in *. subst.
    now rewrite (Hm eq_refl eq_refl).
Defined.

(** ** Inbound MQTT messages *)

Lemma spread_present (target : gmap string Json) (source : Json)
    (k : string) (v : Json) :
  own_props source !! k = Some v -> spread target source !! k = Some v.
Proof. intros H. unfold spread. now apply lookup_union_Some_l. Qed.

Lemma spread_absent (target : gmap string Json) (source : Json)
    (k : string) :
  own_props source !! k = None ->
  spread target source !! k = target !! k.
Proof. intros H. unfold spread. now apply lookup_union_r. Qed.

Lemma spread_merged (target : gmap string Json) (source : Json) :
  Props.fields_merged source target (spread target source).
Proof.
  split.
  - intros k v. apply spread_present.
  - intros k. apply spread_absent.
Qed.

(** The merge is one level deep: a status message that carries only a
    latitude replaces the stored [coordinates] object, longitude
    included. *)
Lemma status_merge_is_shallow :
  let data := JObj [("coordinates", JObj [("lat", JNum 1)])] in
  robot (onMqttMessage 0 topic_status (Some data) cache0) !! "coordinates"
  = Some (JObj [("lat", JNum 1)]).
Proof. reflexivity. Qed.

(** The serial and WebSocket path: a category that the message does not
    carry stays as it was, and a carried one is merged field by field. *)
Lemma updateCache_robot (now : Z) (data : Json) (c : Cache) :
  data <> JNull ->
  match own_props data !! "robot" with
  | Some v =>
      if truthy_json v
      then Props.fields_merged v (robot c) (robot (updateCache now data c))
      else robot (updateCache now data c) = robot c
  | None => robot (updateCache now data c) = robot c
  end.
Proof.
  intros Hnull. destruct data; try contradiction; unfold updateCache;
    cbn [robot];
    match goal with
    | |- context [?m !! "robot"] => destruct (m !! "robot") as [v |]
    end;
    try reflexivity;
    destruct (truthy_json v); try reflexivity; apply spread_merged.
Qed.

(** C9, as stated, fails on the tasks topic: a well-formed payload that is
    not a list, and so names no task at all, empties the stored task
    list. *)
Lemma C9_tasks_topic_replaces_list :
  let task := JObj [("id", JNum 1); ("name", JStr "A")] in
  let c := {| robot := robot cache0; sensors := sensors cache0;
              tasks := JArr [task]; statistics := statistics cache0;
              lastUpdate := None |} in
  let payload := JObj [("battery", JNum 50)] in
  let c' := onMqttMessage 0 topic_tasks (Some payload) c in
  own_props payload !! "0" = None /\
  own_props (tasks c) !! "0" = Some task /\
  own_props (tasks c') !! "0" = None /\
  tasks c' = JArr [].
Proof. cbv zeta. repeat split; vm_compute; reflexivity. Qed.

(** C9, amended: a payload that fails to parse leaves the whole cache as it
    was.  A payload that parses sets [lastUpdate]; on the status, sensors
    and statistics topics it writes exactly its own fields into the
    category of the topic, every other field of that category keeping its
    value; on the tasks topic it replaces the stored list by the payload,
    or by the empty list when the payload is not a list; in every case the
    categories of the other topics stay as they were. *)
Theorem C9_mqtt_message_frame :
  forall (now : Z) (topic : string) (c : Cache),
    onMqttMessage now topic None c = c /\
    forall data : Json,
      let c' := onMqttMessage now topic (Some data) c in
      lastUpdate c' = Some now /\
      (topic = topic_status ->
       Props.fields_merged data (robot c) (robot c') /\
       sensors c' = sensors c /\ tasks c' = tasks c /\
       statistics c' = statistics c) /\
      (topic = topic_sensors ->
       Props.fields_merged data (sensors c) (sensors c') /\
       robot c' = robot c /\ tasks c' = tasks c /\
       statistics c' = statistics c) /\
      (topic = topic_statistics ->
       Props.fields_merged data (statistics c) (statistics c') /\
       robot c' = robot c /\ sensors c' = sensors c /\
       tasks c' = tasks c) /\
      (topic = topic_tasks ->
       tasks c' = match data with
                  | JArr _ => data
                  | _ => JArr []
                  end /\
       robot c' = robot c /\ sensors c' = sensors c /\
       statistics c' = statistics c) /\
      (topic <> topic_status -> topic <> topic_sensors ->
       topic <> topic_tasks -> topic <> topic_statistics ->
       robot c' = robot c /\ sensors c' = sensors c /\
       tasks c' = tasks c /\ statistics c' = statistics c).
Proof.
  intros now topic c. split; [reflexivity |].
  intros data c'. subst c'. unfold onMqttMessage.
  split; [reflexivity |].
  split; [| split; [| split; [| split]]].
  - intros ->. cbn. split; [apply spread_merged | repeat split].
  - intros ->. cbn. split; [apply spread_merged | repeat split].
  - intros ->. cbn. split; [apply spread_merged | repeat split].
  - intros ->. cbn. repeat split.
  - intros H1 H2 H3 H4.
    apply String.eqb_neq in H1, H2, H3, H4.
    rewrite H1, H2, H3, H4. repeat split.
Qed.

Lemma C9_mqtt_message_frame_witness :
  let data := JObj [("battery", JNum 50)] in
  let on topic := onMqttMessage 7 topic (Some data) cache0 in
  (robot (on topic_status) !! "battery" = Some (JNum 50) /\
   robot (on topic_status) !! "speed" = robot cache0 !! "speed" /\
   sensors (on topic_status) = sensors cache0) /\
  (sensors (on topic_sensors) !! "battery" = Some (JNum 50) /\
   sensors (on topic_sensors) !! "light" = sensors cache0 !! "light" /\
   robot (on topic_sensors) = robot cache0) /\
  (statistics (on topic_statistics) !! "progress"
   = statistics cache0 !! "progress" /\
   robot (on topic_statistics) = robot cache0) /\
  (tasks (on topic_tasks) = JArr [] /\
   robot (on topic_tasks) = robot cache0) /\
  (robot (on topic_control) = robot cache0 /\
   tasks (on topic_control) = tasks cache0).
Proof.
  cbv zeta.
  pose proof (fun topic =>
                proj2 (C9_mqtt_message_frame 7 topic cache0)
                  (JObj [("battery", JNum 50)])) as H.
  split; [| split; [| split; [| split]]].
  - destruct (H topic_status) as (_ & Hstatus & _).
    destruct (Hstatus eq_refl) as ((Hset & Hkeep) & Hsensors & _).
    split; [| split].
    + apply Hset. reflexivity.
    + apply Hkeep. reflexivity.
    + exact Hsensors.
  - destruct (H topic_sensors) as (_ & _ & Hsensors & _).
    destruct (Hsensors eq_refl) as ((Hset & Hkeep) & Hrobot & _).
    split; [| split].
    + apply Hset. reflexivity.
    + apply Hkeep. reflexivity.
    + exact Hrobot.
  - destruct (H topic_statistics) as (_ & _ & _ & Hstats & _).
    destruct (Hstats eq_refl) as ((_ & Hkeep) & Hrobot & _).
    split; [apply Hkeep; reflexivity | exact Hrobot].
  - destruct (H topic_tasks) as (_ & _ & _ & _ & Htasks & _).
    destruct (Htasks eq_refl) as (Hlist & Hrobot & _).
    split; [exact Hlist | exact Hrobot].
  - destruct (H topic_control) as (_ & _ & _ & _ & _ & Hother).
    destruct Hother as (Hrobot & _ & Htasks & _); try discriminate.
    split; [exact Hrobot | exact Htasks].
Defined.

End DataSourceFacts.

(* ===================================================================== *)
(** * Properties of robotController.js *)
(* ===================================================================== *)

Module ControllerFacts.
Import Js Controller.

Lemma truthy_Some (v : option string) :
  truthy v = true -> exists s, v = Some s /\ s <> "".
Proof.
  destruct v as [s |]; [| discriminate].
  destruct s; [discriminate |]. intros _. eexists. split; [reflexivity |].
  discriminate.
Qed.

(** ** Tasks *)

(** C1: the code breaks the claim.  In the controller as it is written the
    identifier [mockData] is bound by no declaration, so a POST /api/tasks
    with a non-empty name ends in the error middleware: status 500,
    [success = false], no task created; GET /api/tasks ends the same
    way. *)
Theorem C1_post_tasks_unbound_mockData :
  forall (production : bool) (now : Z) (name : string)
         (status : option string) (progress : option Q) (w : World),
    truthy (Some name) = true ->
    let failure :=
      errorMiddleware production
        (ReferenceError "mockData is not defined") in
    createTaskHandler scope production now (Some name) status progress w
    = (w, failure) /\
    getTasksHandler scope production now w = (w, failure) /\
    success failure = false /\ statusCode failure = 500%Z.
Proof.
  intros production now name status progress w Hname failure.
  unfold createTaskHandler, getTasksHandler. rewrite Hname.
  repeat split.
Qed.

Lemma C1_post_tasks_unbound_mockData_witness :
  truthy (Some "X") = true /\
  createTaskHandler scope false 0 (Some "X") None None world0
  = (world0,
     {| statusCode := 500; success := false; body_data := DAbsent;
        message := Some "mockData is not defined";
        timestamp := None; ack := None |}).
Proof.
  split; [reflexivity |].
  exact (proj1 (C1_post_tasks_unbound_mockData false 0 "X" None None world0
                  eq_refl)).
Defined.

(** With [mockData] bound to the mock-data module, the same request
    succeeds: the task returned has an id that no stored task had, status
    ["pending"] and progress 0 when these are omitted, and the next GET
    lists it. *)
Lemma createTask_with_mockData_bound (production : bool) (now now' : Z)
    (name : string) (w : World) :
  truthy (Some name) = true ->
  let '(w1, r) :=
    createTaskHandler scope_mock_bound production now (Some name)
                      None None w in
  exists t,
    r = sendSuccess now (DTask t) (Some "任务创建成功") /\
    (MockData.id t ∉ MockData.ids (mock_tasks w)) /\
    MockData.name t = name /\
    MockData.status t = "pending" /\
    MockData.progress t = 0%Q /\
    snd (getTasksHandler scope_mock_bound production now' w1)
    = sendSuccess now' (DTasks (mock_tasks w ++ [t])) None.
Proof.
  intros Hname. unfold createTaskHandler. rewrite Hname. cbn.
  eexists. split; [reflexivity |]. split; [| repeat split].
  apply MockDataFacts.newId_fresh.
Qed.

(** ** Statistics over HTTP *)

(** With [mockData] bound, POST /api/statistics with completedArea 15 and
    totalArea 40 answers with progress 37.5. *)
Lemma post_statistics_with_mockData_bound (production : bool) (now : Z)
    (w : World) :
  exists stats,
    snd (updateStatisticsHandler scope_mock_bound production now
           {[ "completedArea" := 15%Q; "totalArea" := 40%Q ]} w)
    = sendSuccess now (DStatistics stats) (Some "统计数据更新成功") /\
    Props.is_num (MockData.st_progress stats) (375 # 10).
Proof.
  eexists. split; [reflexivity |]. vm_compute. reflexivity.
Qed.

(** In the controller as it is written, the statistics routes end in the
    error middleware like the task routes. *)
Lemma statistics_unbound_mockData (production : bool) (now : Z) (r : Q)
    (body : gmap string Q) (w : World) :
  size body <> 0 ->
  let failure :=
    errorMiddleware production (ReferenceError "mockData is not defined") in
  getStatisticsHandler scope production now r w = (w, failure) /\
  updateStatisticsHandler scope production now body w = (w, failure).
Proof.
  intros Hsize failure. split; [reflexivity |].
  unfold updateStatisticsHandler. apply Nat.eqb_neq in Hsize.
  now rewrite Hsize.
Qed.

(** ** Control requests *)






(** ** Status updates *)

(** A data module that has the operation is called, and its result is the
    data of the response. *)
Lemma updateStatus_calls_operation (d : DataModule)
    (f : gmap string Json -> World -> World * gmap string Json)
    (production : bool) (now : Z) (body : gmap string Json) (w : World) :
  updateRobotStatus d = Some f ->
  size body <> 0 ->
  updateStatus {| data := d; mockData := None |} production now body w
  = (fst (f body w),
     sendSuccess now (DObject (snd (f body w))) (Some "机器人状态更新成功")).
Proof.
  intros Hf Hsize. unfold updateStatus. cbn [data]. rewrite Hf.
  apply Nat.eqb_neq in Hsize. rewrite Hsize.
  now destruct (f body w).
Qed.

(** C10: with the data-source module as the data layer, a POST
    /api/robot/status with a non-empty body leaves the whole server state
    as it was and answers [success = true] with the request body itself as
    the data. *)
Theorem C10_update_status_echoes_body :
  forall (production : bool) (now : Z) (body : gmap string Json)
         (w : World),
    size body <> 0 ->
    updateRobotStatus (data scope) = None /\
    updateStatus scope production now body w
    = (w, {| statusCode := 200; success := true;
             body_data := DObject body;
             message := Some "机器人状态更新成功";
             timestamp := Some now; ack := None |}).
Proof.
  intros production now body w Hsize. split; [reflexivity |].
  unfold updateStatus. apply Nat.eqb_neq in Hsize. now rewrite Hsize.
Qed.

Lemma C10_update_status_echoes_body_witness :
  let body : gmap string Json := {[ "battery" := JNum 50 ]} in
  size body <> 0 /\
  updateStatus scope false 0 body world0
  = (world0, {| statusCode := 200; success := true;
                body_data := DObject body;
                message := Some "机器人状态更新成功";
                timestamp := Some 0%Z; ack := None |}).
Proof.
  cbv zeta.
  assert (size ({[ "battery" := JNum 50 ]} : gmap string Json) <> 0) as H.
  { rewrite map_size_singleton. discriminate. }
  split; [exact H |].
  exact (proj2 (C10_update_status_echoes_body false 0 _ world0 H)).
Defined.

End ControllerFacts.

(* ===================================================================== *)
(** * Properties of alert.js *)
(* ===================================================================== *)

Module AlertFacts.
Import AlertService Props.

Lemma check_rule_absent (now : Z) (allData : gmap string Q) (s : St)
    (ruleId : string) (rule : Rule) :
  allData !! field rule = None ->
  check_rule now allData s (ruleId, rule) = s.
Proof.
  intros H. unfold check_rule. rewrite H.
  now destruct (negb (enabled rule)).
Qed.

(** On a snapshot that carries the battery reading only, [check] is the
    evaluation of the rule [lowBattery]. *)
Lemma check_battery_only (now : Z) (b : Q) (s : St) :
  check now {[ "battery" := b ]} ∅ s
  = if Qlt_bool b 20
    then trigger now "lowBattery" "电量过低" Critical "battery" (VNum b) s
    else resolve "lowBattery" s.
Proof.
  unfold check. rewrite (left_id_L ∅ (∪)). unfold rules. cbn [fold_left].
  rewrite !check_rule_absent by reflexivity.
  unfold check_rule.
  cbn [enabled negb field condition threshold message level].
  now rewrite lookup_singleton_eq.
Qed.

Lemma trigger_inactive (now : Z) (ruleId msg fld : string) (lvl : Level)
    (v : Value) (s : St) :
  activeAlerts s !! ruleId = None ->
  trigger now ruleId msg lvl fld v s
  = raised {| id := ruleId; msg_label := msg; msg_unit := getUnit fld;
              alert_level := lvl; time := now; value := v |} s.
Proof. intros H. unfold trigger. now rewrite H. Qed.

Lemma trigger_cooling (now : Z) (ruleId msg fld : string) (lvl : Level)
    (v : Value) (s : St) (existing : Alert) :
  activeAlerts s !! ruleId = Some existing ->
  (now - time existing < alertCooldown)%Z ->
  trigger now ruleId msg lvl fld v s = s.
Proof.
  intros H Hlt. unfold trigger. rewrite H.
  apply Z.ltb_lt in Hlt. now rewrite Hlt.
Qed.

Lemma raised_active (a : Alert) (s : St) :
  activeAlerts (raised a s) !! id a = Some a.
Proof. unfold raised. cbn [activeAlerts]. apply lookup_insert_eq. Qed.

(** A reading below the threshold that finds the alert of the rule still
    cooling down changes nothing. *)
Lemma check_battery_cooling (now : Z) (b : Q) (s : St) (existing : Alert) :
  Qlt_bool b 20 = true ->
  activeAlerts s !! "lowBattery" = Some existing ->
  (now - time existing < alertCooldown)%Z ->
  check now {[ "battery" := b ]} ∅ s = s.
Proof.
  intros Hb Hs Hlt. rewrite check_battery_only, Hb.
  now apply trigger_cooling with existing.
Qed.

(** C7, as stated, fails at its second step: a reading of 16 is still below
    the threshold 20, so the alert raised for 15 is not cleared. *)
Lemma C7_reading_16_keeps_alert :
  let s1 := check 0 {[ "battery" := 15%Q ]} ∅ (init_state true) in
  let s2 := check 1000 {[ "battery" := 16%Q ]} ∅ s1 in
  activeAlerts s1 !! "lowBattery" = Some (lowBattery_alert 0 15) /\
  activeAlerts s2 !! "lowBattery" = Some (lowBattery_alert 0 15) /\
  activeAlerts s2 !! "lowBattery" <> None.
Proof. cbv zeta. repeat split; vm_compute; congruence. Qed.

(** C7, amended: with the rule [lowBattery] (threshold 20, below) inactive,
    a reading of 15 raises exactly one alert, one history entry and one
    notification; a reading of 16, then one of 15, both within the cooldown
    window of the first, change nothing: the alert of the first reading
    stays active and no further notification is produced. *)
Theorem C7_battery_15_16_15 :
  forall (t1 t2 t3 : Z) (s0 : St),
    activeAlerts s0 !! "lowBattery" = None ->
    (t2 - t1 < alertCooldown)%Z ->
    (t3 - t1 < alertCooldown)%Z ->
    let s1 := check t1 {[ "battery" := 15%Q ]} ∅ s0 in
    let s2 := check t2 {[ "battery" := 16%Q ]} ∅ s1 in
    let s3 := check t3 {[ "battery" := 15%Q ]} ∅ s2 in
    s1 = raised (lowBattery_alert t1 15) s0 /\
    container s1
    = (fun shown => shown ++ [lowBattery_alert t1 15]) <$> container s0 /\
    s2 = s1 /\
    s3 = s1 /\
    activeAlerts s3 !! "lowBattery" = Some (lowBattery_alert t1 15) /\
    getActiveCount s3 = S (getActiveCount s0).
Proof.
  intros t1 t2 t3 s0 H0 H12 H13 s1 s2 s3.
  assert (s1 = raised (lowBattery_alert t1 15) s0) as E1.
  { subst s1. rewrite check_battery_only. cbn [Qlt_bool].
    change (Qlt_bool 15 20) with true. cbv iota.
    now rewrite trigger_inactive. }
  assert (activeAlerts s1 !! "lowBattery" = Some (lowBattery_alert t1 15))
    as A1.
  { rewrite E1. apply (raised_active (lowBattery_alert t1 15)). }
  assert (s2 = s1) as E2.
  { subst s2. now apply check_battery_cooling with (lowBattery_alert t1 15). }
  assert (s3 = s1) as E3.
  { subst s3. rewrite E2.
    now apply check_battery_cooling with (lowBattery_alert t1 15). }
  split; [exact E1 |]. split.
  { rewrite E1. cbn [raised container]. now destruct (container s0). }
  split; [exact E2 |]. split; [exact E3 |]. split.
  { now rewrite E3. }
  rewrite E3, E1. unfold getActiveCount, raised. cbn [activeAlerts id].
  now apply map_size_insert_None.
Qed.

Lemma C7_battery_15_16_15_witness :
  let s1 := check 0 {[ "battery" := 15%Q ]} ∅ (init_state true) in
  let s2 := check 1000 {[ "battery" := 16%Q ]} ∅ s1 in
  let s3 := check 2000 {[ "battery" := 15%Q ]} ∅ s2 in
  (1000 - 0 < alertCooldown)%Z /\ (2000 - 0 < alertCooldown)%Z /\
  container s1 = Some [lowBattery_alert 0 15] /\
  s2 = s1 /\ s3 = s1.
Proof.
  cbv zeta.
  assert (1000 - 0 < alertCooldown)%Z as H12 by reflexivity.
  assert (2000 - 0 < alertCooldown)%Z as H13 by reflexivity.
  destruct (C7_battery_15_16_15 0 1000 2000 (init_state true)
              eq_refl H12 H13) as (_ & Hc & E2 & E3 & _).
  split; [exact H12 |]. split; [exact H13 |].
  split; [exact Hc |]. split; [exact E2 | exact E3].
Defined.

(** When the reading recovers to the threshold or above, the alert is
    cleared at once, and a new drop raises and shows a new alert even
    within the cooldown window of the first: the cooldown is kept in the
    active alert and goes with it. *)
Lemma recovery_forgets_cooldown :
  let s1 := check 0 {[ "battery" := 15%Q ]} ∅ (init_state true) in
  let s2 := check 1000 {[ "battery" := 25%Q ]} ∅ s1 in
  let s3 := check 2000 {[ "battery" := 15%Q ]} ∅ s2 in
  activeAlerts s2 !! "lowBattery" = None /\
  container s3 = Some [lowBattery_alert 0 15; lowBattery_alert 2000 15].
Proof. cbv zeta. split; vm_compute; reflexivity. Qed.

(** ** Keys that [check] does not touch *)

Lemma trigger_other (now : Z) (ruleId msg fld : string) (lvl : Level)
    (v : Value) (s : St) (k : string) :
  ruleId <> k ->
  activeAlerts (trigger now ruleId msg lvl fld v s) !! k
  = activeAlerts s !! k.
Proof.
  intros Hne. unfold trigger.
  destruct (activeAlerts s !! ruleId) as [existing |].
  - destruct (Z.ltb _ _); [reflexivity |].
    cbn [activeAlerts]. now apply lookup_insert_ne.
  - cbn [activeAlerts]. now apply lookup_insert_ne.
Qed.

Lemma resolve_other (ruleId : string) (s : St) (k : string) :
  ruleId <> k ->
  activeAlerts (resolve ruleId s) !! k = activeAlerts s !! k.
Proof.
  intros Hne. unfold resolve.
  destruct (activeAlerts s !! ruleId); [| reflexivity].
  cbn [activeAlerts]. now apply lookup_delete_ne.
Qed.

Lemma resolve_gone (ruleId : string) (s : St) :
  activeAlerts (resolve ruleId s) !! ruleId = None.
Proof.
  unfold resolve. destruct (activeAlerts s !! ruleId) eqn:E; [| exact E].
  cbn [activeAlerts]. apply lookup_delete_eq.
Qed.

Lemma check_rule_other (now : Z) (allData : gmap string Q) (s : St)
    (entry : string * Rule) (k : string) :
  fst entry <> k ->
  activeAlerts (check_rule now allData s entry) !! k = activeAlerts s !! k.
Proof.
  destruct entry as [ruleId rule]. cbn [fst]. intros Hne.
  unfold check_rule. destruct (negb (enabled rule)); [reflexivity |].
  destruct (allData !! field rule) as [v |]; [| reflexivity].
  destruct (match condition rule with
            | Below => _
            | Above => _
            end).
  - now apply trigger_other.
  - now apply resolve_other.
Qed.

Lemma fold_check_rule_other (now : Z) (allData : gmap string Q)
    (k : string) (l : list (string * Rule)) :
  Forall (fun entry => fst entry <> k) l ->
  forall s, activeAlerts (fold_left (check_rule now allData) l s) !! k
            = activeAlerts s !! k.
Proof.
  induction 1 as [| entry l Hne _ IH]; intros s; cbn [fold_left].
  - reflexivity.
  - rewrite IH. now apply check_rule_other.
Qed.

(** [check] never raises nor clears the "disconnected" alert. *)
Lemma check_keeps_disconnected (now : Z) (robotData sensorData : gmap string Q)
    (s : St) :
  activeAlerts (check now robotData sensorData s) !! "disconnected"
  = activeAlerts s !! "disconnected".
Proof.
  unfold check. apply fold_check_rule_other.
  unfold rules. repeat constructor; discriminate.
Qed.

End AlertFacts.

(* ===================================================================== *)
(** * Properties of the robot-status refresh of app.js *)
(* ===================================================================== *)

Module AppFacts.
Import App Props.

Lemma onFailure_when_down (t : Z) (s : St) :
  isConnected s = false -> onFailure t s = s.
Proof. intros H. unfold onFailure. now rewrite H. Qed.

Lemma onFailure_down (t : Z) (s : St) : isConnected (onFailure t s) = false.
Proof.
  unfold onFailure. destruct (isConnected s) eqn:E; [reflexivity | exact E].
Qed.

Lemma failing_ticks_when_down (times : list Z) :
  forall s, isConnected s = false -> failing_ticks times s = s.
Proof.
  unfold failing_ticks.
  induction times as [| t times IH]; intros s H; cbn [fold_left].
  - reflexivity.
  - cbn [refresh]. rewrite onFailure_when_down by exact H. now apply IH.
Qed.

(** C8: from a connected state, any number N >= 1 of consecutive failing
    refreshes ends in the state that the first of them alone produces:
    the first failing tick marks the poller disconnected, shows the
    offline status, adds one log line and notifies the alert service once,
    which with no "disconnected" alert active raises, records and shows
    exactly one alert: afterwards the alert of the first tick is the
    active "disconnected" alert, the notifications on the page are those
    that were there followed by this one notification, and one sound was
    played; every later failing tick changes nothing. *)
Theorem C8_disconnect_fires_once :
  forall (t : Z) (later : list Z) (s : St),
    isConnected s = true ->
    let s' := failing_ticks (t :: later) s in
    s' = refresh t FetchThrows s /\
    isConnected s' = false /\
    statusIndicator s'
    = (fun _ => "status-dot status-dot--offline") <$> statusIndicator s /\
    statusText s' = (fun _ => "未连接") <$> statusText s /\
    logList s'
    = (fun items => take maxItems (disconnect_entry t :: items))
        <$> logList s /\
    alerts s' = AlertService.checkConnection t false <$> alerts s /\
    (no_disconnect_alert s ->
     alerts s' = raised (disconnected_alert t) <$> alerts s) /\
    (forall a : AlertService.St,
       alerts s = Some a ->
       AlertService.activeAlerts a !! "disconnected" = None ->
       exists a' : AlertService.St,
         alerts s' = Some a' /\
         AlertService.activeAlerts a'
         = <["disconnected" := disconnected_alert t]>
             (AlertService.activeAlerts a) /\
         AlertService.container a'
         = (fun shown => shown ++ [disconnected_alert t])
             <$> AlertService.container a /\
         AlertService.sounds a' = S (AlertService.sounds a)) /\
    robot s' = robot s /\ sensors s' = sensors s /\
    (forall t' : Z, refresh t' FetchThrows s' = s').
Proof.
  intros t later s Hup s'.
  assert (s' = refresh t FetchThrows s) as E.
  { subst s'. unfold failing_ticks. cbn [fold_left].
    apply failing_ticks_when_down. apply onFailure_down. }
  split; [exact E |]. rewrite E. cbn [refresh]. unfold onFailure.
  rewrite Hup. cbn.
  split; [reflexivity |].
  split; [now destruct (statusIndicator s) |].
  split; [now destruct (statusText s) |].
  split; [now destruct (logList s) |].
  split; [reflexivity |].
  split.
  { intros Hnone. destruct (alerts s) as [a |] eqn:Ha; [| reflexivity].
    cbn. f_equal. unfold AlertService.checkConnection. cbn [negb].
    now rewrite AlertFacts.trigger_inactive by (now apply Hnone). }
  split.
  { intros a Ha Hnone. rewrite Ha. cbn.
    unfold AlertService.checkConnection. cbn [negb].
    rewrite AlertFacts.trigger_inactive by exact Hnone.
    eexists. split; [reflexivity |]. unfold raised.
    cbn [AlertService.activeAlerts AlertService.container
         AlertService.sounds AlertService.id disconnected_alert
         AlertService.alert_level AlertService.is_critical].
    split; [reflexivity |]. split; [| reflexivity].
    unfold AlertService.showNotification.
    now destruct (AlertService.container a). }
  split; [reflexivity |]. split; [reflexivity |].
  intros t'. reflexivity.
Qed.

Lemma C8_disconnect_fires_once_witness :
  let s := {| isConnected := true;
              robot := {| readings := ∅; coordinates := Some (0%Q, 0%Q) |};
              sensors := ∅;
              statusIndicator := Some "status-dot status-dot--online";
              statusText := Some "已连接";
              logList := Some [];
              alerts := Some (AlertService.init_state true) |} in
  let s' := failing_ticks [0%Z; 2000%Z; 4000%Z] s in
  isConnected s = true /\
  isConnected s' = false /\
  logList s' = Some [disconnect_entry 0] /\
  alerts s'
  = Some (raised (disconnected_alert 0) (AlertService.init_state true)) /\
  (AlertService.container <$> alerts s')
  = Some (Some [disconnected_alert 0]) /\
  (AlertService.sounds <$> alerts s') = Some 1.
Proof.
  cbv zeta.
  match goal with
  | |- isConnected ?s = true /\ _ =>
      destruct (C8_disconnect_fires_once 0 [2000%Z; 4000%Z] s eq_refl)
        as (_ & Hdown & _ & _ & Hlog & _ & Halerts & Hshown & _)
  end.
  split; [reflexivity |]. split; [exact Hdown |].
  split; [exact Hlog |]. split.
  - apply Halerts. intros a Ha. injection Ha as <-. reflexivity.
  - destruct (Hshown (AlertService.init_state true) eq_refl eq_refl)
      as (a' & -> & _ & Hc & Hs).
    cbn [fmap option_fmap option_map]. rewrite Hc, Hs. split; reflexivity.
Defined.

(** ** The "disconnected" alert and the connection flag *)

Lemma onSuccess_alerts (t : Z) (d : RobotData) (s : St) :
  alerts (onSuccess t d s)
  = (fun a => AlertService.check t (readings d) (sensors s)
                (if isConnected s then a
                 else AlertService.checkConnection t true a))
      <$> alerts s.
Proof.
  unfold onSuccess, set_robot. cbn [isConnected].
  destruct (isConnected s) eqn:E; cbn [negb].
  - unfold with_alerts. cbn [alerts sensors]. reflexivity.
  - unfold with_alerts, log_add, setConnectionStatus, set_connected.
    cbn [alerts sensors]. now destruct (alerts s).
Qed.

(** A tick that ends with the poller connected leaves no "disconnected"
    alert behind, provided none was active while it was connected
    before. *)
Lemma refresh_keeps_invariant (t : Z) (f : Fetch) (s : St) :
  poller_invariant s -> poller_invariant (refresh t f s).
Proof.
  intros Hinv. unfold poller_invariant.
  destruct f as [| [|] d]; cbn [refresh].
  - rewrite onFailure_down. discriminate.
  - destruct (coordinates d).
    + intros _ a' Ha'. rewrite onSuccess_alerts in Ha'.
      destruct (alerts s) as [a |] eqn:Ha; [| discriminate].
      cbn [fmap option_fmap option_map] in Ha'. injection Ha' as <-.
      rewrite AlertFacts.check_keeps_disconnected.
      destruct (isConnected s) eqn:Hup.
      * now apply (Hinv Hup).
      * apply AlertFacts.resolve_gone.
    + rewrite onFailure_down. discriminate.
  - exact Hinv.
Qed.

(** Every state the poller reaches from a disconnected start satisfies the
    invariant. *)
Lemma run_keeps_invariant (ticks : list (Z * Fetch)) :
  forall s, poller_invariant s -> poller_invariant (run ticks s).
Proof.
  unfold run. induction ticks as [| tick ticks IH]; intros s H;
    cbn [fold_left].
  - exact H.
  - apply IH. now apply refresh_keeps_invariant.
Qed.

Lemma invariant_when_down (s : St) :
  isConnected s = false -> poller_invariant s.
Proof. intros H Hup. congruence. Qed.

End AppFacts.

(* ===================================================================== *)
(** * Further properties of mockData.js *)
(* ===================================================================== *)

Module MockTelemetryFacts.
Import Js MockTelemetry.

Lemma floor_between (lo hi : Z) (x : Q) :
  (inject_Z lo <= x)%Q -> (x <= inject_Z hi)%Q ->
  (lo <= Qfloor x <= hi)%Z.
Proof.
  intros Hlo Hhi. split.
  - rewrite <- (Qfloor_Z lo). now apply Qfloor_resp_le.
  - rewrite <- (Qfloor_Z hi). now apply Qfloor_resp_le.
Qed.

(** A larger draw gives a larger number. *)
Lemma random_mono (r1 r2 lo hi : Q) :
  (lo <= hi)%Q -> (r1 <= r2)%Q ->
  (MockData.random r1 lo hi <= MockData.random r2 lo hi)%Q.
Proof.
  intros Hle Hr. unfold MockData.random, add, mul, sub.
  assert (0 <= fl (hi - lo))%Q as Hw by (apply JsFacts.fl_nonneg; lra).
  apply JsFacts.fl_mono.
  assert (fl (r1 * fl (hi - lo)) <= fl (r2 * fl (hi - lo)))%Q; [| lra].
  apply JsFacts.fl_mono. now apply Qmult_le_compat_r.
Qed.

(** A draw in [0, 1) gives a number between what the draws 0 and 1 would
    give. *)
Lemma random_between (r lo hi : Q) :
  unit_draw r -> (lo <= hi)%Q ->
  (MockData.random 0 lo hi <= MockData.random r lo hi)%Q /\
  (MockData.random r lo hi <= MockData.random 1 lo hi)%Q.
Proof.
  intros [H0 H1] Hle. split; apply random_mono; lra.
Qed.

Lemma floor_of_draw (r : Q) (lo hi : Z) :
  unit_draw r -> (lo <= hi)%Z ->
  (MockData.random 0 (inject_Z lo) (inject_Z hi) == inject_Z lo)%Q ->
  (MockData.random 1 (inject_Z lo) (inject_Z hi) == inject_Z hi)%Q ->
  exists n : Z,
    whole (floor (MockData.random r (inject_Z lo) (inject_Z hi))) n /\
    (lo <= n <= hi)%Z.
Proof.
  intros Hr Hle E0 E1. eexists. split; [reflexivity |].
  assert (inject_Z lo <= inject_Z hi)%Q as Hq by (now rewrite <- Zle_Qle).
  destruct (random_between r (inject_Z lo) (inject_Z hi) Hr Hq) as [Hlo Hhi].
  apply floor_between; lra.
Qed.

(** The draw nearest to 1. *)
Lemma last_draw : unit_draw (1 - (1 # 2 ^ 53)).
Proof. split; [discriminate | reflexivity]. Qed.

Lemma max_cases (a b : Q) :
  ((a <= b)%Q /\ Js.max a b = b) \/ ((b < a)%Q /\ Js.max a b = a).
Proof.
  unfold Js.max. destruct (Qle_bool a b) eqn:E.
  - left. split; [now apply Qle_bool_iff | reflexivity].
  - right. split; [| reflexivity]. apply Qnot_le_lt. intros H.
    apply Qle_bool_iff in H. congruence.
Qed.

Lemma min_cases (a b : Q) :
  ((a <= b)%Q /\ Js.min a b = a) \/ ((b < a)%Q /\ Js.min a b = b).
Proof.
  unfold Js.min. destruct (Qle_bool a b) eqn:E.
  - left. split; [now apply Qle_bool_iff | reflexivity].
  - right. split; [| reflexivity]. apply Qnot_le_lt. intros H.
    apply Qle_bool_iff in H. congruence.
Qed.

(** What [clamp] returns: a value between the bounds, the value itself
    when it lies between them, the nearer bound otherwise. *)
Lemma clamp_cases (v lo hi : Q) :
  (lo <= hi)%Q ->
  (lo <= MockData.clamp v lo hi <= hi)%Q /\
  ((lo <= v <= hi)%Q -> (MockData.clamp v lo hi == v)%Q) /\
  ((v < lo)%Q -> (MockData.clamp v lo hi == lo)%Q) /\
  ((hi < v)%Q -> (MockData.clamp v lo hi == hi)%Q).
Proof.
  intros Hle. unfold MockData.clamp.
  destruct (max_cases v lo) as [[H1 ->] | [H1 ->]];
    [destruct (min_cases lo hi) as [[H2 ->] | [H2 ->]]
    | destruct (min_cases v hi) as [[H2 ->] | [H2 ->]]];
    repeat split; intros; lra.
Qed.

(** [Number(x.toFixed(1))] of a number between 0 and 2 is one of the
    numbers 0, 0.1, ..., 2. *)
Lemma round_at_10_between (x : Q) :
  (0 <= x)%Q -> (x <= 2)%Q ->
  exists n : Z, round_at 10 x = lit (n # 10) /\ (0 <= n <= 20)%Z /\
                (0 <= round_at 10 x <= 2)%Q.
Proof.
  intros H0 H2. unfold round_at, toFixed.
  assert (Qle_bool (inject_Z (10 ^ 21)) (Qabs x) = false) as ->.
  { destruct (Qle_bool (inject_Z (10 ^ 21)) (Qabs x)) eqn:E; [| reflexivity].
    apply Qle_bool_iff in E. rewrite Qabs_pos in E by exact H0.
    assert (2 < inject_Z (10 ^ 21))%Q by reflexivity. lra. }
  pose proof (JsFacts.nearest_mono 10 0 x H0) as Hlo.
  pose proof (JsFacts.nearest_mono 10 x 2 H2) as Hhi.
  change (nearest 10 0) with 0%Z in Hlo.
  change (nearest 10 2) with 20%Z in Hhi.
  exists (nearest 10 x). split; [reflexivity |]. split; [lia |].
  set (n := nearest 10 x) in *. clearbody n. unfold lit.
  assert (0 <= n # 10)%Q as Q0 by (unfold Qle; cbn; lia).
  assert (n # 10 <= 2)%Q as Q2 by (unfold Qle; cbn; lia).
  pose proof (JsFacts.fl_mono _ _ Q0) as F0.
  pose proof (JsFacts.fl_mono _ _ Q2) as F2.
  change (fl 0) with 0%Q in F0.
  assert (fl 2 = 2%Q) as E2 by (vm_compute; reflexivity).
  rewrite E2 in F2. split; assumption.
Qed.

(** X7. A read of the mock robot status always leaves and reports a battery
    level of at least 20, reports it as a whole number, and leaves the
    sensor fields alone; with draws in [0, 1) the temperature is a whole
    number from 25 to 31 and the speed is one of the numbers 0, 0.1, ...,
    2.  The temperature 31 is reached: in binary64 arithmetic the draw
    nearest to 1 gives [random(25, 31) = 31]. *)
Theorem mock_robot_read_ranges :
  forall (d : RobotDraws) (s : State),
    unit_draw (draw_speed d) ->
    unit_draw (draw_temperature d) ->
    (let '(s', res) := getRobotStatus d s in
     (20 <= battery s')%Q /\
     (exists n : Z, whole (rs_battery res) n /\ (20 <= n)%Z) /\
     (exists n : Z, whole (rs_temperature res) n /\ (25 <= n <= 31)%Z) /\
     (exists n : Z, rs_speed res = lit (n # 10) /\ (0 <= n <= 20)%Z) /\
     (0 <= rs_speed res <= 2)%Q /\
     sensors_of s' = sensors_of s) /\
    (exists d' : RobotDraws,
       unit_draw (draw_temperature d') /\
       whole (rs_temperature (snd (getRobotStatus d' s))) 31).
Proof.
  intros d s Hspeed Htemp. split.
  - unfold getRobotStatus.
    cbn [report battery rs_battery rs_temperature rs_speed temperature speed].
    assert (20 <= Js.max 20
                    (sub (battery s)
                       (MockData.random (draw_battery d) 0 (lit (5 # 100)))))%Q
      as Hb by apply MockDataFacts.max_ge_l.
    split; [exact Hb |].
    destruct (random_between (draw_speed d) 0 2 Hspeed) as [Hlo Hhi];
      [discriminate |].
    assert (MockData.random 0 0 2 = 0%Q) as E0 by (vm_compute; reflexivity).
    assert (MockData.random 1 0 2 = 2%Q) as E2 by (vm_compute; reflexivity).
    rewrite E0 in Hlo. rewrite E2 in Hhi.
    destruct (round_at_10_between _ Hlo Hhi) as (n & Hn & Hr & Hq).
    split; [| split; [| split; [| split]]].
    + eexists. split; [reflexivity |].
      rewrite <- (Qfloor_Z 20). now apply Qfloor_resp_le.
    + apply (floor_of_draw (draw_temperature d) 25 31 Htemp); [lia | |];
        vm_compute; reflexivity.
    + exists n. split; [exact Hn | exact Hr].
    + exact Hq.
    + reflexivity.
  - exists {| draw_battery := 0; draw_speed := 0;
              draw_temperature := 1 - (1 # 2 ^ 53);
              draw_lat := 0; draw_lon := 0 |}.
    split; [exact last_draw |]. vm_compute. reflexivity.
Qed.

Lemma mock_robot_read_ranges_witness :
  let d := {| draw_battery := 1 # 2; draw_speed := 1 # 2;
              draw_temperature := 1 # 2; draw_lat := 1 # 2;
              draw_lon := 1 # 2 |} in
  unit_draw (1 # 2) /\
  (20 <= battery (fst (getRobotStatus d state0)))%Q /\
  (0 <= rs_speed (snd (getRobotStatus d state0)) <= 2)%Q.
Proof.
  cbv zeta.
  assert (unit_draw (1 # 2)) as H by (split; reflexivity || discriminate).
  split; [exact H |].
  pose proof (proj1 (mock_robot_read_ranges
                       {| draw_battery := 1 # 2; draw_speed := 1 # 2;
                          draw_temperature := 1 # 2; draw_lat := 1 # 2;
                          draw_lon := 1 # 2 |} state0 H H)) as Hr.
  unfold getRobotStatus in *. cbn [fst snd] in *.
  destruct Hr as (Hb & _ & _ & _ & Hs & _). split; [exact Hb | exact Hs].
Defined.

(** X8. An update that stores a battery level below 20 is undone by the next
    read: the read stores and reports exactly 20. *)
Theorem mock_low_battery_reads_as_20 :
  forall (v : Q) (d : RobotDraws) (u : RobotUpdate) (s : State),
    ru_battery u = Some v ->
    (v < 20)%Q ->
    (0 <= draw_battery d)%Q ->
    let s1 := fst (updateRobotStatus u s) in
    let '(s2, res) := getRobotStatus d s1 in
    (battery s1 < 20)%Q /\ battery s2 = 20%Q /\ whole (rs_battery res) 20.
Proof.
  intros v d u s Hu Hv Hd s1.
  assert (battery s1 < 20)%Q as Hs1.
  { subst s1. unfold updateRobotStatus. cbn [fst battery]. rewrite Hu.
    destruct (clamp_cases v 0 100) as ((_ & Hhi) & Hin & Hlo & _); [lra |].
    destruct (Qlt_le_dec v 0) as [Hneg | Hpos].
    - rewrite (Hlo Hneg). reflexivity.
    - rewrite Hin; lra. }
  unfold getRobotStatus. cbn [report battery rs_battery].
  set (x := MockData.random (draw_battery d) 0 (lit (5 # 100))).
  assert (0 <= x)%Q as Hx.
  { assert (MockData.random 0 0 (lit (5 # 100)) = 0%Q) as E0
      by (vm_compute; reflexivity).
    rewrite <- E0. apply random_mono; [discriminate | exact Hd]. }
  assert (Js.max 20 (sub (battery s1) x) = 20%Q) as E.
  { destruct (max_cases 20 (sub (battery s1) x)) as [[H ->] | [_ ->]];
      [| reflexivity].
    assert (sub (battery s1) x <= 20)%Q as Hle.
    { assert (fl 20 = 20%Q) as E20 by (vm_compute; reflexivity).
      apply Qle_trans with (fl 20); [| rewrite E20; apply Qle_refl].
      apply JsFacts.fl_mono. lra. }
    apply (JsFacts.fl_whole _ 20). change (inject_Z 20) with 20%Q.
    unfold sub in *. apply Qle_antisym; assumption. }
  rewrite E. split; [exact Hs1 |]. split; reflexivity.
Qed.

Lemma mock_low_battery_reads_as_20_witness :
  let u := {| ru_battery := Some 5%Q; ru_speed := None;
              ru_temperature := None; ru_lat := None; ru_lon := None |} in
  let d := {| draw_battery := 0; draw_speed := 0; draw_temperature := 0;
              draw_lat := 0; draw_lon := 0 |} in
  (5 < 20)%Q /\
  rs_battery (snd (getRobotStatus d (fst (updateRobotStatus u state0))))
  = inject_Z 20.
Proof.
  cbv zeta. split; [reflexivity |].
  pose proof (mock_low_battery_reads_as_20 5
                {| draw_battery := 0; draw_speed := 0; draw_temperature := 0;
                   draw_lat := 0; draw_lon := 0 |}
                {| ru_battery := Some 5%Q; ru_speed := None;
                   ru_temperature := None; ru_lat := None; ru_lon := None |}
                state0 eq_refl eq_refl) as H.
  cbv zeta in H.
  destruct (getRobotStatus _ _) as [s2 res].
  apply H. discriminate.
Defined.

(** X9. A read of the mock sensors draws every sensor value afresh: what it
    returns does not depend on the state before, so a value written by
    [updateSensorData] is never seen by the next read; with draws in [0, 1)
    the values are whole numbers in 60..70, 20..25, 7000..9000 and
    50..60.  The upper bounds are reached: in binary64 arithmetic the draw
    nearest to 1 gives 70, 25, 9000 and 60. *)
Theorem mock_sensor_read_forgets_update :
  forall (d : SensorDraws) (u : SensorUpdate) (s : State),
    unit_draw (draw_soilHumidity d) ->
    unit_draw (draw_soilTemp d) ->
    unit_draw (draw_light d) ->
    unit_draw (draw_airHumidity d) ->
    (let res := snd (getSensorData d (fst (updateSensorData u s))) in
     res = snd (getSensorData d s) /\
     (exists n, whole (sd_soilHumidity res) n /\ (60 <= n <= 70)%Z) /\
     (exists n, whole (sd_soilTemp res) n /\ (20 <= n <= 25)%Z) /\
     (exists n, whole (sd_light res) n /\ (7000 <= n <= 9000)%Z) /\
     (exists n, whole (sd_airHumidity res) n /\ (50 <= n <= 60)%Z)) /\
    (exists r : Q,
       unit_draw r /\
       snd (getSensorData
              {| draw_soilHumidity := r; draw_soilTemp := r;
                 draw_light := r; draw_airHumidity := r |} s)
       = {| sd_soilHumidity := 70; sd_soilTemp := 25; sd_light := 9000;
            sd_airHumidity := 60 |}).
Proof.
  intros d u s H1 H2 H3 H4. split.
  - cbv zeta. split; [reflexivity |].
    unfold getSensorData.
    cbn [snd sensors_of sd_soilHumidity sd_soilTemp sd_light sd_airHumidity
         soilHumidity soilTemp light airHumidity].
    split; [| split; [| split]].
    + apply (floor_of_draw _ 60 70 H1); [lia | |]; vm_compute; reflexivity.
    + apply (floor_of_draw _ 20 25 H2); [lia | |]; vm_compute; reflexivity.
    + apply (floor_of_draw _ 7000 9000 H3); [lia | |];
        vm_compute; reflexivity.
    + apply (floor_of_draw _ 50 60 H4); [lia | |]; vm_compute; reflexivity.
  - exists (1 - (1 # 2 ^ 53))%Q. split; [exact last_draw |].
    unfold getSensorData. cbn [snd sensors_of soilHumidity soilTemp light
                               airHumidity draw_soilHumidity draw_soilTemp
                               draw_light draw_airHumidity].
    f_equal; vm_compute; reflexivity.
Qed.

Lemma mock_sensor_read_forgets_update_witness :
  let d := {| draw_soilHumidity := 0; draw_soilTemp := 0; draw_light := 0;
              draw_airHumidity := 0 |} in
  let u := {| su_soilHumidity := Some 80%Q; su_soilTemp := None;
              su_light := None; su_airHumidity := None |} in
  unit_draw 0 /\
  sd_soilHumidity (snd (updateSensorData u state0)) = 80%Q /\
  snd (getSensorData d (fst (updateSensorData u state0)))
  = snd (getSensorData d state0).
Proof.
  cbv zeta.
  assert (unit_draw 0) as H by (split; reflexivity || discriminate).
  split; [exact H |]. split; [reflexivity |].
  exact (proj1 (proj1 (mock_sensor_read_forgets_update
                  {| draw_soilHumidity := 0; draw_soilTemp := 0;
                     draw_light := 0; draw_airHumidity := 0 |}
                  {| su_soilHumidity := Some 80%Q; su_soilTemp := None;
                     su_light := None; su_airHumidity := None |}
                  state0 H H H H))).
Defined.

(** X10. [updateSensorData] returns the sensor values it leaves stored.  A
    supplied soil humidity, light or air humidity is stored as given when it
    lies within 0..100, 0..100000 and 0..100, as the lower bound when it
    is below and as the upper bound when it is above; the soil temperature
    is stored unchecked; a field that is not supplied, and every robot
    field, keeps its value. *)
Theorem mock_sensor_update_clamps :
  forall (u : SensorUpdate) (s : State),
    let '(s', res) := updateSensorData u s in
    res = sensors_of s' /\
    (battery s' = battery s /\ speed s' = speed s /\
     temperature s' = temperature s /\ lat s' = lat s /\ lon s' = lon s) /\
    (forall v, su_soilHumidity u = Some v ->
       (0 <= soilHumidity s' <= 100)%Q /\
       ((0 <= v <= 100)%Q -> (soilHumidity s' == v)%Q) /\
       ((v < 0)%Q -> (soilHumidity s' == 0)%Q) /\
       ((100 < v)%Q -> (soilHumidity s' == 100)%Q)) /\
    (forall v, su_light u = Some v ->
       (0 <= light s' <= 100000)%Q /\
       ((0 <= v <= 100000)%Q -> (light s' == v)%Q) /\
       ((v < 0)%Q -> (light s' == 0)%Q) /\
       ((100000 < v)%Q -> (light s' == 100000)%Q)) /\
    (forall v, su_airHumidity u = Some v ->
       (0 <= airHumidity s' <= 100)%Q /\
       ((0 <= v <= 100)%Q -> (airHumidity s' == v)%Q) /\
       ((v < 0)%Q -> (airHumidity s' == 0)%Q) /\
       ((100 < v)%Q -> (airHumidity s' == 100)%Q)) /\
    (forall v, su_soilTemp u = Some v -> soilTemp s' = v) /\
    (su_soilHumidity u = None -> soilHumidity s' = soilHumidity s) /\
    (su_light u = None -> light s' = light s) /\
    (su_airHumidity u = None -> airHumidity s' = airHumidity s) /\
    (su_soilTemp u = None -> soilTemp s' = soilTemp s).
Proof.
  intros u s. unfold updateSensorData.
  cbn [soilHumidity light airHumidity soilTemp battery speed temperature
       lat lon].
  split; [reflexivity |].
  split; [repeat split; reflexivity |].
  repeat match goal with
         | |- _ /\ _ => split
         end;
    try (intros ->; reflexivity);
    intros v Hv; rewrite Hv; try reflexivity.
  - apply clamp_cases. discriminate.
  - apply clamp_cases. discriminate.
  - apply clamp_cases. discriminate.
Qed.

Lemma mock_sensor_update_clamps_witness :
  let u := {| su_soilHumidity := Some 150%Q; su_soilTemp := Some (-300)%Q;
              su_light := Some 5000%Q; su_airHumidity := Some (-1)%Q |} in
  let v := {| su_soilHumidity := None; su_soilTemp := None;
              su_light := None; su_airHumidity := None |} in
  let s' := fst (updateSensorData u state0) in
  ((100 < 150)%Q /\ (soilHumidity s' == 100)%Q) /\
  ((0 <= 5000 <= 100000)%Q /\ (light s' == 5000)%Q) /\
  (((-1) < 0)%Q /\ (airHumidity s' == 0)%Q) /\
  soilTemp s' = (-300)%Q /\
  battery s' = battery state0 /\
  airHumidity (fst (updateSensorData v state0)) = airHumidity state0.
Proof.
  cbv zeta.
  pose proof (mock_sensor_update_clamps
                {| su_soilHumidity := Some 150%Q;
                   su_soilTemp := Some (-300)%Q;
                   su_light := Some 5000%Q; su_airHumidity := Some (-1)%Q |}
                state0) as H.
  pose proof (mock_sensor_update_clamps
                {| su_soilHumidity := None; su_soilTemp := None;
                   su_light := None; su_airHumidity := None |}
                state0) as H'.
  destruct (updateSensorData {| su_soilHumidity := Some 150%Q |} state0)
    as [s' res].
  destruct (updateSensorData {| su_soilHumidity := None |} state0)
    as [s'' res'']. cbn [fst].
  destruct H as (_ & (Hbat & _) & Hh & Hl & Ha & Ht & _).
  destruct H' as (_ & _ & _ & _ & _ & _ & _ & _ & Ha' & _).
  assert (100 < 150)%Q as R1 by reflexivity.
  assert (0 <= 5000 <= 100000)%Q as R2 by (split; discriminate).
  assert ((-1) < 0)%Q as R3 by reflexivity.
  destruct (Hh _ eq_refl) as (_ & _ & _ & Hh3).
  destruct (Hl _ eq_refl) as (_ & Hl1 & _).
  destruct (Ha _ eq_refl) as (_ & _ & Ha2 & _).
  split; [split; [exact R1 | exact (Hh3 R1)] |].
  split; [split; [exact R2 | exact (Hl1 R2)] |].
  split; [split; [exact R3 | exact (Ha2 R3)] |].
  split; [exact (Ht _ eq_refl) |].
  split; [exact Hbat | exact (Ha' eq_refl)].
Defined.

(** X11. Whenever the live data source reports a command or an action as
    executed, the acknowledgment it returns is exactly the one the mock
    returns for the same code: the two modules agree on the reply, label
    tables included. *)
Theorem live_ack_agrees_with_mock :
  forall (http : DataSource.HttpOutcome) (c : string) (s : DataSource.State),
    (DataSource.executed (snd (DataSource.handleCommand http c s)) = true ->
     snd (DataSource.handleCommand http c s) = handleCommand c) /\
    (DataSource.executed (snd (DataSource.handleAction http c s)) = true ->
     snd (DataSource.handleAction http c s) = handleAction c).
Proof.
  intros http c s. unfold DataSource.handleCommand, DataSource.handleAction.
  destruct (DataSource.is_type DataSource.Http s), http; cbn;
    split; try discriminate; reflexivity.
Qed.

Lemma live_ack_agrees_with_mock_witness :
  DataSource.executed
    (snd (DataSource.handleCommand DataSource.HttpOk "left"
            DataSource.state0)) = true /\
  snd (DataSource.handleCommand DataSource.HttpOk "left" DataSource.state0)
  = handleCommand "left".
Proof.
  split; [reflexivity |].
  exact (proj1 (live_ack_agrees_with_mock DataSource.HttpOk "left"
                  DataSource.state0) eq_refl).
Defined.

End MockTelemetryFacts.

(* ===================================================================== *)
(** * Further properties of the task list and the statistics of
      mockData.js *)
(* ===================================================================== *)

Module MockStoreFacts.
Import Js MockData Props.

(** ** Statistics *)

(** X1. Whatever an update stored, the next read leaves the areas in order:
    from a state with a non-negative total area, an update followed by a
    read ends with 0 <= completedArea <= totalArea, the total area being
    the one the update left. *)
Theorem read_after_update_restores_areas :
  forall (data : StatsUpdate) (r : Q) (s : State),
    (0 <= totalArea s)%Q ->
    let s1 := fst (updateStatistics data s) in
    let s2 := fst (getStatistics r s1) in
    (0 <= completedArea s2)%Q /\
    (completedArea s2 <= totalArea s2)%Q /\
    totalArea s2 = totalArea s1 /\
    (0 <= totalArea s1)%Q.
Proof.
  intros data r s Ht s1 s2.
  assert (0 <= totalArea s1)%Q as Ht1.
  { subst s1. unfold updateStatistics. cbn [fst].
    destruct (upd_totalArea data) as [t |]; cbn [totalArea].
    - apply MockDataFacts.max_ge_l.
    - now destruct (upd_completedArea data). }
  subst s2. unfold getStatistics. cbn [fst completedArea totalArea].
  split; [now apply MockDataFacts.clamp_ge_lo |].
  split; [apply MockDataFacts.clamp_le_hi |]. split; [reflexivity | exact Ht1].
Qed.

Lemma read_after_update_restores_areas_witness :
  let data := {| upd_completedArea := Some 50%Q;
                 upd_totalArea := Some 40%Q |} in
  let s1 := fst (updateStatistics data state0) in
  let s2 := fst (getStatistics (1 # 2) s1) in
  (0 <= totalArea state0)%Q /\
  (totalArea s1 < completedArea s1)%Q /\
  (completedArea s2 <= totalArea s2)%Q.
Proof.
  cbv zeta. split; [discriminate |]. split; [reflexivity |].
  exact (proj1 (proj2 (read_after_update_restores_areas
                         {| upd_completedArea := Some 50%Q;
                            upd_totalArea := Some 40%Q |}
                         (1 # 2) state0 ltac:(discriminate)))).
Defined.

(** X2. A read of a state whose total area is zero stores a completed area
    of zero and returns a progress that is not a number, whatever the
    completed area and the draw were. *)
Theorem read_with_zero_total_is_nan :
  forall (r : Q) (s : State),
    (totalArea s == 0)%Q ->
    let '(s', res) := getStatistics r s in
    (completedArea s' == 0)%Q /\ st_progress res = NaN.
Proof.
  intros r s Ht. unfold getStatistics. cbn [completedArea totalArea st_progress].
  set (c := clamp _ 0 (totalArea s)).
  assert (c == 0)%Q as Hc.
  { subst c. unfold clamp.
    set (v := add (completedArea s) (random r 0 (lit (1 # 10)))).
    pose proof (MockDataFacts.max_ge_r v 0) as Hm.
    destruct (MockTelemetryFacts.min_cases (Js.max v 0) (totalArea s))
      as [[H ->] | [H ->]]; lra. }
  split; [exact Hc |].
  unfold div.
  assert (Qeq_bool (totalArea s) 0 = true) as -> by (now apply Qeq_bool_iff).
  assert (Qeq_bool c 0 = true) as -> by (now apply Qeq_bool_iff).
  reflexivity.
Qed.

Lemma read_with_zero_total_is_nan_witness :
  let s := fst (updateStatistics
                  {| upd_completedArea := None; upd_totalArea := Some 0%Q |}
                  state0) in
  (totalArea s == 0)%Q /\
  st_progress (snd (getStatistics (1 # 2) s)) = NaN.
Proof.
  cbv zeta.
  assert (totalArea (fst (updateStatistics
                            {| upd_completedArea := None;
                               upd_totalArea := Some 0%Q |} state0)) == 0)%Q
    as H by reflexivity.
  split; [exact H |].
  pose proof (read_with_zero_total_is_nan (1 # 2) _ H) as Hr.
  destruct (getStatistics (1 # 2) _) as [s' res]. exact (proj2 Hr).
Defined.

(** X3. For a stored completed area that is a binary64 number, with the
    areas in order and a draw in [0, 1), a read never lowers the completed
    area, never takes it above the total area, and raises it at most to
    the binary64 sum of the area and 0.1.  That sum can lie more than a
    tenth above the area: at 2^49 a read with the draw 0.9 raises the
    completed area by an eighth. *)
Theorem read_grows_completed_area :
  (forall (r : Q) (s : State),
      (0 <= r)%Q -> (r < 1)%Q ->
      is_double (completedArea s) ->
      (0 <= completedArea s)%Q ->
      (completedArea s <= totalArea s)%Q ->
      let s' := fst (getStatistics r s) in
      (completedArea s <= completedArea s')%Q /\
      (completedArea s' <= add (completedArea s) (lit (1 # 10)))%Q /\
      (completedArea s' <= totalArea s)%Q) /\
  (let s := {| completedArea := inject_Z (2 ^ 49);
               totalArea := inject_Z (2 ^ 50) |} in
   is_double (completedArea s) /\
   (completedArea (fst (getStatistics (lit (9 # 10)) s))
    == completedArea s + (1 # 8))%Q).
Proof.
  split.
  - intros r s Hr0 Hr1 [Hd _] Hc Hct s'. subst s'. unfold getStatistics.
    cbn [fst completedArea].
    set (x := random r 0 (lit (1 # 10))).
    assert (0 <= x)%Q as Hx0.
    { assert (random 0 0 (lit (1 # 10)) = 0%Q) as E
        by (vm_compute; reflexivity).
      rewrite <- E. apply MockTelemetryFacts.random_mono;
        [discriminate | exact Hr0]. }
    assert (x <= lit (1 # 10))%Q as Hx1.
    { assert (random 1 0 (lit (1 # 10)) = lit (1 # 10)) as E
        by (vm_compute; reflexivity).
      rewrite <- E. apply MockTelemetryFacts.random_mono;
        [discriminate | lra]. }
    set (v := add (completedArea s) x).
    assert (completedArea s <= v)%Q as Hv1.
    { rewrite <- Hd at 1. apply JsFacts.fl_mono. lra. }
    assert (v <= add (completedArea s) (lit (1 # 10)))%Q as Hv2.
    { apply JsFacts.fl_mono. lra. }
    destruct (MockTelemetryFacts.clamp_cases v 0 (totalArea s))
      as ((Hlo & Hhi) & Hin & _ & Hout); [lra |].
    destruct (Qlt_le_dec (totalArea s) v) as [Hbig | Hsmall].
    + rewrite (Hout Hbig). repeat split; lra.
    + rewrite Hin by lra. repeat split; lra.
  - cbv zeta. cbn [completedArea]. split.
    + split; [vm_compute; reflexivity | reflexivity].
    + vm_compute. reflexivity.
Qed.

Lemma read_grows_completed_area_witness :
  (0 <= 1 # 2)%Q /\ (1 # 2 < 1)%Q /\
  is_double (completedArea state0) /\
  (completedArea state0
   <= completedArea (fst (getStatistics (1 # 2) state0)))%Q.
Proof.
  assert (is_double (completedArea state0)) as Hd.
  { split; [vm_compute; reflexivity | reflexivity]. }
  split; [discriminate |]. split; [reflexivity |]. split; [exact Hd |].
  apply (proj1 read_grows_completed_area (1 # 2) state0);
    try exact Hd; try (vm_compute; discriminate); reflexivity.
Defined.

(** ** Tasks *)

Lemma filter_length_le {A : Type} (f : A -> bool) (l : list A) :
  length (List.filter f l) <= length l.
Proof.
  induction l as [| x l IH]; simpl; [lia |].
  destruct (f x); simpl; lia.
Qed.

Lemma filter_length_eq {A : Type} (f : A -> bool) (l : list A) :
  length (List.filter f l) = length l <-> List.filter f l = l.
Proof.
  split; [| now intros ->].
  induction l as [| x l IH]; simpl; [reflexivity |].
  pose proof (filter_length_le f l) as Hle.
  destruct (f x); simpl; intros Hlen.
  - f_equal. apply IH. lia.
  - lia.
Qed.

Lemma filter_all {A : Type} (f : A -> bool) (l : list A) :
  List.filter f l = l <-> forall x, In x l -> f x = true.
Proof.
  split.
  - intros H x Hx. rewrite <- H in Hx. now apply List.filter_In in Hx.
  - induction l as [| y l IH]; simpl; intros H; [reflexivity |].
    rewrite (H y) by now left. f_equal. apply IH. intros x Hx. apply H.
    now right.
Qed.

(** X4. [deleteTask] reports [true] exactly when a task had the id; it
    removes every task with that id and keeps all the others; deleting the
    same id again reports [false] and changes nothing. *)
Theorem deleteTask_removes_once :
  forall (i : Z) (tasks : list Task),
    let '(tasks', removed) := deleteTask i tasks in
    (removed = true <-> i ∈ ids tasks) /\
    (i ∉ ids tasks') /\
    (forall t, t ∈ tasks' <-> t ∈ tasks /\ id t <> i) /\
    deleteTask i tasks' = (tasks', false) /\
    (removed = false -> tasks' = tasks).
Proof.
  intros i tasks. unfold deleteTask.
  set (keep := fun t : Task => negb (Z.eqb (id t) i)).
  assert (forall t, t ∈ List.filter keep tasks <-> t ∈ tasks /\ id t <> i)
    as Hmem.
  { intros t. rewrite !list_elem_of_In, List.filter_In. subst keep. cbn.
    rewrite Bool.negb_true_iff, Z.eqb_neq. tauto. }
  assert (i ∉ ids (List.filter keep tasks)) as Hgone.
  { intros Hin. unfold ids in Hin.
    apply list_elem_of_fmap in Hin as (t & -> & Ht).
    apply Hmem in Ht. tauto. }
  assert (List.filter keep (List.filter keep tasks) = List.filter keep tasks)
    as Hidem.
  { apply filter_all. intros t Ht. now apply List.filter_In in Ht. }
  pose proof (filter_length_le keep tasks) as Hle.
  split; [| split; [exact Hgone | split; [exact Hmem | split]]].
  - rewrite Nat.ltb_lt. split.
    + intros Hlt. unfold ids.
      destruct (decide (i ∈ List.map id tasks)) as [Hin | Hnot];
        [exact Hin | exfalso].
      assert (List.filter keep tasks = tasks) as E; [| rewrite E in Hlt; lia].
      apply filter_all. intros t Ht. subst keep. cbn.
      apply Bool.negb_true_iff, Z.eqb_neq. intros <-. apply Hnot.
      apply list_elem_of_fmap. exists t. split; [reflexivity |].
      now apply list_elem_of_In.
    + intros Hin.
      assert (length (List.filter keep tasks) <> length tasks); [| lia].
      intros E. apply filter_length_eq in E. rewrite E in Hgone. contradiction.
  - rewrite Hidem. f_equal. apply Nat.ltb_irrefl.
  - intros Hfalse. apply Nat.ltb_ge in Hfalse.
    apply filter_length_eq. lia.
Qed.

Lemma deleteTask_removes_once_witness :
  (2%Z ∈ ids tasks0) /\ snd (deleteTask 2 tasks0) = true.
Proof.
  split; [compute_done |].
  generalize (deleteTask_removes_once 2 tasks0).
  destruct (deleteTask 2 tasks0) as [tasks' removed].
  intros (H & _). cbn [snd]. apply H. compute_done.
Defined.

(** X5. [updateTask] never changes the length of the list, its ids or their
    order.  For an id that no task has it returns [null] and leaves the
    list as it was; otherwise it returns the updated task, which is in the
    list, has the same id, takes the supplied name and status, and has its
    progress within 0..100 whenever a progress was supplied; every task
    with another id is still in the list. *)
Theorem updateTask_in_place :
  forall (i : Z) (u : TaskUpdate) (tasks : list Task),
    let '(tasks', r) := updateTask i u tasks in
    ids tasks' = ids tasks /\
    (i ∉ ids tasks -> tasks' = tasks /\ r = None) /\
    (i ∈ ids tasks ->
     exists t, r = Some t /\ t ∈ tasks' /\ id t = i /\
       (forall n, tu_name u = Some n -> name t = n) /\
       (forall st, tu_status u = Some st -> status t = st) /\
       (forall p, tu_progress u = Some p -> (0 <= progress t <= 100)%Q)) /\
    (forall t, t ∈ tasks -> id t <> i -> t ∈ tasks').
Proof.
  intros i u tasks.
  induction tasks as [| t0 rest IH]; cbn [updateTask].
  - split; [reflexivity |]. split; [intros _; split; reflexivity |].
    split; [intros H; inversion H | intros t H; inversion H].
  - destruct (Z.eqb (id t0) i) eqn:E.
    + apply Z.eqb_eq in E. split; [reflexivity |].
      split; [intros Hnot; exfalso; apply Hnot; unfold ids; cbn;
              rewrite E; apply elem_of_cons; now left |].
      split.
      * intros _. exists (apply_update u t0).
        split; [reflexivity |]. split; [apply elem_of_cons; now left |].
        split; [exact E |]. unfold apply_update. cbn.
        split; [intros n ->; reflexivity |].
        split; [intros st ->; reflexivity |].
        intros p ->. now apply MockTelemetryFacts.clamp_cases.
      * intros t Ht Hne. apply elem_of_cons in Ht as [-> | Ht];
          [congruence |]. apply elem_of_cons. now right.
    + apply Z.eqb_neq in E.
      destruct (updateTask i u rest) as [rest' r].
      destruct IH as (Hids & Hnone & Hsome & Hother).
      split; [unfold ids in *; cbn; now rewrite Hids |].
      split.
      * intros Hnot.
        assert (i ∉ ids rest) as Hnot'.
        { intros H. apply Hnot. unfold ids. cbn. apply elem_of_cons.
          now right. }
        destruct (Hnone Hnot') as [-> ->]. split; reflexivity.
      * split.
        -- intros Hin. unfold ids in Hin. cbn in Hin.
           apply elem_of_cons in Hin as [-> | Hin]; [congruence |].
           destruct (Hsome Hin) as (t & Hr & Ht & Hrest).
           exists t. split; [exact Hr |].
           split; [apply elem_of_cons; now right | exact Hrest].
        -- intros t Ht Hne. apply elem_of_cons in Ht as [-> | Ht];
             apply elem_of_cons; [now left | right; now apply Hother].
Qed.

Lemma updateTask_in_place_witness :
  let u := {| tu_name := None; tu_status := Some "done";
              tu_progress := Some 150%Q |} in
  (2%Z ∈ ids tasks0) /\
  (exists t, snd (updateTask 2 u tasks0) = Some t /\
             status t = "done" /\ (0 <= progress t <= 100)%Q) /\
  (9%Z ∉ ids tasks0) /\
  updateTask 9 u tasks0 = (tasks0, None).
Proof.
  cbv zeta.
  assert (2%Z ∈ ids tasks0) as Hin by compute_done.
  assert (9%Z ∉ ids tasks0) as Hnot by compute_done.
  split; [exact Hin |]. split; [| split; [exact Hnot |]].
  - pose proof (updateTask_in_place 2
                  {| tu_name := None; tu_status := Some "done";
                     tu_progress := Some 150%Q |} tasks0) as H.
    destruct (updateTask 2 _ tasks0) as [tasks' r].
    destruct H as (_ & _ & Hsome & _).
    destruct (Hsome Hin) as (t & Hr & _ & _ & _ & Hst & Hp).
    exists t. split; [exact Hr |].
    split; [exact (Hst _ eq_refl) | exact (Hp _ eq_refl)].
  - pose proof (updateTask_in_place 9
                  {| tu_name := None; tu_status := Some "done";
                     tu_progress := Some 150%Q |} tasks0) as H.
    destruct (updateTask 9 _ tasks0) as [tasks' r].
    destruct H as (_ & Hnone & _).
    destruct (Hnone Hnot) as [-> ->]. reflexivity.
Defined.

(** ** The order of the ids *)

Lemma sorted_filter (f : Z -> bool) (l : list Z) :
  StronglySorted Z.lt l -> StronglySorted Z.lt (List.filter f l).
Proof.
  induction 1 as [| x l Hs IH Hall]; simpl; [constructor |].
  destruct (f x); [| exact IH].
  constructor; [exact IH |].
  rewrite List.Forall_forall in *. intros y Hy.
  apply List.filter_In in Hy. now apply Hall.
Qed.

Lemma sorted_snoc (l : list Z) (x : Z) :
  StronglySorted Z.lt l -> (forall y, In y l -> (y < x)%Z) ->
  StronglySorted Z.lt (l ++ [x]).
Proof.
  induction 1 as [| z l Hs IH Hall]; intros Hx; simpl.
  - constructor; constructor.
  - constructor.
    + apply IH. intros y Hy. apply Hx. now right.
    + rewrite List.Forall_forall in *. intros y Hy.
      apply List.in_app_or in Hy as [Hy | [<- | []]].
      * now apply Hall.
      * apply Hx. now left.
Qed.

Lemma ids_filter (i : Z) (tasks : list Task) :
  ids (fst (deleteTask i tasks))
  = List.filter (fun x => negb (Z.eqb x i)) (ids tasks).
Proof.
  unfold deleteTask, ids. cbn [fst].
  induction tasks as [| t rest IH]; simpl; [reflexivity |].
  destruct (Z.eqb (id t) i); simpl; now rewrite IH.
Qed.

Lemma sorted_step (op : Op) (tasks : list Task) :
  StronglySorted Z.lt (ids tasks) -> StronglySorted Z.lt (ids (step tasks op)).
Proof.
  intros H. destruct op as [d | i u | i]; cbn [step].
  - rewrite MockDataFacts.ids_createTask. apply sorted_snoc; [exact H |].
    intros y Hy. unfold ids in Hy. apply List.in_map_iff in Hy as (t & <- & Ht).
    apply MockDataFacts.newId_above. now apply list_elem_of_In.
  - now rewrite MockDataFacts.ids_updateTask.
  - rewrite ids_filter. now apply sorted_filter.
Qed.

(** X6. After every sequence of create, update and delete operations on the
    initial list, the ids increase strictly along the list: the list is
    always in the order of creation, and the id of a new task is above
    every id in the list. *)
Theorem ids_increase_along_list :
  forall ops : list Op,
    let tasks := run ops tasks0 in
    StronglySorted Z.lt (ids tasks) /\
    forall (d : TaskData) (t : Task),
      t ∈ tasks -> (id t < id (snd (createTask d tasks)))%Z.
Proof.
  intros ops tasks. split.
  - subst tasks. unfold run.
    assert (StronglySorted Z.lt (ids tasks0)) as H0.
    { unfold ids. cbn. repeat constructor. }
    revert H0. generalize tasks0.
    induction ops as [| op ops IH]; intros ts Hts; cbn [fold_left].
    + exact Hts.
    + apply IH. now apply sorted_step.
  - intros d t Ht. cbn [createTask snd id]. now apply MockDataFacts.newId_above.
Qed.

Lemma ids_increase_along_list_witness :
  let tasks := run [Delete 2; Create {| td_name := "X"; td_status := None;
                                        td_progress := None |}] tasks0 in
  ids tasks = [1%Z; 3%Z; 4%Z] /\ StronglySorted Z.lt (ids tasks).
Proof.
  cbv zeta. split; [reflexivity |].
  exact (proj1 (ids_increase_along_list
                  [Delete 2; Create {| td_name := "X"; td_status := None;
                                       td_progress := None |}])).
Defined.

End MockStoreFacts.

(* ===================================================================== *)
(** * Further properties of dataSource.js *)
(* ===================================================================== *)

Module DataSourceQueriesFacts.
Import Js DataSource DataSourceQueries.

Lemma refreshed_stale (reply : HttpReply) (s : State)
    (stored : gmap string Json) :
  is_type Http s = false \/ reply = ReplyError \/
  (exists d, reply = Reply false d) ->
  refreshed reply s stored = Some stored.
Proof.
  unfold refreshed. intros [-> | [-> | [d ->]]]; [reflexivity | |];
    now destruct (is_type Http s).
Qed.

Lemma with_cache_same (s : State) : with_cache s (cache s) = s.
Proof. now destruct s. Qed.

Lemma cache_eta (c : Cache) :
  {| robot := robot c; sensors := sensors c; tasks := tasks c;
     statistics := statistics c; lastUpdate := lastUpdate c |} = c.
Proof. now destruct c. Qed.

(** X12. Stale read.  On a transport other than HTTP, and on HTTP when the
    request fails or the reply does not report success, each of the four
    reads leaves the module state exactly as it was and returns the cached
    values. *)
Theorem read_falls_back_to_cache :
  forall (reply : HttpReply) (db : DbReply) (s : State),
    is_type Http s = false \/ reply = ReplyError \/
    (exists d, reply = Reply false d) ->
    is_type Database s = false \/ connection s = None \/ db = DbError ->
    getRobotStatus reply s
    = Some (s, {| battery := robot (cache s) !! "battery";
                  speed := robot (cache s) !! "speed";
                  temperature := robot (cache s) !! "temperature";
                  coordinates := robot (cache s) !! "coordinates" |}) /\
    getSensorData reply s
    = Some (s, {| soilHumidity := sensors (cache s) !! "soilHumidity";
                  soilTemp := sensors (cache s) !! "soilTemp";
                  light := sensors (cache s) !! "light";
                  airHumidity := sensors (cache s) !! "airHumidity" |}) /\
    getStatistics reply s
    = Some (s, {| completedArea := statistics (cache s) !! "completedArea";
                  totalArea := statistics (cache s) !! "totalArea";
                  progress := statistics (cache s) !! "progress" |}) /\
    getTasks reply db s = (s, tasks (cache s)).
Proof.
  intros reply db s Hstale Hdb.
  unfold getRobotStatus, getSensorData, getStatistics.
  rewrite !refreshed_stale by exact Hstale.
  rewrite !cache_eta, !with_cache_same.
  repeat split.
  unfold getTasks.
  assert ((if is_type Http s
           then match reply with
                | Reply true data => data
                | _ => tasks (cache s)
                end
           else tasks (cache s)) = tasks (cache s)) as ->.
  { destruct Hstale as [-> | [-> | [d ->]]]; [reflexivity | |];
      now destruct (is_type Http s). }
  assert (match connection s with
          | Some _ => if is_type Database s
                      then match db with
                           | DbRows rows => rows
                           | DbError => tasks (cache s)
                           end
                      else tasks (cache s)
          | None => tasks (cache s)
          end = tasks (cache s)) as ->.
  { destruct Hdb as [-> | [-> | ->]]; [now destruct (connection s) | reflexivity |].
    destruct (connection s); [now destruct (is_type Database s) | reflexivity]. }
  now rewrite cache_eta, with_cache_same.
Qed.

Lemma read_falls_back_to_cache_witness :
  let s := {| type := Http; cache := cache0; isConnected := true;
              connection := None; sent := [] |} in
  option_map snd (getRobotStatus ReplyError s)
  = Some {| battery := Some (JNum 0); speed := Some (JNum 0);
            temperature := Some (JNum 0);
            coordinates := Some (JObj [("lat", JNum 0); ("lon", JNum 0)]) |}
  /\ option_map fst (getRobotStatus ReplyError s) = Some s.
Proof.
  cbv zeta.
  destruct (read_falls_back_to_cache ReplyError DbError
              {| type := Http; cache := cache0; isConnected := true;
                 connection := None; sent := [] |}
              (or_intror (or_introl eq_refl))
              (or_introl eq_refl)) as (-> & _).
  split; reflexivity.
Defined.

(** X13. A successful read over HTTP replaces the category instead of
    merging into it: after the read the stored robot object has exactly the
    members of the reply's [data], so a member that [data] lacks is gone
    from the cache and reads as [undefined]; the other categories stay.
    When [data] is [null] the read throws. *)
Theorem http_read_replaces_category :
  forall (data : Json) (s : State),
    is_type Http s = true ->
    getRobotStatus (Reply true JNull) s = None /\
    (data <> JNull ->
     exists s' res,
       getRobotStatus (Reply true data) s = Some (s', res) /\
       robot (cache s') = own_props data /\
       battery res = own_props data !! "battery" /\
       speed res = own_props data !! "speed" /\
       temperature res = own_props data !! "temperature" /\
       coordinates res = own_props data !! "coordinates" /\
       sensors (cache s') = sensors (cache s) /\
       tasks (cache s') = tasks (cache s) /\
       statistics (cache s') = statistics (cache s)).
Proof.
  intros data s Hhttp. unfold getRobotStatus, refreshed. rewrite Hhttp.
  split; [reflexivity |]. intros Hdata.
  destruct data; try contradiction; do 2 eexists;
    (split; [reflexivity |]); repeat split.
Qed.

Lemma http_read_replaces_category_witness :
  let s := {| type := Http; cache := cache0; isConnected := true;
              connection := None; sent := [] |} in
  let data := JObj [("battery", JNum 50)] in
  is_type Http s = true /\ data <> JNull /\
  exists s' res,
    getRobotStatus (Reply true data) s = Some (s', res) /\
    battery res = Some (JNum 50) /\ speed res = None /\
    robot (cache s') !! "speed" = None.
Proof.
  cbv zeta. split; [reflexivity |]. split; [discriminate |].
  destruct (proj2 (http_read_replaces_category
                     (JObj [("battery", JNum 50)])
                     {| type := Http; cache := cache0; isConnected := true;
                        connection := None; sent := [] |} eq_refl))
    as (s' & res & Hread & Hrobot & Hb & Hs & _); [discriminate |].
  exists s', res. split; [exact Hread |].
  split; [rewrite Hb; reflexivity |].
  split; [rewrite Hs; reflexivity | rewrite Hrobot; reflexivity].
Defined.

(** X14. Write then read.  On a transport other than HTTP, after a status
    message is delivered the next [getRobotStatus] returns, for each of its
    four members, the value the message carried, and for a member the
    message did not carry the value that was cached before; a message that
    does not parse changes nothing of what is read. *)
Theorem status_message_then_read :
  forall (now : Z) (data : Json) (reply : HttpReply) (s : State),
    is_type Http s = false ->
    let pick (k : string) :=
      match own_props data !! k with
      | Some v => Some v
      | None => robot (cache s) !! k
      end in
    option_map snd (getRobotStatus reply (deliver now topic_status (Some data) s))
    = Some {| battery := pick "battery"; speed := pick "speed";
              temperature := pick "temperature";
              coordinates := pick "coordinates" |} /\
    option_map snd (getRobotStatus reply (deliver now topic_status None s))
    = option_map snd (getRobotStatus reply s).
Proof.
  intros now data reply s Htype pick.
  assert (forall k, spread (robot (cache s)) data !! k = pick k) as Hpick.
  { intros k. subst pick. cbv beta.
    destruct (own_props data !! k) as [v |] eqn:E.
    - now apply DataSourceFacts.spread_present.
    - now apply DataSourceFacts.spread_absent. }
  split.
  - unfold getRobotStatus, refreshed, deliver.
    assert (is_type Http (with_cache s (onMqttMessage now topic_status
                                          (Some data) (cache s))) = false)
      as -> by exact Htype.
    cbn. now rewrite !Hpick.
  - unfold deliver. cbn [onMqttMessage]. now rewrite with_cache_same.
Qed.

Lemma status_message_then_read_witness :
  is_type Http state0 = false /\
  option_map snd
    (getRobotStatus ReplyError
       (deliver 5 topic_status (Some (JObj [("battery", JNum 50)])) state0))
  = Some {| battery := Some (JNum 50); speed := Some (JNum 0);
            temperature := Some (JNum 0);
            coordinates := Some (JObj [("lat", JNum 0); ("lon", JNum 0)]) |}.
Proof.
  split; [reflexivity |].
  exact (proj1 (status_message_then_read 5 (JObj [("battery", JNum 50)])
                  ReplyError state0 eq_refl)).
Defined.

(** X15. The serial and WebSocket path.  A message that is [null] leaves the
    cache as it was.  Any other message sets [lastUpdate]; a category that
    it carries is merged field by field (robot, sensors, statistics) or
    replaced by the carried value (tasks); a category that it omits, or
    carries with a falsy value, stays as it was. *)
Theorem updateCache_by_category :
  forall (now : Z) (data : Json) (c : Cache),
    updateCache now JNull c = c /\
    (data <> JNull ->
     let c' := updateCache now data c in
     lastUpdate c' = Some now /\
     (forall v, carries data "robot" v ->
        Props.fields_merged v (robot c) (robot c')) /\
     (forall v, carries data "sensors" v ->
        Props.fields_merged v (sensors c) (sensors c')) /\
     (forall v, carries data "statistics" v ->
        Props.fields_merged v (statistics c) (statistics c')) /\
     (forall v, carries data "tasks" v -> tasks c' = v) /\
     (omits data "robot" -> robot c' = robot c) /\
     (omits data "sensors" -> sensors c' = sensors c) /\
     (omits data "statistics" -> statistics c' = statistics c) /\
     (omits data "tasks" -> tasks c' = tasks c)).
Proof.
  intros now data c. split; [reflexivity |]. intros Hdata c'.
  assert (c' =
          let props := own_props data in
          let on (k : string) : option Json :=
            match props !! k with
            | Some v => if truthy_json v then Some v else None
            | None => None
            end in
          {| robot := match on "robot" with
                      | Some v => spread (robot c) v
                      | None => robot c
                      end;
             sensors := match on "sensors" with
                        | Some v => spread (sensors c) v
                        | None => sensors c
                        end;
             tasks := match on "tasks" with
                      | Some v => v
                      | None => tasks c
                      end;
             statistics := match on "statistics" with
                           | Some v => spread (statistics c) v
                           | None => statistics c
                           end;
             lastUpdate := Some now |}) as ->.
  { subst c'. destruct data; try contradiction; reflexivity. }
  cbv zeta. cbn [robot sensors tasks statistics lastUpdate].
  split; [reflexivity |].
  repeat match goal with
         | |- _ /\ _ => split
         end.
  1-4: intros v [Hk Ht]; rewrite Hk, Ht;
    try apply DataSourceFacts.spread_merged; reflexivity.
  all: intros Homit;
    match goal with
    | |- context [own_props ?d !! ?k] =>
        destruct (own_props d !! k) as [v |] eqn:Hk; [| reflexivity];
        now rewrite (Homit v Hk)
    end.
Qed.

Lemma updateCache_by_category_witness :
  let data := JObj [("robot", JObj [("battery", JNum 50)]);
                    ("tasks", JNull)] in
  let c' := updateCache 3 data cache0 in
  data <> JNull /\
  robot c' !! "battery" = Some (JNum 50) /\
  robot c' !! "speed" = robot cache0 !! "speed" /\
  tasks c' = tasks cache0 /\ sensors c' = sensors cache0.
Proof.
  cbv zeta.
  assert (JObj [("robot", JObj [("battery", JNum 50)]); ("tasks", JNull)]
          <> JNull) as Hd by discriminate.
  destruct (proj2 (updateCache_by_category 3 _ cache0) Hd)
    as (_ & Hrobot & _ & _ & _ & _ & Hsensors & _ & Htasks).
  split; [exact Hd |].
  destruct (Hrobot (JObj [("battery", JNum 50)])) as [Hset Hkeep];
    [split; reflexivity |].
  split; [apply Hset; reflexivity |].
  split; [apply Hkeep; reflexivity |].
  split.
  - apply Htasks. intros v Hv. injection Hv as <-. reflexivity.
  - apply Hsensors. intros v Hv. discriminate.
Defined.

Lemma forward_hands_over (typed bare : list (string * string)) (s : State) :
  type s <> Http ->
  forward typed bare s
  = {| type := type s; cache := cache s; isConnected := isConnected s;
       connection := connection s;
       sent := handed_over s typed bare ++ sent s |}.
Proof.
  intros Hhttp. unfold forward, handed_over, is_type, push.
  destruct s as [ty c ic [conn |] out]; cbn;
    destruct ty; try contradiction; cbn; try reflexivity.
  now destruct (Z.eqb (readyState conn) 1).
Qed.

(** X16. A command or an action never touches the cache, the connection,
    the connected flag or the configuration, and hands at most one message
    to the transport: one POST on HTTP; with a connection object, one
    publication on the control topic tagged with its type on MQTT, one
    untagged line on the serial port, one tagged message on a WebSocket
    whose ready state is 1; nothing otherwise. *)
Theorem command_hands_over_at_most_one :
  forall (http : HttpOutcome) (c : string) (s : State),
    let s1 := fst (handleCommand http c s) in
    let s2 := fst (handleAction http c s) in
    cache s1 = cache s /\ connection s1 = connection s /\
    isConnected s1 = isConnected s /\ type s1 = type s /\
    sent s1
    = handed_over s [("type", "command"); ("command", c)] [("command", c)]
      ++ sent s /\
    cache s2 = cache s /\ connection s2 = connection s /\
    isConnected s2 = isConnected s /\ type s2 = type s /\
    sent s2
    = handed_over s [("type", "action"); ("action", c)] [("action", c)]
      ++ sent s /\
    length (sent s1) <= S (length (sent s)) /\
    length (sent s2) <= S (length (sent s)).
Proof.
  intros http c s s1 s2.
  assert (forall typed bare,
            length (handed_over s typed bare ++ sent s) <= S (length (sent s)))
    as Hlen.
  { intros typed bare. unfold handed_over.
    destruct (type s), (connection s) as [conn |]; cbn; try lia;
      destruct (Z.eqb (readyState conn) 1); cbn; lia. }
  assert (cache s1 = cache s /\ connection s1 = connection s /\
          isConnected s1 = isConnected s /\ type s1 = type s /\
          sent s1 = handed_over s [("type", "command"); ("command", c)]
                      [("command", c)] ++ sent s) as H1.
  { subst s1. unfold handleCommand.
    destruct (is_type Http s) eqn:E.
    - apply DataSourceFacts.is_type_Http in E.
      assert (handed_over s [("type", "command"); ("command", c)]
                [("command", c)] = [HttpPost endpoint_control [("command", c)]])
        as -> by (unfold handed_over; now rewrite E).
      destruct http; cbn [fst]; [| repeat split].
      unfold forward, is_type, push. cbn. rewrite E.
      destruct (connection s); repeat split.
    - cbn [fst]. rewrite forward_hands_over; [repeat split |].
      intros Habs. apply DataSourceFacts.is_type_Http in Habs. congruence. }
  assert (cache s2 = cache s /\ connection s2 = connection s /\
          isConnected s2 = isConnected s /\ type s2 = type s /\
          sent s2 = handed_over s [("type", "action"); ("action", c)]
                      [("action", c)] ++ sent s) as H2.
  { subst s2. unfold handleAction.
    destruct (is_type Http s) eqn:E.
    - apply DataSourceFacts.is_type_Http in E.
      assert (handed_over s [("type", "action"); ("action", c)]
                [("action", c)] = [HttpPost endpoint_control [("action", c)]])
        as -> by (unfold handed_over; now rewrite E).
      destruct http; cbn [fst]; [| repeat split].
      unfold forward, is_type, push. cbn. rewrite E.
      destruct (connection s); repeat split.
    - cbn [fst]. rewrite forward_hands_over; [repeat split |].
      intros Habs. apply DataSourceFacts.is_type_Http in Habs. congruence. }
  destruct H1 as (A1 & A2 & A3 & A4 & A5).
  destruct H2 as (B1 & B2 & B3 & B4 & B5).
  repeat split; try assumption.
  - rewrite A5. apply Hlen.
  - rewrite B5. apply Hlen.
Qed.

(** X17. The connected flag is not consulted when a command is sent: on
    MQTT with a connection object, after an 'error' or 'close' event has
    cleared the flag, so that [getConnectionStatus] reports
    [connected = false], a command is still published on the control topic
    and acknowledged as executed. *)
Theorem command_published_while_flag_down :
  forall (e : Event) (http : HttpOutcome) (c : string) (conn : Connection)
         (s : State),
    type s = Mqtt ->
    connection s = Some conn ->
    e <> Opened ->
    let s1 := on_event e s in
    cs_connected (getConnectionStatus s1) = false /\
    sent (fst (handleCommand http c s1))
    = MqttPublish topic_control [("type", "command"); ("command", c)]
      :: sent s /\
    executed (snd (handleCommand http c s1)) = true.
Proof.
  intros e http c conn s Hty Hconn He s1.
  assert (s1 = set_connected false s) as ->.
  { subst s1. unfold on_event. rewrite Hty. now destruct e. }
  split; [reflexivity |].
  destruct s as [ty ca ic co out]. cbn in Hty, Hconn. subst ty co.
  split; reflexivity.
Qed.

Lemma command_published_while_flag_down_witness :
  let s := {| type := Mqtt; cache := cache0; isConnected := true;
              connection := Some {| readyState := 0 |}; sent := [] |} in
  Closed <> Opened /\
  cs_connected (getConnectionStatus (on_event Closed s)) = false /\
  sent (fst (handleCommand HttpOk "stop" (on_event Closed s)))
  = [MqttPublish topic_control [("type", "command"); ("command", "stop")]].
Proof.
  cbv zeta.
  assert (Closed <> Opened) as He by discriminate.
  destruct (command_published_while_flag_down Closed HttpOk "stop"
              {| readyState := 0 |}
              {| type := Mqtt; cache := cache0; isConnected := true;
                 connection := Some {| readyState := 0 |}; sent := [] |}
              eq_refl eq_refl He) as (H1 & H2 & _).
  split; [exact He |]. split; [exact H1 | exact H2].
Defined.

(** X18. [close] drops the connection object and clears the connected flag
    when there was a connection, does nothing when there was none (so on
    the HTTP transport, which never has one, the flag stays set), and run
    twice does what it does once; it never touches the cache, so on a
    transport other than HTTP every read returns after it what it returned
    before. *)
Theorem close_keeps_cache :
  forall (reply : HttpReply) (s : State),
    connection (close s) = None /\
    close (close s) = close s /\
    cache (close s) = cache s /\
    (is_Some (connection s) -> isConnected (close s) = false) /\
    (connection s = None -> close s = s) /\
    (is_type Http s = false ->
     option_map snd (getRobotStatus reply (close s))
     = option_map snd (getRobotStatus reply s)).
Proof.
  intros reply s. destruct s as [ty ca ic [conn |] out]; cbn.
  - repeat split; [discriminate |].
    intros Hty. unfold getRobotStatus, refreshed, is_type. cbn.
    now rewrite Hty.
  - repeat split. intros [x Hx]. discriminate.
Qed.

Lemma close_keeps_cache_witness :
  let s := {| type := Mqtt; cache := cache0; isConnected := true;
              connection := Some {| readyState := 0 |}; sent := [] |} in
  is_Some (connection s) /\ isConnected (close s) = false /\
  is_type Http s = false /\
  option_map snd (getRobotStatus ReplyError (close s))
  = option_map snd (getRobotStatus ReplyError s).
Proof.
  cbv zeta.
  match goal with
  | |- is_Some (connection ?s) /\ _ =>
      destruct (close_keeps_cache ReplyError s) as (_ & _ & _ & Hflag & _ & Hread)
  end.
  assert (is_Some (Some {| readyState := 0 |})) as Hsome by (eexists; reflexivity).
  split; [exact Hsome |]. split; [exact (Hflag Hsome) |].
  split; [reflexivity | exact (Hread eq_refl)].
Defined.

End DataSourceQueriesFacts.

(* ===================================================================== *)
(** * Further properties of robotController.js *)
(* ===================================================================== *)

Module ControllerRoutesFacts.
Import Js Controller ControllerRoutes.






Lemma members_status (b sp te co : option Json) (k : string) :
  members [("battery", b); ("speed", sp); ("temperature", te);
           ("coordinates", co)] !! k
  = if decide (k = "battery") then b
    else if decide (k = "speed") then sp
    else if decide (k = "temperature") then te
    else if decide (k = "coordinates") then co
    else None.
Proof.
  unfold members.
  destruct (decide (k = "battery")) as [-> | H1];
    [destruct b, sp, te, co; reflexivity |].
  destruct (decide (k = "speed")) as [-> | H2];
    [destruct b, sp, te, co; reflexivity |].
  destruct (decide (k = "temperature")) as [-> | H3];
    [destruct b, sp, te, co; reflexivity |].
  destruct (decide (k = "coordinates")) as [-> | H4];
    [destruct b, sp, te, co; reflexivity |].
  destruct b, sp, te, co; cbn;
    repeat (rewrite lookup_insert_ne by congruence);
    apply lookup_empty.
Qed.

(** X21. GET /api/robot/status on a transport other than HTTP always
    answers 200 with [success = true], without changing the state, whether
    or not any telemetry was ever received; the data of the answer has
    the four members battery, speed, temperature and coordinates, each
    with the cached value (and left out when the cache has none), and no
    other member.  After a status message was delivered, each of the four
    members has the value the message carried, or the value cached before
    when the message did not carry it; so a battery level that the message
    carried is the battery level of the answer. *)
Theorem get_status_serves_cache :
  forall (production : bool) (now t : Z)
         (reply : DataSourceQueries.HttpReply) (v : Json) (data : Json)
         (w : World),
    DataSource.is_type DataSource.Http (source w) = false ->
    DataSource.own_props data !! "battery" = Some v ->
    let keys := ["battery"; "speed"; "temperature"; "coordinates"] in
    let cached := DataSource.robot (DataSource.cache (source w)) in
    (exists o,
       getStatus production now reply w
       = Some (w, sendSuccess now (DObject o) None) /\
       (forall k, k ∈ keys -> o !! k = cached !! k) /\
       (forall k, k ∉ keys -> o !! k = None)) /\
    (exists o,
       getStatus production now reply
         (deliver t DataSource.topic_status (Some data) w)
       = Some (deliver t DataSource.topic_status (Some data) w,
               sendSuccess now (DObject o) None) /\
       (forall k, k ∈ keys ->
          o !! k = match DataSource.own_props data !! k with
                   | Some x => Some x
                   | None => cached !! k
                   end) /\
       (forall k, k ∉ keys -> o !! k = None) /\
       o !! "battery" = Some v).
Proof.
  intros production now t reply v data w Hty Hv keys cached.
  assert (forall (b sp te co : option Json) (k : string),
            k ∈ keys ->
            members [("battery", b); ("speed", sp); ("temperature", te);
                     ("coordinates", co)] !! k
            = if decide (k = "battery") then b
              else if decide (k = "speed") then sp
              else if decide (k = "temperature") then te else co) as Hin.
  { intros b sp te co k Hk. rewrite members_status. subst keys.
    repeat (apply elem_of_cons in Hk as [-> | Hk]; [reflexivity |]).
    inversion Hk. }
  assert (forall (b sp te co : option Json) (k : string),
            k ∉ keys ->
            members [("battery", b); ("speed", sp); ("temperature", te);
                     ("coordinates", co)] !! k = None) as Hout.
  { intros b sp te co k Hk. rewrite members_status. subst keys.
    repeat (destruct (decide _) as [-> | ?];
            [exfalso; apply Hk; set_solver |]).
    reflexivity. }
  split.
  - unfold getStatus.
    destruct (DataSourceQueriesFacts.read_falls_back_to_cache reply
                DataSourceQueries.DbError (source w))
      as (-> & _); [now left | now right; right |].
    eexists. split; [| split].
    + cbn [asyncHandler]. f_equal. f_equal. now destruct w.
    + intros k Hk. rewrite (Hin _ _ _ _ k Hk).
      cbn [DataSourceQueries.battery DataSourceQueries.speed
           DataSourceQueries.temperature DataSourceQueries.coordinates].
      subst keys cached.
      repeat (apply elem_of_cons in Hk as [-> | Hk]; [reflexivity |]).
      inversion Hk.
    + intros k Hk. apply (Hout _ _ _ _ k Hk).
  - unfold getStatus.
    pose proof (DataSourceQueriesFacts.status_message_then_read t data reply
                  (source w) Hty) as [Hread _].
    assert (DataSource.is_type DataSource.Http
              (source (deliver t DataSource.topic_status (Some data) w))
            = false) as Hty' by exact Hty.
    destruct (DataSourceQueriesFacts.read_falls_back_to_cache reply
                DataSourceQueries.DbError
                (source (deliver t DataSource.topic_status (Some data) w)))
      as (Hget & _); [now left | now right; right |].
    change (source (deliver t DataSource.topic_status (Some data) w))
      with (DataSourceQueries.deliver t DataSource.topic_status (Some data)
              (source w)) in Hget.
    cbn [deliver source with_source] in *.
    rewrite Hget in Hread |- *. cbn [option_map snd] in Hread.
    injection Hread as Hb Hsp Hte Hco.
    eexists. split; [| split; [| split]].
    + cbn [asyncHandler]. reflexivity.
    + intros k Hk. rewrite (Hin _ _ _ _ k Hk).
      cbn [DataSourceQueries.battery DataSourceQueries.speed
           DataSourceQueries.temperature DataSourceQueries.coordinates].
      subst keys cached.
      repeat (apply elem_of_cons in Hk as [-> | Hk];
              [cbn [decide]; first [exact Hb | exact Hsp | exact Hte
                                    | exact Hco] |]).
      inversion Hk.
    + intros k Hk. apply (Hout _ _ _ _ k Hk).
    + rewrite (Hin _ _ _ _ "battery") by (subst keys; set_solver).
      rewrite Hv in Hb. exact Hb.
Qed.

Lemma get_status_serves_cache_witness :
  let data := JObj [("battery", JNum 50)] in
  DataSource.is_type DataSource.Http (source world0) = false /\
  DataSource.own_props data !! "battery" = Some (JNum 50) /\
  (exists o,
     getStatus false 9 DataSourceQueries.ReplyError world0
     = Some (world0, sendSuccess 9 (DObject o) None) /\
     o !! "battery" = Some (JNum 0) /\ o !! "speed" = Some (JNum 0) /\
     o !! "temperature" = Some (JNum 0) /\
     o !! "coordinates" = Some (JObj [("lat", JNum 0); ("lon", JNum 0)]) /\
     o !! "lastUpdate" = None) /\
  (exists o,
     getStatus false 9 DataSourceQueries.ReplyError
       (deliver 5 DataSource.topic_status (Some data) world0)
     = Some (deliver 5 DataSource.topic_status (Some data) world0,
             sendSuccess 9 (DObject o) None) /\
     o !! "battery" = Some (JNum 50) /\ o !! "speed" = Some (JNum 0)).
Proof.
  cbv zeta.
  assert (DataSource.is_type DataSource.Http (source world0) = false) as H1
    by reflexivity.
  assert (DataSource.own_props (JObj [("battery", JNum 50)]) !! "battery"
          = Some (JNum 50)) as H2 by reflexivity.
  split; [exact H1 |]. split; [exact H2 |].
  destruct (get_status_serves_cache false 9 5 DataSourceQueries.ReplyError
              (JNum 50) (JObj [("battery", JNum 50)]) world0 H1 H2)
    as [(o & Hget & Hin & Hout) (o' & Hget' & Hin' & _ & Hb')].
  split.
  - exists o. split; [exact Hget |].
    rewrite !Hin by (apply list_elem_of_In; simpl; tauto).
    rewrite Hout; [repeat split |].
    intros Hk. apply list_elem_of_In in Hk. simpl in Hk.
    repeat (destruct Hk as [Hk | Hk]; [discriminate |]). exact Hk.
  - exists o'. split; [exact Hget' |]. split; [exact Hb' |].
    rewrite Hin' by (apply list_elem_of_In; simpl; tauto). reflexivity.
Defined.

End ControllerRoutesFacts.

(* ===================================================================== *)
(** * Further properties of alert.js *)
(* ===================================================================== *)

Module AlertCallsFacts.
Import AlertService AlertCalls Props.

Lemma trigger_active (now : Z) (ruleId msg fld : string) (lvl : Level)
    (v : Value) (s : St) :
  is_Some (activeAlerts (trigger now ruleId msg lvl fld v s) !! ruleId).
Proof.
  unfold trigger. destruct (activeAlerts s !! ruleId) as [existing |] eqn:E.
  - destruct (Z.ltb _ _).
    + rewrite E. now eexists.
    + cbn [activeAlerts]. rewrite lookup_insert_eq. now eexists.
  - cbn [activeAlerts]. rewrite lookup_insert_eq. now eexists.
Qed.

(** The rule decides its own entry, whatever the state before. *)
Lemma check_rule_own (now : Z) (allData : gmap string Q) (s : St)
    (ruleId : string) (rule : Rule) (v : Q) :
  enabled rule = true ->
  allData !! field rule = Some v ->
  (is_Some (activeAlerts (check_rule now allData s (ruleId, rule)) !! ruleId)
   <-> violates rule v = true).
Proof.
  intros Hen Hv. unfold check_rule, violates. rewrite Hen, Hv. cbn [negb].
  destruct (match condition rule with
            | Below => _
            | Above => _
            end).
  - split; [reflexivity | intros _; apply trigger_active].
  - rewrite AlertFacts.resolve_gone. split; [intros [x Hx] |]; discriminate.
Qed.

Lemma fold_reaches_rule (now : Z) (allData : gmap string Q) (k : string)
    (r : Rule) (l : list (string * Rule)) :
  NoDup (fst <$> l) -> (k, r) ∈ l ->
  forall s, exists s0,
    activeAlerts s0 !! k = activeAlerts s !! k /\
    activeAlerts (fold_left (check_rule now allData) l s) !! k
    = activeAlerts (check_rule now allData s0 (k, r)) !! k.
Proof.
  induction l as [| e l IH]; intros Hnd Hin s; [inversion Hin |].
  cbn [fmap list_fmap] in Hnd. apply NoDup_cons in Hnd as [Hfresh Hnd].
  cbn [fold_left]. apply elem_of_cons in Hin as [<- | Hin].
  - exists s. split; [reflexivity |].
    apply AlertFacts.fold_check_rule_other.
    apply List.Forall_forall. intros e He Heq. apply Hfresh.
    apply list_elem_of_fmap. exists e. split; [now rewrite Heq |].
    now apply list_elem_of_In.
  - destruct (IH Hnd Hin (check_rule now allData s e)) as (s0 & Hs0 & Hfold).
    exists s0. split; [| exact Hfold]. rewrite Hs0.
    apply AlertFacts.check_rule_other. intros Heq. apply Hfresh.
    apply list_elem_of_fmap. exists (k, r). split; [now rewrite Heq | exact Hin].
Qed.

Lemma rules_distinct : NoDup (fst <$> rules).
Proof. compute_done. Qed.

Lemma rules_enabled (k : string) (r : Rule) :
  (k, r) ∈ rules -> enabled r = true.
Proof.
  unfold rules. rewrite !elem_of_cons.
  intros [H | [H | [H | [H | [H | H]]]]];
    try (injection H as -> ->; reflexivity).
  inversion H.
Qed.

(** X22. After [check], each configured rule whose field is in the snapshot
    has an active alert exactly when the reading meets its condition
    (strictly below, or strictly above, the threshold); a rule whose field
    is missing from the snapshot keeps the alert it had, or none; the
    other rules evaluated in the same call do not interfere. *)
Theorem check_decides_each_rule :
  forall (now : Z) (robotData sensorData : gmap string Q) (s : St)
         (ruleId : string) (rule : Rule),
    (ruleId, rule) ∈ rules ->
    let s' := check now robotData sensorData s in
    (forall v, (sensorData ∪ robotData) !! field rule = Some v ->
       (is_Some (activeAlerts s' !! ruleId) <-> violates rule v = true)) /\
    ((sensorData ∪ robotData) !! field rule = None ->
     activeAlerts s' !! ruleId = activeAlerts s !! ruleId).
Proof.
  intros now robotData sensorData s ruleId rule Hin s'. subst s'.
  unfold check.
  destruct (fold_reaches_rule now (sensorData ∪ robotData) ruleId rule rules
              rules_distinct Hin s) as (s0 & Hs0 & ->).
  split.
  - intros v Hv. apply check_rule_own; [| exact Hv].
    now apply rules_enabled with ruleId.
  - intros Hnone. rewrite AlertFacts.check_rule_absent by exact Hnone.
    exact Hs0.
Qed.

Lemma check_decides_each_rule_witness :
  let rule := {| enabled := true; threshold := 40; message := "温度过高";
                 level := Warning; field := "temperature";
                 condition := Above |} in
  let s' := check 0 {[ "temperature" := 41%Q ]} {[ "light" := 500%Q ]}
              (init_state true) in
  (("highTemperature", rule) ∈ rules) /\
  is_Some (activeAlerts s' !! "highTemperature").
Proof.
  cbv zeta.
  assert (("highTemperature",
           {| enabled := true; threshold := 40; message := "温度过高";
              level := Warning; field := "temperature";
              condition := Above |}) ∈ rules) as Hin.
  { unfold rules. apply elem_of_cons. right. apply elem_of_cons. now left. }
  split; [exact Hin |].
  apply (proj1 (check_decides_each_rule 0 {[ "temperature" := 41%Q ]}
                  {[ "light" := 500%Q ]} (init_state true) _ _ Hin) 41%Q);
    reflexivity.
Defined.

(** X23. The cooldown.  While the alert of a rule is active, a new trigger
    of the rule changes nothing as long as the alert is younger than 30000
    ms; from 30000 ms on it replaces the alert by a fresh one with the new
    time and value, and records and shows it again.  So a condition that
    persists is reported again every time the active alert has aged 30
    seconds. *)
Theorem trigger_respects_cooldown :
  forall (now : Z) (ruleId msg fld : string) (lvl : Level) (v : Value)
         (s : St) (existing : Alert),
    activeAlerts s !! ruleId = Some existing ->
    let fresh := {| id := ruleId; msg_label := msg; msg_unit := getUnit fld;
                    alert_level := lvl; time := now; value := v |} in
    ((now - time existing < alertCooldown)%Z ->
     trigger now ruleId msg lvl fld v s = s) /\
    ((alertCooldown <= now - time existing)%Z ->
     trigger now ruleId msg lvl fld v s = raised fresh s /\
     activeAlerts (raised fresh s) !! ruleId = Some fresh /\
     container (raised fresh s)
     = (fun shown => shown ++ [fresh]) <$> container s).
Proof.
  intros now ruleId msg fld lvl v s existing Hex fresh. split.
  - intros Hlt. now apply AlertFacts.trigger_cooling with existing.
  - intros Hge. unfold trigger. rewrite Hex.
    assert (Z.ltb (now - time existing) alertCooldown = false) as ->
      by (apply Z.ltb_ge; exact Hge).
    split; [reflexivity |]. split.
    + apply (AlertFacts.raised_active fresh).
    + unfold raised. cbn [container]. now destruct (container s).
Qed.

Lemma trigger_respects_cooldown_witness :
  let s1 := check 0 {[ "battery" := 15%Q ]} ∅ (init_state true) in
  activeAlerts s1 !! "lowBattery" = Some (lowBattery_alert 0 15) /\
  (30000 - 0 < alertCooldown -> False)%Z /\
  (alertCooldown <= 30000 - 0)%Z /\
  container (trigger 30000 "lowBattery" "电量过低" Critical "battery"
               (VNum 14) s1)
  = Some [lowBattery_alert 0 15; lowBattery_alert 30000 14].
Proof.
  cbv zeta.
  assert (activeAlerts (check 0 {[ "battery" := 15%Q ]} ∅ (init_state true))
            !! "lowBattery" = Some (lowBattery_alert 0 15)) as Hex
    by reflexivity.
  assert (alertCooldown <= 30000 - 0)%Z as Hge by discriminate.
  split; [exact Hex |]. split; [discriminate |]. split; [exact Hge |].
  destruct (proj2 (trigger_respects_cooldown 30000 "lowBattery" "电量过低"
                     "battery" Critical (VNum 14) _ _ Hex) Hge)
    as (-> & _ & ->).
  reflexivity.
Defined.

(** ** The history *)

Lemma addToHistory_bounded (a : Alert) (h : list Alert) :
  length h <= maxHistory ->
  length (addToHistory a h) <= maxHistory /\
  head (addToHistory a h) = Some a.
Proof.
  intros Hlen. unfold addToHistory.
  destruct (Nat.ltb maxHistory (length (a :: h))) eqn:E.
  - split.
    + rewrite List.removelast_firstn_len, List.length_firstn. cbn. lia.
    + destruct h as [| b h]; [cbn in E; discriminate | reflexivity].
  - apply Nat.ltb_ge in E. split; [exact E | reflexivity].
Qed.

Lemma trigger_history (now : Z) (ruleId msg fld : string) (lvl : Level)
    (v : Value) (s : St) :
  length (alertHistory s) <= maxHistory ->
  length (alertHistory (trigger now ruleId msg lvl fld v s)) <= maxHistory.
Proof.
  intros H. unfold trigger.
  destruct (activeAlerts s !! ruleId) as [existing |];
    [destruct (Z.ltb _ _); [exact H |] |];
    cbn [alertHistory]; now apply addToHistory_bounded.
Qed.

Lemma resolve_history (ruleId : string) (s : St) :
  alertHistory (resolve ruleId s) = alertHistory s.
Proof. unfold resolve. now destruct (activeAlerts s !! ruleId). Qed.

Lemma check_rule_history (now : Z) (allData : gmap string Q) (s : St)
    (entry : string * Rule) :
  length (alertHistory s) <= maxHistory ->
  length (alertHistory (check_rule now allData s entry)) <= maxHistory.
Proof.
  intros H. destruct entry as [ruleId rule]. unfold check_rule.
  destruct (negb (enabled rule)); [exact H |].
  destruct (allData !! field rule); [| exact H].
  destruct (match condition rule with
            | Below => _
            | Above => _
            end).
  - now apply trigger_history.
  - now rewrite resolve_history.
Qed.

Lemma call_history (c : Call) (s : St) :
  length (alertHistory s) <= maxHistory ->
  length (alertHistory (call s c)) <= maxHistory.
Proof.
  intros H. destruct c as [now robotData sensorData | now connected |];
    cbn [call].
  - unfold check. generalize dependent s.
    induction rules as [| e l IH]; intros s H; cbn [fold_left];
      [exact H |].
    apply IH. now apply check_rule_history.
  - unfold checkConnection. destruct (negb connected).
    + now apply trigger_history.
    + now rewrite resolve_history.
  - exact H.
Qed.

(** X24. The alert history never holds more than 50 entries, whatever
    calls the service receives, and an alert that is raised is its newest
    (first) entry. *)
Theorem history_is_bounded :
  forall (cs : list Call) (has_container : bool),
    length (alertHistory (calls cs (init_state has_container))) <= maxHistory
    /\
    forall (a : Alert),
      head (alertHistory
              (raised a (calls cs (init_state has_container)))) = Some a.
Proof.
  intros cs has_container.
  assert (forall s, length (alertHistory s) <= maxHistory ->
                    length (alertHistory (calls cs s)) <= maxHistory) as H.
  { unfold calls. induction cs as [| c cs IH]; intros s Hs; cbn [fold_left].
    - exact Hs.
    - apply IH. now apply call_history. }
  assert (length (alertHistory (calls cs (init_state has_container)))
          <= maxHistory) as Hlen.
  { apply H. cbn. unfold maxHistory. lia. }
  split; [exact Hlen |].
  intros a. unfold raised. cbn [alertHistory].
  now apply addToHistory_bounded.
Qed.

(** ** The engine and the page *)

Lemma trigger_engine (now : Z) (ruleId msg fld : string) (lvl : Level)
    (v : Value) (s1 s2 : St) :
  engine s1 = engine s2 ->
  engine (trigger now ruleId msg lvl fld v s1)
  = engine (trigger now ruleId msg lvl fld v s2).
Proof.
  unfold engine. intros [= Ha Hh Hs]. unfold trigger. rewrite Ha.
  destruct (activeAlerts s2 !! ruleId) as [existing |];
    [destruct (Z.ltb _ _) |]; cbn; now rewrite ?Ha, ?Hh, ?Hs.
Qed.

Lemma resolve_engine (ruleId : string) (s1 s2 : St) :
  engine s1 = engine s2 ->
  engine (resolve ruleId s1) = engine (resolve ruleId s2).
Proof.
  unfold engine. intros [= Ha Hh Hs]. unfold resolve. rewrite Ha.
  destruct (activeAlerts s2 !! ruleId); cbn; now rewrite ?Ha, ?Hh, ?Hs.
Qed.

Lemma call_engine (c : Call) (s1 s2 : St) :
  engine s1 = engine s2 -> engine (call s1 c) = engine (call s2 c).
Proof.
  intros H. destruct c as [now robotData sensorData | now connected |];
    cbn [call].
  - unfold check. revert s1 s2 H.
    induction rules as [| e l IH]; intros s1 s2 H; cbn [fold_left];
      [exact H |].
    apply IH. destruct e as [ruleId rule]. unfold check_rule.
    destruct (negb (enabled rule)); [exact H |].
    destruct (_ !! field rule); [| exact H].
    destruct (match condition rule with
              | Below => _
              | Above => _
              end).
    + now apply trigger_engine.
    + now apply resolve_engine.
  - unfold checkConnection. destruct (negb connected).
    + now apply trigger_engine.
    + now apply resolve_engine.
  - unfold engine in *. injection H as Ha Hh Hs. cbn. now rewrite Hh, Hs.
Qed.

(** X25. The state of the engine does not depend on the page: for every
    sequence of calls, the active alerts, the history and the number of
    sounds are the same whether the page has the notification container or
    not; without the container nothing is ever shown. *)
Theorem engine_independent_of_page :
  forall cs : list Call,
    engine (calls cs (init_state true)) = engine (calls cs (init_state false))
    /\ container (calls cs (init_state false)) = None.
Proof.
  intros cs. split.
  - assert (forall s1 s2, engine s1 = engine s2 ->
                          engine (calls cs s1) = engine (calls cs s2)) as H.
    { unfold calls. induction cs as [| c cs IH]; intros s1 s2 Hs;
        cbn [fold_left]; [exact Hs |].
      apply IH. now apply call_engine. }
    now apply H.
  - assert (forall s, container s = None -> container (calls cs s) = None)
      as H; [| now apply H].
    unfold calls. induction cs as [| c cs IH]; intros s Hs; cbn [fold_left];
      [exact Hs |].
    apply IH. clear IH.
    assert (forall now ruleId msg lvl fld v s,
              container s = None ->
              container (trigger now ruleId msg lvl fld v s) = None) as Ht.
    { intros now ruleId msg lvl fld v s0 H0. unfold trigger.
      destruct (activeAlerts s0 !! ruleId);
        [destruct (Z.ltb _ _); [exact H0 |] |]; cbn; now rewrite H0. }
    assert (forall ruleId s, container s = None ->
                             container (resolve ruleId s) = None) as Hr.
    { intros ruleId s0 H0. unfold resolve.
      now destruct (activeAlerts s0 !! ruleId). }
    destruct c as [now robotData sensorData | now connected |]; cbn [call].
    + unfold check. revert s Hs.
      induction rules as [| e l IH]; intros s Hs; cbn [fold_left];
        [exact Hs |].
      apply IH. destruct e as [ruleId rule]. unfold check_rule.
      destruct (negb (enabled rule)); [exact Hs |].
      destruct (_ !! field rule); [| exact Hs].
      destruct (match condition rule with
                | Below => _
                | Above => _
                end); [now apply Ht | now apply Hr].
    + unfold checkConnection.
      destruct (negb connected); [now apply Ht | now apply Hr].
    + exact Hs.
Qed.

End AlertCallsFacts.

(* ===================================================================== *)
(** * Further properties of app.js *)
(* ===================================================================== *)

Module AppEventsFacts.
Import App AppEvents Props.

Lemma onSuccess_when_up (t : Z) (d : RobotData) (s : St) :
  isConnected s = true ->
  let s' := onSuccess t d s in
  isConnected s' = true /\ robot s' = d /\ logList s' = logList s /\
  statusText s' = statusText s /\ statusIndicator s' = statusIndicator s.
Proof.
  intros H. destruct s as [up r se si st ll al]. cbn in H. subst up.
  cbn. repeat split; reflexivity.
Qed.

Lemma refresh_answered (t : Z) (d : RobotData) (s : St) (c : Q * Q) :
  coordinates d = Some c ->
  refresh t (FetchReturns true d) s = onSuccess t d s.
Proof. intros H. cbn [refresh]. now rewrite H. Qed.

Lemma answered_ticks_when_up (ticks : list (Z * RobotData)) :
  Forall (fun tick => is_Some (coordinates (snd tick))) ticks ->
  forall s, isConnected s = true ->
    let s' := answered_ticks ticks s in
    isConnected s' = true /\ logList s' = logList s /\
    statusText s' = statusText s /\ statusIndicator s' = statusIndicator s.
Proof.
  unfold answered_ticks. cbv zeta.
  induction 1 as [| [t d] ticks [c Hc] _ IH]; intros s Hup;
    cbn [fold_left].
  - now rewrite Hup.
  - cbn [fst snd] in *. rewrite (refresh_answered t d s c Hc).
    destruct (onSuccess_when_up t d s Hup) as (Hup' & _ & Hl & Ht & Hi).
    destruct (IH _ Hup') as (H1 & H2 & H3 & H4).
    rewrite H1, H2, H3, H4. now rewrite Hl, Ht, Hi.
Qed.

Lemma answered_ticks_as_run (ticks : list (Z * RobotData)) (s : St) :
  answered_ticks ticks s
  = run (map (fun tick => (fst tick, FetchReturns true (snd tick))) ticks) s.
Proof.
  unfold answered_ticks, run. revert s.
  induction ticks as [| tick ticks IH]; intros s; cbn [map fold_left];
    [reflexivity |].
  cbn [fst snd]. apply IH.
Qed.

(** X26. The "connected" transition fires once.  From a disconnected
    state, the first answered status tick marks the poller connected,
    shows the online status and adds one log line; any further answered
    ticks add no log line and leave the status display alone; and no
    "disconnected" alert is active afterwards. *)
Theorem reconnect_fires_once :
  forall (t : Z) (d : RobotData) (later : list (Z * RobotData)) (s : St),
    isConnected s = false ->
    is_Some (coordinates d) ->
    Forall (fun tick => is_Some (coordinates (snd tick))) later ->
    let s' := answered_ticks ((t, d) :: later) s in
    isConnected s' = true /\
    statusIndicator s'
    = (fun _ => "status-dot status-dot--online") <$> statusIndicator s /\
    statusText s' = (fun _ => "已连接") <$> statusText s /\
    logList s'
    = (fun items => take maxItems (connect_entry t :: items)) <$> logList s
    /\ no_disconnect_alert s'.
Proof.
  intros t d later s Hdown [c Hc] Hlater s'. subst s'.
  unfold answered_ticks. cbn [fold_left fst snd].
  fold (answered_ticks later (refresh t (FetchReturns true d) s)).
  set (s1 := refresh t (FetchReturns true d) s).
  assert (isConnected s1 = true /\
          statusIndicator s1
          = (fun _ => "status-dot status-dot--online") <$> statusIndicator s
          /\ statusText s1 = (fun _ => "已连接") <$> statusText s /\
          logList s1
          = (fun items => take maxItems (connect_entry t :: items))
              <$> logList s) as (Hup & Hi & Ht & Hl).
  { subst s1. cbn [refresh]. rewrite Hc. unfold onSuccess, set_robot.
    cbn [isConnected]. rewrite Hdown. cbn.
    repeat split; now destruct s as [? ? ? [?|] [?|] [?|] ?]. }
  destruct (answered_ticks_when_up later Hlater s1 Hup)
    as (Hup' & Hl' & Ht' & Hi').
  cbv zeta in *. rewrite Hl', Ht', Hi'.
  repeat match goal with |- _ /\ _ => split end; try assumption.
  assert (poller_invariant (answered_ticks later s1)) as Hinv.
  { rewrite answered_ticks_as_run.
    apply AppFacts.run_keeps_invariant. subst s1.
    apply AppFacts.refresh_keeps_invariant.
    now apply AppFacts.invariant_when_down. }
  now apply Hinv.
Qed.

Lemma reconnect_fires_once_witness :
  let s := {| isConnected := false;
              robot := {| readings := ∅; coordinates := Some (0%Q, 0%Q) |};
              sensors := ∅;
              statusIndicator := Some "status-dot status-dot--offline";
              statusText := Some "未连接";
              logList := Some [];
              alerts := Some (AlertService.init_state true) |} in
  let d := {| readings := {[ "battery" := 85%Q ]};
              coordinates := Some (30%Q, 120%Q) |} in
  let s' := answered_ticks [(0%Z, d); (2000%Z, d); (4000%Z, d)] s in
  isConnected s' = true /\ statusText s' = Some "已连接" /\
  logList s' = Some [connect_entry 0].
Proof.
  cbv zeta.
  pose proof (reconnect_fires_once 0
                {| readings := {[ "battery" := 85%Q ]};
                   coordinates := Some (30%Q, 120%Q) |}
                [(2000%Z, {| readings := {[ "battery" := 85%Q ]};
                             coordinates := Some (30%Q, 120%Q) |});
                 (4000%Z, {| readings := {[ "battery" := 85%Q ]};
                             coordinates := Some (30%Q, 120%Q) |})]
                {| isConnected := false;
                   robot := {| readings := ∅;
                               coordinates := Some (0%Q, 0%Q) |};
                   sensors := ∅;
                   statusIndicator := Some "status-dot status-dot--offline";
                   statusText := Some "未连接";
                   logList := Some [];
                   alerts := Some (AlertService.init_state true) |}
                eq_refl (ex_intro _ _ eq_refl)
                ltac:(repeat constructor; eexists; reflexivity))
    as (H1 & _ & H3 & H4 & _).
  split; [exact H1 |]. split; [exact H3 | exact H4].
Defined.

Lemma log_add_bounded (now : Z) (message type : string) (s : St) :
  forall items, logList (log_add now message type s) = Some items ->
    length items <= maxItems.
Proof.
  intros items. unfold log_add. cbn [logList].
  destruct (logList s) as [old |]; [| discriminate].
  intros [= Heq]. rewrite <- Heq. cbn [length]. rewrite length_take.
  unfold maxItems. lia.
Qed.

Lemma with_alerts_log (f : AlertService.St -> AlertService.St) (s : St) :
  logList (with_alerts f s) = logList s.
Proof. reflexivity. Qed.

Lemma onFailure_log_bounded (t : Z) (s : St) :
  log_bounded s -> log_bounded (onFailure t s).
Proof.
  intros H. unfold onFailure. destruct (isConnected s); [| exact H].
  intros items. rewrite with_alerts_log. apply log_add_bounded.
Qed.

Lemma handle_log_bounded (e : Event) (s : St) :
  log_bounded s -> log_bounded (handle s e).
Proof.
  intros H. destruct e as [now f | now r | now r]; cbn [handle].
  - destruct f as [| [|] d]; cbn [refresh].
    + now apply onFailure_log_bounded.
    + destruct (coordinates d).
      * unfold onSuccess. intros items. cbn zeta. rewrite with_alerts_log.
        destruct (negb (isConnected (set_robot d s))).
        -- rewrite with_alerts_log. apply log_add_bounded.
        -- apply H.
      * now apply onFailure_log_bounded.
    + exact H.
  - unfold move, control. destruct r as [| [|] m]; [| | exact H];
      intros items; apply log_add_bounded.
  - unfold executeAction, control. destruct r as [| [|] m]; [| | exact H];
      intros items; apply log_add_bounded.
Qed.

Lemma events_log_bounded (es : list Event) :
  forall s, log_bounded s -> log_bounded (events es s).
Proof.
  unfold events. induction es as [| e es IH]; intros s H; cbn [fold_left];
    [exact H |].
  apply IH. now apply handle_log_bounded.
Qed.

Lemma handle_log_present (e : Event) (s : St) :
  is_Some (logList s) -> is_Some (logList (handle s e)).
Proof.
  intros [l Hl]. destruct s as [up r se si st ll al]. cbn in Hl. subst ll.
  destruct e as [now f | now r0 | now r0]; cbn [handle].
  - destruct f as [| [|] d]; cbn [refresh].
    + destruct up; cbn; eapply mk_is_Some; reflexivity.
    + destruct (coordinates d); destruct up; cbn; eapply mk_is_Some;
        reflexivity.
    + eapply mk_is_Some; reflexivity.
  - destruct r0 as [| [|] m]; cbn; eapply mk_is_Some; reflexivity.
  - destruct r0 as [| [|] m]; cbn; eapply mk_is_Some; reflexivity.
Qed.

Lemma events_log_present (es : list Event) :
  forall s, is_Some (logList s) -> is_Some (logList (events es s)).
Proof.
  unfold events. induction es as [| e es IH]; intros s H; cbn [fold_left];
    [exact H |].
  apply IH. now apply handle_log_present.
Qed.

(** X27. The log list of the page never shows more than 10 lines, whatever
    poller ticks and control requests happen, and a line that is added is
    the first of the list, above the lines that were there, of which the
    oldest is dropped when there were 10. *)
Theorem log_list_is_bounded :
  forall (es : list Event) (s : St) (items : list LogItem),
    logList s = Some items ->
    length items <= maxItems ->
    (exists items', logList (events es s) = Some items' /\
                    length items' <= maxItems) /\
    forall (now : Z) (message type : string),
      logList (log_add now message type s)
      = Some ({| log_time := now; log_message := message;
                 log_type := type |} :: take (maxItems - 1) items).
Proof.
  intros es s items Hs Hlen. split.
  - destruct (events_log_present es s (ex_intro _ _ Hs)) as [items' Hitems'].
    exists items'. split; [exact Hitems' |].
    apply (events_log_bounded es s); [| exact Hitems'].
    intros l Hl. rewrite Hs in Hl. now injection Hl as <-.
  - intros now message type. unfold log_add. cbn [logList]. rewrite Hs.
    reflexivity.
Qed.

Lemma log_list_is_bounded_witness :
  let s := {| isConnected := true;
              robot := {| readings := ∅; coordinates := Some (0%Q, 0%Q) |};
              sensors := ∅;
              statusIndicator := None; statusText := None;
              logList := Some [];
              alerts := None |} in
  exists items',
    logList (events [Move 0 (ApiReturns true "指令已发送: 前进");
                     Tick 1 FetchThrows;
                     Execute 2 ApiThrows] s) = Some items' /\
    length items' <= maxItems.
Proof.
  cbv zeta.
  apply (fun H => proj1 (log_list_is_bounded
                 [Move 0 (ApiReturns true "指令已发送: 前进");
                  Tick 1 FetchThrows; Execute 2 ApiThrows]
                 {| isConnected := true;
                    robot := {| readings := ∅;
                                coordinates := Some (0%Q, 0%Q) |};
                    sensors := ∅;
                    statusIndicator := None; statusText := None;
                    logList := Some [];
                    alerts := None |} [] eq_refl H)).
  unfold maxItems. cbn. lia.
Defined.

End AppEventsFacts.

(* ===================================================================== *)
(** * Timers, chart history and video retries *)
(* ===================================================================== *)

Module TimersFacts.
Import Timers.

Lemma startAll_timers (s : State) :
  dom (timers s) ⊆ {[ "time"; "robot"; "sensors"; "stats"; "tasks" ]} ->
  let n := next_id s in
  timers (startAll s)
  = <["tasks" := n + 4]> (<["stats" := n + 3]> (<["sensors" := n + 2]>
      (<["robot" := n + 1]> (<["time" := n]> ∅)))).
Proof.
  intros Hdom n. subst n. unfold startAll, start. cbn [timers next_id].
  apply map_eq. intros k.
  replace (S (S (S (S (next_id s))))) with (next_id s + 4) by lia.
  replace (S (S (S (next_id s)))) with (next_id s + 3) by lia.
  replace (S (S (next_id s))) with (next_id s + 2) by lia.
  replace (S (next_id s)) with (next_id s + 1) by lia.
  destruct (decide (k = "tasks")) as [-> | H1];
    [now rewrite !lookup_insert_eq |].
  rewrite !(lookup_insert_ne _ "tasks") by congruence.
  destruct (decide (k = "stats")) as [-> | H2];
    [now rewrite !lookup_insert_eq |].
  rewrite !(lookup_insert_ne _ "stats") by congruence.
  destruct (decide (k = "sensors")) as [-> | H3];
    [now rewrite !lookup_insert_eq |].
  rewrite !(lookup_insert_ne _ "sensors") by congruence.
  destruct (decide (k = "robot")) as [-> | H4];
    [now rewrite !lookup_insert_eq |].
  rewrite !(lookup_insert_ne _ "robot") by congruence.
  destruct (decide (k = "time")) as [-> | H5];
    [now rewrite !lookup_insert_eq |].
  rewrite !(lookup_insert_ne _ "time") by congruence.
  rewrite lookup_empty. apply not_elem_of_dom. intros Hk.
  apply Hdom in Hk. rewrite !elem_of_union, !elem_of_singleton in Hk.
  destruct Hk as [[[[Hk | Hk] | Hk] | Hk] | Hk]; congruence.
Qed.

Lemma startAll_img (s : State) :
  dom (timers s) ⊆ {[ "time"; "robot"; "sensors"; "stats"; "tasks" ]} ->
  forall id, id ∈ map_img (SA := gset nat) (timers (startAll s))
             <-> next_id s <= id <= next_id s + 4.
Proof.
  intros Hdom id. rewrite (startAll_timers s Hdom). cbv zeta.
  rewrite elem_of_map_img. split.
  - intros [k Hk].
    repeat (apply lookup_insert_Some in Hk as [[_ <-] | [_ Hk]]; [lia |]).
    now rewrite lookup_empty in Hk.
  - intros Hid.
    destruct (decide (id = next_id s)) as [-> | ?];
      [exists "time"; reflexivity |].
    destruct (decide (id = next_id s + 1)) as [-> | ?];
      [exists "robot"; reflexivity |].
    destruct (decide (id = next_id s + 2)) as [-> | ?];
      [exists "sensors"; reflexivity |].
    destruct (decide (id = next_id s + 3)) as [-> | ?];
      [exists "stats"; reflexivity |].
    assert (id = next_id s + 4) as -> by lia.
    exists "tasks". reflexivity.
Qed.

Lemma startAll_times_spec (n : nat) :
  let s := startAll_times n state0 in
  next_id s = 1 + 5 * n /\
  dom (timers s) ⊆ {[ "time"; "robot"; "sensors"; "stats"; "tasks" ]} /\
  forall id, id ∈ running s <-> 1 <= id <= 5 * n.
Proof.
  cbv zeta. unfold startAll_times.
  induction n as [| n (Hnext & Hdom & Hrun)];
    [cbn | rewrite Nat.iter_succ].
  - split; [reflexivity |]. split; [set_solver |].
    intros id. cbn. split; [set_solver | lia].
  - set (s := Nat.iter n startAll state0) in *.
    split; [unfold startAll, start; cbn [next_id]; lia |].
    split.
    + rewrite (startAll_timers s Hdom). cbv zeta. rewrite !dom_insert.
      set_solver.
    + intros id. unfold startAll, start. cbn [running next_id].
      rewrite !elem_of_union, !elem_of_singleton, Hrun. lia.
Qed.

(** X28. [stopAll] clears the intervals of the last [startAll] only.
    After [startAll] has run [n + 1] times in a row from the initial
    state, every key of [State.timers] holds the id of its latest
    interval, [stopAll] clears those five and empties [State.timers], and
    the [5 * n] intervals of the earlier runs keep running with no
    reference to them left; after a single [startAll] none is left. *)
Theorem stopAll_clears_last_start_only :
  forall n : nat,
    let s := stopAll (startAll_times (S n) state0) in
    timers s = ∅ /\
    (forall id, id ∈ running s <-> 1 <= id <= 5 * n) /\
    size (running s) = 5 * n /\
    (n = 0 -> running s = ∅).
Proof.
  intros n s.
  assert (forall id, id ∈ running s <-> 1 <= id <= 5 * n) as Hrun.
  { intros id. subst s. unfold stopAll, startAll_times. cbn [running].
    rewrite Nat.iter_succ. fold (startAll_times n state0).
    destruct (startAll_times_spec n) as (Hnext & Hdom & _).
    destruct (startAll_times_spec (S n)) as (_ & _ & Hrun).
    cbv zeta in *. unfold startAll_times in Hrun at 1.
    rewrite Nat.iter_succ in Hrun. fold (startAll_times n state0) in Hrun.
    rewrite elem_of_difference, Hrun, (startAll_img _ Hdom), Hnext. lia. }
  split; [reflexivity |]. split; [exact Hrun |]. split.
  - assert (running s = list_to_set (seq 1 (5 * n))) as ->.
    { apply set_eq. intros id. rewrite Hrun, elem_of_list_to_set, elem_of_seq.
      lia. }
    rewrite size_list_to_set by apply NoDup_seq. apply length_seq.
  - intros ->. apply set_eq. intros id. rewrite Hrun, elem_of_empty. lia.
Qed.

Lemma stopAll_clears_last_start_only_witness :
  running (stopAll (startAll state0)) = ∅.
Proof.
  pose proof (stopAll_clears_last_start_only 0) as H. cbv zeta in H.
  destruct H as (_ & _ & _ & H). apply H. reflexivity.
Defined.

End TimersFacts.

Module ChartServiceFacts.
Import ChartService.

Lemma tail_drop {A : Type} (l : list A) :
  forall k, tail (drop k l) = drop (S k) l.
Proof.
  induction l as [| a l IH]; intros k; [now destruct k |].
  destruct k as [| k]; [now rewrite drop_0 | apply IH].
Qed.

Lemma window_push {A : Type} (l : list A) (x : A) :
  (if Nat.ltb maxDataPoints (length (window l ++ [x]))
   then tail (window l ++ [x]) else window l ++ [x])
  = window (l ++ [x]).
Proof.
  unfold window. rewrite !length_app, length_drop. cbn [length].
  destruct (Nat.ltb maxDataPoints _) eqn:E.
  - apply Nat.ltb_lt in E. unfold maxDataPoints in *.
    assert (20 <= length l) as Hlen by lia.
    replace (length l + 1 - 20) with (S (length l - 20)) by lia.
    rewrite drop_app_le by lia. rewrite <- tail_drop.
    destruct (drop (length l - 20) l) as [| y w] eqn:Hw; [| reflexivity].
    apply (f_equal length) in Hw. rewrite length_drop in Hw. cbn in Hw.
    lia.
  - apply Nat.ltb_ge in E. unfold maxDataPoints in *.
    replace (length l + 1 - 20) with 0 by lia.
    replace (length l - 20) with 0 by lia. reflexivity.
Qed.

Lemma window_length {A : Type} (l : list A) :
  length (window l) = Nat.min (length l) maxDataPoints.
Proof. unfold window. rewrite length_drop. lia. Qed.

Lemma update_pushes (now : Z) (robotData sensorData : gmap string Q)
    (h : History) :
  let pushed :=
    {| labels := labels h ++ [now];
       battery := battery h ++ [default 0%Q (robotData !! "battery")];
       soilHumidity :=
         soilHumidity h ++ [default 0%Q (sensorData !! "soilHumidity")];
       temperature :=
         temperature h ++ [default 0%Q (sensorData !! "soilTemp")];
       light :=
         light h ++ [Js.fl (default 0%Q (sensorData !! "light") / 100)] |} in
  update now robotData sensorData h
  = if Nat.ltb 20 (length (labels h) + 1)
    then {| labels := tail (labels pushed);
            battery := tail (battery pushed);
            soilHumidity := tail (soilHumidity pushed);
            temperature := tail (temperature pushed);
            light := tail (light pushed) |}
    else pushed.
Proof.
  cbv zeta. unfold update. cbn [labels]. rewrite length_app. cbn [length].
  reflexivity.
Qed.

(** X29. The chart history is a rolling window.  After any number of
    calls of [update] from the empty history, each of the five series
    holds the values pushed by the last 20 calls, oldest first (all of
    them while there were at most 20), so the five series always have the
    same length, at most 20.  What a call pushes is: the time of the call
    on the labels; the member [battery] of the robot data on the battery
    series; the member [soilHumidity] of the sensor data on the soil
    humidity series; the member [soilTemp] of the sensor data on the
    series named temperature; and the member [light] of the sensor data
    divided by 100 on the light series.  A member that is missing counts
    as 0 (so a missing light value is pushed as 0). *)
Theorem history_is_rolling_window :
  forall samples : list Sample,
    let h := updates samples history0 in
    let last20 {A : Type} (pushed : list A) : list A :=
      drop (length samples - 20) pushed in
    labels h = last20 ((fun x => at_time x) <$> samples) /\
    battery h
    = last20 ((fun x => default 0%Q (robotData x !! "battery"))
                <$> samples) /\
    soilHumidity h
    = last20 ((fun x => default 0%Q (sensorData x !! "soilHumidity"))
                <$> samples) /\
    temperature h
    = last20 ((fun x => default 0%Q (sensorData x !! "soilTemp"))
                <$> samples) /\
    light h
    = last20 ((fun x => Js.fl (default 0%Q (sensorData x !! "light") / 100))
                <$> samples) /\
    length (labels h) = Nat.min (length samples) 20 /\
    length (battery h) = length (labels h) /\
    length (soilHumidity h) = length (labels h) /\
    length (temperature h) = length (labels h) /\
    length (light h) = length (labels h).
Proof.
  intros samples h last20. subst h last20.
  assert (let h := updates samples history0 in
          labels h = window (at_time <$> samples) /\
          battery h
          = window ((fun x => battery_point (robotData x)) <$> samples) /\
          soilHumidity h
          = window ((fun x => soilHumidity_point (sensorData x))
                      <$> samples) /\
          temperature h
          = window ((fun x => temperature_point (sensorData x))
                      <$> samples) /\
          light h
          = window ((fun x => light_point (sensorData x)) <$> samples))
    as H.
  { induction samples as [| x samples IH] using rev_ind; [now cbn |].
    cbv zeta in *. destruct IH as (Hl & Hb & Hh & Ht & Hg).
    unfold updates in *. rewrite fold_left_app. cbn [fold_left].
    set (h := fold_left _ samples history0) in *.
    rewrite !fmap_app. cbn [fmap list_fmap].
    rewrite <- !window_push.
    unfold update. cbn [labels battery soilHumidity temperature light].
    rewrite Hl, Hb, Hh, Ht, Hg.
    rewrite !length_app, !window_length, !length_fmap.
    destruct (Nat.ltb maxDataPoints _); cbn; repeat split; reflexivity. }
  cbv zeta in *. destruct H as (Hl & Hb & Hh & Ht & Hg).
  unfold window, battery_point, soilHumidity_point, temperature_point,
    light_point, or_zero, maxDataPoints in *.
  rewrite !length_fmap in *.
  rewrite Hl, Hb, Hh, Ht, Hg.
  repeat match goal with |- _ /\ _ => split end; try reflexivity;
    rewrite !length_drop, !length_fmap; lia.
Qed.

Lemma history_is_rolling_window_witness :
  let sample (i : Z) : Sample :=
    {| at_time := i;
       robotData := if (i =? 3)%Z then ∅ else {[ "battery" := inject_Z i ]};
       sensorData := if (i =? 4)%Z then {[ "temperature" := 99%Q ]}
                     else {[ "soilHumidity" := 45%Q; "soilTemp" := 22%Q;
                             "light" := 8000%Q; "temperature" := 99%Q ]} |} in
  let h := updates (sample <$> [1; 2; 3; 4; 5]%Z) history0 in
  let h' :=
    updates (sample <$> (Z.of_nat <$> seq 1 22)) history0 in
  labels h = [1; 2; 3; 4; 5]%Z /\
  battery h = [1; 2; 0; 4; 5]%Q /\
  soilHumidity h = [45; 45; 45; 0; 45]%Q /\
  temperature h = [22; 22; 22; 0; 22]%Q /\
  light h = [80; 80; 80; 0; 80]%Q /\
  labels h' = Z.of_nat <$> seq 3 20 /\
  battery h' = 0%Q :: 4%Q :: (inject_Z <$> (Z.of_nat <$> seq 5 18)) /\
  length (light h') = 20.
Proof.
  cbv zeta.
  set (sample := fun i : Z =>
    {| at_time := i;
       robotData := if (i =? 3)%Z then ∅ else {[ "battery" := inject_Z i ]};
       sensorData := if (i =? 4)%Z then {[ "temperature" := 99%Q ]}
                     else {[ "soilHumidity" := 45%Q; "soilTemp" := 22%Q;
                             "light" := 8000%Q; "temperature" := 99%Q ]} |}).
  destruct (history_is_rolling_window (sample <$> [1; 2; 3; 4; 5]%Z))
    as (Hl & Hb & Hh & Ht & Hg & _).
  destruct (history_is_rolling_window (sample <$> (Z.of_nat <$> seq 1 22)))
    as (Hl' & Hb' & _ & _ & _ & Hn' & _ & _ & _ & Hgn').
  rewrite Hl, Hb, Hh, Ht, Hg, Hl', Hb', Hgn', Hn'.
  repeat split; vm_compute; reflexivity.
Defined.

End ChartServiceFacts.

Module VideoServiceFacts.
Import VideoService.

Lemma handleError_retry (s : State) :
  S (retryCount s) < maxRetries ->
  retryCount (handleError s) = S (retryCount s) /\
  scheduled_starts (handleError s) = S (scheduled_starts s).
Proof.
  intros H. unfold handleError. cbn [set_retryCount retryCount].
  apply Nat.ltb_lt in H. rewrite H. split; reflexivity.
Qed.

Lemma handleError_gives_up (s : State) :
  maxRetries <= S (retryCount s) ->
  handleError s
  = stop (updateStatus "连接失败" (set_retryCount (S (retryCount s)) s)).
Proof.
  intros H. unfold handleError. cbn [set_retryCount retryCount].
  apply Nat.ltb_ge in H. now rewrite H.
Qed.

Lemma errors_count (n : nat) (s : State) :
  retryCount s = 0 ->
  retryCount (errors n s) = n /\
  scheduled_starts (errors n s)
  = scheduled_starts s + Nat.min n (maxRetries - 1).
Proof.
  intros H0. unfold errors.
  induction n as [| n [IHr IHs]]; [cbn | rewrite Nat.iter_succ].
  - rewrite H0. split; [reflexivity | lia].
  - set (s1 := Nat.iter n handleError s) in *.
    destruct (Nat.lt_ge_cases (S (retryCount s1)) maxRetries) as [Hlt | Hge].
    + destruct (handleError_retry s1 Hlt) as [-> ->].
      rewrite IHr, IHs. rewrite IHr in Hlt. unfold maxRetries in *.
      split; lia.
    + rewrite (handleError_gives_up s1 Hge). cbn. rewrite IHr, IHs.
      rewrite IHr in Hge. unfold maxRetries in *. split; lia.
Qed.

(** X30. Retries are bounded, and giving up shows "stopped".  In a streak
    of [n] errors with no successful load in between, only the first four
    errors schedule a restart.  Every error from the fifth on stops the
    player, and the status "连接失败" that it writes is overwritten at
    once by the "已停止" of [stop], so the page never shows it.  A
    successful load or a manual refresh sets the count back to 0. *)
Theorem video_retries_are_bounded :
  forall (n : nat) (s : State),
    retryCount s = 0 ->
    let s' := errors n s in
    retryCount s' = n /\
    scheduled_starts s' = scheduled_starts s + Nat.min n (maxRetries - 1) /\
    (maxRetries <= n ->
     isPlaying s' = false /\ refreshTimer s' = None /\
     localStream s' = false /\
     videoStatus s' = (fun _ => "已停止") <$> videoStatus s) /\
    retryCount (handleLoad s') = 0 /\ retryCount (refresh s') = 0.
Proof.
  intros n s H0 s'. subst s'.
  destruct (errors_count n s H0) as [Hr Hs].
  split; [exact Hr |]. split; [exact Hs |]. split; [| split; reflexivity].
  intros Hn. destruct n as [| n]; [unfold maxRetries in Hn; lia |].
  unfold errors. rewrite Nat.iter_succ. fold (errors n s).
  destruct (errors_count n s H0) as [Hr' _].
  rewrite handleError_gives_up by (rewrite Hr'; exact Hn).
  assert (is_Some (videoStatus (errors n s)) <-> is_Some (videoStatus s))
    as Hpres.
  { clear. unfold errors.
    induction n as [| n IH]; [reflexivity | rewrite Nat.iter_succ].
    rewrite <- IH. set (s1 := Nat.iter n handleError s).
    unfold handleError. destruct (Nat.ltb _ _); cbn;
      rewrite fmap_is_Some; try rewrite fmap_is_Some; reflexivity. }
  cbn. repeat split.
  destruct (videoStatus s) as [x |] eqn:E.
  - destruct (proj2 Hpres (ex_intro _ _ eq_refl)) as [y ->]. reflexivity.
  - destruct (videoStatus (errors n s)) as [y |] eqn:E'; [| reflexivity].
    destruct (proj1 Hpres (ex_intro _ _ eq_refl)) as [z Hz]. discriminate.
Qed.

Lemma video_retries_are_bounded_witness :
  let s := {| isPlaying := true; retryCount := 0; refreshTimer := Some 7;
              localStream := false; videoStatus := Some "播放中";
              videoPlayIcon := Some "⏸"; scheduled_starts := 0 |} in
  retryCount s = 0 /\
  scheduled_starts (errors 6 s) = 4 /\
  videoStatus (errors 6 s) = Some "已停止".
Proof.
  cbv zeta. split; [reflexivity |].
  pose proof (video_retries_are_bounded 6
                {| isPlaying := true; retryCount := 0;
                   refreshTimer := Some 7; localStream := false;
                   videoStatus := Some "播放中"; videoPlayIcon := Some "⏸";
                   scheduled_starts := 0 |} eq_refl) as (_ & H2 & H3 & _).
  split; [exact H2 |].
  apply H3. unfold maxRetries. lia.
Defined.

End VideoServiceFacts.
